(** * The track database ([ml_tools/trackdatabase.py]) over a model of its HDF5 store

    The database keeps clips and tracks in one HDF5 file:
    [/clips/<clip_id>] is a group whose attributes are the clip's statistics
    and the [finished] marker, [/clips/<clip_id>/<track_id>] is an int16
    dataset of shape (frames, channels, height, width) with the track's
    attributes.  Every operation of [TrackDatabase] runs inside a
    [with HDF5Manager(...)] block, which takes the process-wide lock, opens the
    file, and on leaving the block closes the file and releases the lock --
    unless the open or the close raises, which leaves the lock taken.

    The development has three layers:
    - the values and the store ([pyval], [ndarray], [dataset], [group],
      [h5file]);
    - the code inside a [with] block, written in an exception/state monad
      [body] over the open file; and the [with] block itself,
      [with_manager_in], over a [world] that also holds the lock and a log
      of gateway events ([with_manager] is the block on a file that opens
      and closes);
    - a small interleaving machine whose threads make the steps of
      [HDF5Manager.__enter__] and [HDF5Manager.__exit__] -- [lock_acquire],
      [file_open], [file_close], [lock_release] -- around their blocks.

    Two modules follow the track database: [TrackExtractor], the pickled
    flat-file database and the hints file of [track-extractor.py], and
    [ExtractConfig], the settings record of [track/extractconfig.py]. *)

From Stdlib Require Import ZArith QArith Lia.
From stdpp Require Import gmap strings list sorting.

Local Close Scope Q_scope.
Local Open Scope Z_scope.

(** ** Python values *)

(** Scalars the collaborators (tracker, track record) hand over.  A Python
    float is kept as a rational; only its being zero or not is ever used. *)
Inductive pyval :=
| PNone
| PBool (b : bool)
| PInt (z : Z)
| PFloat (q : Q)
| PStr (s : string).

(** Python truth value, as used by [x or default]. *)
Definition truthy (v : pyval) : bool :=
  match v with
  | PNone => false
  | PBool b => b
  | PInt z => negb (z =? 0)
  | PFloat q => negb (Qnum q =? 0)
  | PStr s => negb (String.eqb s "")
  end.

(** [a or b] *)
Definition py_or (a b : pyval) : pyval := if truthy a then a else b.

(** [d.get(key, default)] on a dict with string keys *)
Definition dict_get (d : gmap string pyval) (key : string) (default : pyval) : pyval :=
  match d !! key with
  | Some v => v
  | None => default
  end.

(** ** numpy arrays *)

Inductive dtype := Int16 | Int32.

Definition dtype_bits (d : dtype) : Z :=
  match d with Int16 => 16 | Int32 => 32 end.

(** Two's complement reduction of an integer to [bits] bits, which is how
    [np.int16(...)] and [np.int32(...)] take an integer of a wider type in
    the numpy the code was written for; numpy 2 raises [OverflowError]
    instead, and what is stated of the values of the histories is stated for
    integers in range. *)
Definition wrap_signed (bits : Z) (z : Z) : Z :=
  (z + 2 ^ (bits - 1)) mod 2 ^ bits - 2 ^ (bits - 1).

Definition cast (d : dtype) (z : Z) : Z := wrap_signed (dtype_bits d) z.

(** HDF5 converts the elements that are written to a dataset; a value outside
    the range of the dataset's type becomes the nearest bound. *)
Definition saturate (d : dtype) (z : Z) : Z :=
  Z.max (- 2 ^ (dtype_bits d - 1)) (Z.min (2 ^ (dtype_bits d - 1) - 1) z).

Definition in_range (d : dtype) (z : Z) : Prop :=
  - 2 ^ (dtype_bits d - 1) <= z < 2 ^ (dtype_bits d - 1).

(** An array: element type, shape, and the elements in row-major order. *)
Record ndarray := mk_ndarray {
  nd_dtype : dtype;
  nd_shape : list nat;
  nd_data : list Z
}.

Definition shape_size (shape : list nat) : nat := foldr Nat.mul 1%nat shape.

Definition ndarray_wf (a : ndarray) : Prop :=
  length (nd_data a) = shape_size (nd_shape a) ∧
  Forall (in_range (nd_dtype a)) (nd_data a).

(** The freshly created dataset is filled with zeros. *)
Definition zeros (d : dtype) (shape : list nat) : ndarray :=
  mk_ndarray d shape (replicate (shape_size shape) 0).

(** [np.int32([...])] of a flat list of Python ints. *)
Definition np_int32 (xs : list Z) : ndarray :=
  mk_ndarray Int32 [length xs] (cast Int32 <$> xs).

(** [np.int16([[..], ..])] of a list of rows of equal length [width].  numpy
    gives the empty list the shape (0,). *)
Definition np_int16_rows (width : nat) (rows : list (list Z)) : ndarray :=
  match rows with
  | [] => mk_ndarray Int16 [0%nat] []
  | _ => mk_ndarray Int16 [length rows; width] (cast Int16 <$> concat rows)
  end.

(** [slice(start, stop).indices(n)] for step 1: negative bounds count from the
    end, everything is clamped into [0, n]. *)
Definition clamp_index (n : Z) (i : Z) : Z :=
  if i <? 0 then Z.max (i + n) 0 else Z.min i n.

Definition slice_indices (n : Z) (start stop : option Z) : Z * Z :=
  (from_option (clamp_index n) 0 start, from_option (clamp_index n) n stop).

(** [a[start:stop]] along the first axis. *)
Definition slice_first_axis (a : ndarray) (start stop : option Z) : ndarray :=
  match nd_shape a with
  | [] => a
  | n :: rest =>
      let '(lo, hi) := slice_indices (Z.of_nat n) start stop in
      let count := Z.to_nat (hi - lo) in
      let row := shape_size rest in
      mk_ndarray (nd_dtype a) (count :: rest)
        (take (count * row) (drop (Z.to_nat lo * row) (nd_data a)))
  end.

(** ** The HDF5 store *)

(** An attribute holds a scalar or an array. *)
Inductive attr_value :=
| AScalar (v : pyval)
| AArray (a : ndarray).

(** A dataset node: its contents, chunk shape, the creation options that do
    not change the contents (compression and the like), and its attributes. *)
Record dataset := mk_dataset {
  ds_array : ndarray;
  ds_chunks : list nat;
  ds_opts : list (string * pyval);
  ds_attrs : gmap string attr_value
}.

(** A clip node: a group with attributes whose members are track datasets.
    The code only ever creates datasets below a clip and groups below
    [/clips], so the two levels are typed accordingly. *)
Record group := mk_group {
  g_attrs : gmap string attr_value;
  g_members : gmap string dataset
}.

(** The file: the members of its [/clips] group, which the constructor of
    [TrackDatabase] creates together with the file.  Clip and track
    identifiers are link names, as the ids of the pipeline are: h5py would
    read a name with a slash in it as a path through several groups. *)
Record h5file := mk_h5file {
  clips : gmap string group
}.

(** What [TrackDatabase.__init__] writes when the file does not exist. *)
Definition new_database : h5file := mk_h5file ∅.

(** The character [ch] occurs in [s]. *)
Fixpoint has_char (ch : Ascii.ascii) (s : string) : bool :=
  match s with
  | EmptyString => false
  | String a s' => Ascii.eqb a ch || has_char ch s'
  end.

(** A link name, the name of one member of a group: it is not empty, it is
    not [.], which names the group itself, and it has no [/], which
    separates the names of a path, and no NUL, where the library's strings
    end.  The keys of the model's maps stand for link names, and an
    identifier handed to an operation is looked up as the key it is: the
    model speaks for the identifiers that are link names. *)
Definition slash : Ascii.ascii := Ascii.ascii_of_nat 47.

Definition link_name (s : string) : bool :=
  negb (String.eqb s "") && negb (String.eqb s ".") &&
  negb (has_char slash s) && negb (has_char Ascii.zero s).


(** Every clip and every track of the file is under a link name. *)
Definition store_plain (f : h5file) : bool :=
  forallb (λ cg, link_name cg.1 && forallb link_name (map_to_list (g_members cg.2)).*1)
    (map_to_list (clips f)).

(** Iterating over an HDF5 group yields the link names in the order of the
    group's name index, that is in increasing name order (link creation
    order is not tracked unless asked for, and the code does not ask). *)
Definition names {A} (m : gmap string A) : list string :=
  merge_sort String.le (map_to_list m).*1.

(** ** Exceptions and the code inside a [with] block *)

Inductive exn :=
| KeyError (key : string)
| ValueError (msg : string)
| TypeError (msg : string)
| OSError (msg : string)
| InjectedFault.

Inductive mode := ModeR | ModeA.

(** The state of an open session: the file as the handle sees it, the mode it
    was opened in, and a fuse for fault injection: [Some k] lets [k] more
    mutating calls through and makes the next one raise [InjectedFault]. *)
Record session := mk_session {
  s_file : h5file;
  s_mode : mode;
  s_fuse : option nat
}.

Inductive outcome (A : Type) :=
| Returned (a : A)
| Raised (e : exn).
Arguments Returned {A} a.
Arguments Raised {A} e.

(** A computation inside the block.  What it wrote before raising stays
    written: the state comes back also with [Raised]. *)
Definition body (A : Type) : Type := session → outcome A * session.

Definition ret {A} (a : A) : body A := λ s, (Returned a, s).

Definition raise {A} (e : exn) : body A := λ s, (Raised e, s).

Definition bind {A B} (k : A → body B) (m : body A) : body B :=
  λ s, match m s with
       | (Returned a, s') => k a s'
       | (Raised e, s') => (Raised e, s')
       end.

(** The monad notations of stdpp: [x ← c; k] and [c;; k]. *)
#[global] Instance body_ret : MRet body := @ret.
#[global] Instance body_bind : MBind body := @bind.

(** [for x in xs: f(x)] *)
Fixpoint for_each {A} (f : A → body unit) (xs : list A) : body unit :=
  match xs with
  | [] => ret tt
  | x :: xs' => f x;; for_each f xs'
  end.

Definition get_file : body h5file := λ s, (Returned (s_file s), s).

Definition put_file (f : h5file) : body unit :=
  λ s, (Returned tt, mk_session f (s_mode s) (s_fuse s)).

(** Every mutating call needs a file opened for writing, and is where an
    injected fault strikes. *)
Definition need_write : body unit :=
  λ s, match s_mode s with
       | ModeR => (Raised (ValueError "no write intent on file"), s)
       | ModeA => (Returned tt, s)
       end.

Definition tick : body unit :=
  λ s, match s_fuse s with
       | None => (Returned tt, s)
       | Some O => (Raised InjectedFault, mk_session (s_file s) (s_mode s) None)
       | Some (S k) => (Returned tt, mk_session (s_file s) (s_mode s) (Some k))
       end.

Definition mutating : body unit := need_write;; tick.

(** [f.flush()]: no change to what the file holds, but a call that can fail. *)
Definition flush : body unit := tick.

(** *** Calls on the open file

    An h5py [Group] or [Dataset] object is a handle on a node of the open
    file: what is written through it is written to the file.  A handle is
    therefore modelled by the path of its node, a clip name or a pair of a
    clip name and a track name, and every call goes to the file.  A name is
    looked up as the link name it is; an identifier with a [/] is a path for
    h5py, and what is stated of identifiers is stated for link names
    ([link_name]) on a file whose names are link names ([store_plain]). *)

(** The file with the node [/clips/<clip>] set to [g]. *)
Definition put_group (f : h5file) (clip : string) (g : group) : h5file :=
  mk_h5file (<[clip := g]> (clips f)).

(** [clip_id in clips] *)
Definition clips_contains (clip_id : string) : body bool :=
  f ← get_file; ret (bool_decide (is_Some (clips f !! clip_id))).

(** [clips[clip_id]] *)
Definition clips_getitem (clip_id : string) : body string :=
  f ← get_file;
  match clips f !! clip_id with
  | Some _ => ret clip_id
  | None => raise (KeyError clip_id)
  end.

(** [del clips[clip_id]]: the node goes with everything below it. *)
Definition clips_delitem (clip_id : string) : body unit :=
  mutating;;
  f ← get_file;
  match clips f !! clip_id with
  | Some _ => put_file (mk_h5file (delete clip_id (clips f)))
  | None => raise (KeyError clip_id)
  end.

(** [clips.create_group(clip_id)]: refused when the name is taken. *)
Definition clips_create_group (clip_id : string) : body string :=
  mutating;;
  f ← get_file;
  match clips f !! clip_id with
  | Some _ => raise (ValueError "Unable to create group (name already exists)")
  | None =>
      put_file (put_group f clip_id (mk_group ∅ ∅));;
      ret clip_id
  end.

(** What [attrs[name] = value] can store: [None] has no HDF5 type, nor has an
    integer that fits neither a signed nor an unsigned 64-bit word, and a
    string goes to a variable-length string, which cannot hold a NUL. *)
Definition storable (v : pyval) : bool :=
  match v with
  | PNone => false
  | PInt z => (- 2 ^ 63 <=? z) && (z <? 2 ^ 64)
  | PStr s => negb (has_char Ascii.zero s)
  | _ => true
  end.

(** The bytes the elements of an array take. *)
Definition attr_bytes (a : ndarray) : Z :=
  Z.of_nat (length (nd_data a)) * (dtype_bits (nd_dtype a) / 8).

(** An array attribute is kept in the header of its object, in a message of
    less than 64 KB that also holds the name, the type and the shape of the
    attribute.  [message_overhead] is more room than these take for the
    names and the shapes the code writes, so an array that fits here fits in
    the file. *)
Definition message_overhead : Z := 512.

Definition fits_header (a : ndarray) : bool :=
  attr_bytes a + message_overhead <? 65536.

(** The exception of a value that cannot be stored. *)
Definition refusal (v : pyval) : exn :=
  match v with
  | PStr _ => ValueError "VLEN strings do not support embedded NULLs"
  | _ => TypeError "Object dtype has no native HDF5 equivalent"
  end.

Definition check_storable (v : attr_value) : body unit :=
  match v with
  | AScalar v => if storable v then ret tt else raise (refusal v)
  | AArray a =>
      if fits_header a then ret tt
      else raise (OSError "Unable to create attribute (object header message is too large)")
  end.

(** [name in clip.attrs] *)
Definition group_attrs_contains (clip : string) (name : string) : body bool :=
  f ← get_file;
  match clips f !! clip with
  | Some g => ret (bool_decide (is_Some (g_attrs g !! name)))
  | None => raise (KeyError clip)
  end.

(** [clip.attrs[name] = value] *)
Definition group_attrs_setitem (clip : string) (name : string) (v : attr_value)
  : body unit :=
  mutating;;
  check_storable v;;
  f ← get_file;
  match clips f !! clip with
  | Some g =>
      put_file (put_group f clip (mk_group (<[name := v]> (g_attrs g)) (g_members g)))
  | None => raise (KeyError clip)
  end.

(** [clip.attrs.items()] *)
Definition group_attrs_items (clip : string) : body (gmap string attr_value) :=
  f ← get_file;
  match clips f !! clip with
  | Some g => ret (g_attrs g)
  | None => raise (KeyError clip)
  end.

(** [for track in clips[clip]] *)
Definition group_keys (clip : string) : body (list string) :=
  f ← get_file;
  match clips f !! clip with
  | Some g => ret (names (g_members g))
  | None => raise (KeyError clip)
  end.

(** [clip[track_id]] *)
Definition group_getitem (clip : string) (track_id : string)
  : body (string * string) :=
  f ← get_file;
  match clips f !! clip with
  | Some g =>
      match g_members g !! track_id with
      | Some _ => ret (clip, track_id)
      | None => raise (KeyError track_id)
      end
  | None => raise (KeyError clip)
  end.

(** h5py refuses a chunk shape of another rank than the dataset, with an
    empty axis, or larger than the dataset along some axis. *)
Definition chunks_fit (dims chunks : list nat) : bool :=
  bool_decide (length dims = length chunks) &&
  forallb (λ dc, (0 <? dc.2)%nat && (dc.2 <=? dc.1)%nat) (zip dims chunks).

(** [clip.create_dataset(track_id, dims, chunks=chunks, ..., dtype=np.int16)].
    The creation options are kept with the dataset and not interpreted: what
    the library does with an option (a filter that loses precision, a
    keyword it does not know or is given twice) is outside the model, and
    what is stated of the stored contents is stated for the default
    options. *)
Definition group_create_dataset (clip : string) (track_id : string)
    (dims chunks : list nat) (opts : list (string * pyval))
  : body (string * string) :=
  mutating;;
  f ← get_file;
  match clips f !! clip with
  | Some g =>
      if negb (chunks_fit dims chunks) then
        raise (ValueError "Chunk shape must not be greater than data shape in any dimension")
      else if bool_decide (is_Some (g_members g !! track_id)) then
        raise (ValueError "Unable to create dataset (name already exists)")
      else
        put_file (put_group f clip
          (mk_group (g_attrs g)
             (<[track_id := mk_dataset (zeros Int16 dims) chunks opts ∅]>
                (g_members g))));;
        ret (clip, track_id)
  | None => raise (KeyError clip)
  end.

(** Change the dataset behind a handle. *)
Definition update_dataset (dset : string * string) (upd : dataset → dataset)
  : body unit :=
  f ← get_file;
  match clips f !! dset.1 with
  | Some g =>
      match g_members g !! dset.2 with
      | Some d =>
          put_file (put_group f dset.1
            (mk_group (g_attrs g) (<[dset.2 := upd d]> (g_members g))))
      | None => raise (KeyError dset.2)
      end
  | None => raise (KeyError dset.1)
  end.

(** [dset[:,:,:,:] = track_data]: the values are converted to the dataset's
    element type. *)
Definition dataset_write_all (dset : string * string) (a : ndarray) : body unit :=
  mutating;;
  update_dataset dset (λ d,
    mk_dataset
      (mk_ndarray (nd_dtype (ds_array d)) (nd_shape (ds_array d))
         (saturate (nd_dtype (ds_array d)) <$> nd_data a))
      (ds_chunks d) (ds_opts d) (ds_attrs d)).

(** [dset.attrs[name] = value] *)
Definition dataset_attrs_setitem (dset : string * string) (name : string)
    (v : attr_value) : body unit :=
  mutating;;
  check_storable v;;
  update_dataset dset (λ d,
    mk_dataset (ds_array d) (ds_chunks d) (ds_opts d) (<[name := v]> (ds_attrs d))).

(** [dset.attrs.items()] *)
Definition dataset_attrs_items (dset : string * string)
  : body (gmap string attr_value) :=
  f ← get_file;
  match clips f !! dset.1 with
  | Some g =>
      match g_members g !! dset.2 with
      | Some d => ret (ds_attrs d)
      | None => raise (KeyError dset.2)
      end
  | None => raise (KeyError dset.1)
  end.

(** The field names of an element type: [dtype.names] is [None] unless the
    type is a compound one, and neither int16 nor int32 is. *)
Definition dtype_names (d : dtype) : option (list string) :=
  match d with Int16 => None | Int32 => None end.

(** [dset[name]] with a string: h5py reads this as the selection of the
    field [name] of a compound element type. *)
Definition dataset_getitem_field (dset : string * string) (name : string)
  : body ndarray :=
  f ← get_file;
  match clips f !! dset.1 with
  | Some g =>
      match g_members g !! dset.2 with
      | Some d =>
          match dtype_names (nd_dtype (ds_array d)) with
          | None => raise (ValueError "Field names only allowed for compound types")
          | Some fields =>
              if bool_decide (name ∈ fields) then ret (ds_array d)
              else raise (ValueError "Field does not appear in this type")
          end
      | None => raise (KeyError dset.2)
      end
  | None => raise (KeyError dset.1)
  end.

(** ** The collaborators *)

(** A [datetime]; the code only asks for its ISO-8601 text. *)
Record datetime := mk_datetime { isoformat : string }.

(** The tracker handed to [create_clip]. *)
Record tracker := mk_tracker {
  source_file : pyval;
  video_start_time : datetime;
  threshold : pyval;
  stats : gmap string pyval
}.

(** One entry of a track's [bounds_history]. *)
Record region := mk_region {
  r_left : Z; r_top : Z; r_right : Z; r_bottom : Z; r_mass : Z
}.

(** The track record handed to [add_track]; [get_stats] stands for
    [track.get_stats()._asdict().items()], the fields in their order. *)
Record track := mk_track {
  t_id : pyval;
  t_tag : pyval;
  start_time : datetime;
  end_time : datetime;
  get_stats : list (string * pyval);
  bounds_history : list region
}.

(** ** The [with] blocks of [TrackDatabase] *)

(** [has_clip], lines 58-59 *)
Definition has_clip_body (clip_id : string) : body bool :=
  present ← clips_contains clip_id;
  if present : bool then
    clip ← clips_getitem clip_id;
    group_attrs_contains clip "finished"
  else ret false.

(** [create_clip], lines 71-90 *)
Definition create_clip_body (clip_id : string) (tracker : option tracker)
    (overwrite : bool) : body unit :=
  (if overwrite then
     present ← clips_contains clip_id;
     if present : bool then clips_delitem clip_id else ret tt
   else ret tt);;
  clip ← clips_create_group clip_id;
  match tracker with
  | Some tracker =>
      group_attrs_setitem clip "filename" (AScalar (source_file tracker));;
      group_attrs_setitem clip "start_time"
        (AScalar (PStr (isoformat (video_start_time tracker))));;
      group_attrs_setitem clip "threshold" (AScalar (threshold tracker));;
      group_attrs_setitem clip "confidence"
        (AScalar (py_or (dict_get (stats tracker) "confidence" (PFloat 0)) (PFloat 0)));;
      group_attrs_setitem clip "trap"
        (AScalar (py_or (dict_get (stats tracker) "trap" (PStr "")) (PStr "")));;
      group_attrs_setitem clip "event"
        (AScalar (py_or (dict_get (stats tracker) "event" (PStr "")) (PStr "")));;
      group_attrs_setitem clip "average_background_delta"
        (AScalar (dict_get (stats tracker) "average_background_delta" (PInt 0)));;
      group_attrs_setitem clip "mean_temp"
        (AScalar (dict_get (stats tracker) "mean_temp" (PInt 0)));;
      group_attrs_setitem clip "max_temp"
        (AScalar (dict_get (stats tracker) "max_temp" (PInt 0)));;
      group_attrs_setitem clip "min_temp"
        (AScalar (dict_get (stats tracker) "min_temp" (PInt 0)))
  | None => ret tt
  end;;
  flush;;
  group_attrs_setitem clip "finished" (AScalar (PBool true)).

(** [get_all_track_ids], lines 97-101: the outer loop over the clips still to
    visit, the inner one over the members of the clip. *)
Fixpoint clips_loop (todo : list string) (result : list (string * string))
  : body (list (string * string)) :=
  match todo with
  | [] => ret result
  | clip :: todo' =>
      node ← clips_getitem clip;
      tracks ← group_keys node;
      clips_loop todo' (result ++ ((λ track, (clip, track)) <$> tracks))
  end.

Definition get_all_track_ids_body : body (list (string * string)) :=
  f ← get_file;
  clips_loop (names (clips f)) [].

(** [get_track_meta], lines 112-114; the ids are strings, on which [str] is
    the identity. *)
Definition get_track_meta_body (clip_id track_id : string)
  : body (gmap string attr_value) :=
  clip ← clips_getitem clip_id;
  dset ← group_getitem clip track_id;
  dataset_attrs_items dset.

(** [get_clip_meta], lines 124-126 *)
Definition get_clip_meta_body (clip_id : string) : body (gmap string attr_value) :=
  clip ← clips_getitem clip_id;
  group_attrs_items clip.

(** [get_track], lines 139-142 *)
Definition get_track_body (clip_id track_id : string)
    (start_frame end_frame : option Z) : body ndarray :=
  clip ← clips_getitem clip_id;
  track_node ← group_getitem clip track_id;
  dset ← dataset_getitem_field track_node track_id;
  ret (slice_first_axis dset start_frame end_frame).

(** [if opts:] is true of a non-empty dict. *)
Definition opts_given (opts : option (list (string * pyval))) : bool :=
  match opts with
  | Some (_ :: _) => true
  | _ => false
  end.

(** The frame history written by lines 199-200. *)
Definition mass_history (t : track) : ndarray :=
  np_int32 (r_mass <$> bounds_history t).

Definition bounds_rows (t : track) : ndarray :=
  np_int16_rows 4
    ((λ b, [r_left b; r_top b; r_right b; r_bottom b]) <$> bounds_history t).

(** [add_track], lines 168-206, for the four axis lengths unpacked in
    line 165. *)
Definition add_track_body (clip_id track_id : string) (track_data : ndarray)
    (frames channels height width : nat)
    (track : option track) (opts : option (list (string * pyval))) : body unit :=
  clip_node ← clips_getitem clip_id;
  let chunks := [9%nat; 1%nat; height; width] in
  let dims := [frames; channels; height; width] in
  dset ← (if opts_given opts then
            group_create_dataset clip_node track_id dims chunks (default [] opts)
          else
            group_create_dataset clip_node track_id dims chunks
              [("compression", PStr "lzf"); ("shuffle", PBool false)]);
  dataset_write_all dset track_data;;
  match track with
  | Some track =>
      dataset_attrs_setitem dset "id" (AScalar (t_id track));;
      dataset_attrs_setitem dset "tag" (AScalar (t_tag track));;
      dataset_attrs_setitem dset "start_time"
        (AScalar (PStr (isoformat (start_time track))));;
      dataset_attrs_setitem dset "end_time"
        (AScalar (PStr (isoformat (end_time track))));;
      for_each (λ nv, dataset_attrs_setitem dset nv.1 (AScalar nv.2))
        (get_stats track);;
      dataset_attrs_setitem dset "mass_history" (AArray (mass_history track));;
      dataset_attrs_setitem dset "bounds_history" (AArray (bounds_rows track))
  | None => ret tt
  end;;
  flush;;
  group_attrs_setitem clip_node "finished" (AScalar (PBool true)).

(** ** The locking gateway, [HDF5Manager] *)

Inductive event :=
| EvAcquire
| EvOpen (m : mode)
| EvClose
| EvRelease.

(** The process as one caller sees it: the file on disk, the lock
    [hdf5_lock], the fuse of the fault injector, and the gateway events so
    far. *)
Record world := mk_world {
  w_file : h5file;
  w_locked : bool;
  w_fuse : option nat;
  w_log : list event
}.

(** How a call ends: it returns, it raises, or it waits for the lock for
    ever. *)
Inductive result (A : Type) :=
| Ok (a : A)
| Err (e : exn)
| Blocked.
Arguments Ok {A} a.
Arguments Err {A} e.
Arguments Blocked {A}.

(** [hdf5_lock.acquire()], line 27: [None] when the lock is taken. *)
Definition lock_acquire (w : world) : option world :=
  if w_locked w then None
  else Some (mk_world (w_file w) true (w_fuse w) (w_log w ++ [EvAcquire])).

(** What the two calls of the manager that the operating system can refuse
    answer in one [with] statement: [h5py.File] (line 28) raises or not, and
    [self.f.close()] (line 32) raises or not; with the exception of a close
    comes the file as the failed close leaves it. *)
Record answers := mk_answers {
  open_raises : option exn;
  close_raises : option (exn * h5file)
}.

(** The file opens and closes. *)
Definition healthy : answers := mk_answers None None.

(** [h5py.File(self.db, self.mode)], line 28: a session on the file, or the
    exception of the library; the lock is as it was either way. *)
Definition file_open (raises : option exn) (m : mode) (w : world)
  : outcome session * world :=
  match raises with
  | Some e => (Raised e, w)
  | None =>
      (Returned (mk_session (w_file w) m (w_fuse w)),
       mk_world (w_file w) (w_locked w) (w_fuse w) (w_log w ++ [EvOpen m]))
  end.

(** [self.f.close()], line 32: what the session wrote is on disk, or the
    close raises; the lock is as it was either way. *)
Definition file_close (raises : option (exn * h5file)) (s : session) (w : world)
  : outcome unit * world :=
  match raises with
  | Some (e, f) => (Raised e, mk_world f (w_locked w) (s_fuse s) (w_log w))
  | None =>
      (Returned tt, mk_world (s_file s) (w_locked w) (s_fuse s) (w_log w ++ [EvClose]))
  end.

(** [hdf5_lock.release()], line 33 *)
Definition lock_release (w : world) : world :=
  mk_world (w_file w) false (w_fuse w) (w_log w ++ [EvRelease]).

Definition result_of {A} (o : outcome A) : result A :=
  match o with
  | Returned a => Ok a
  | Raised e => Err e
  end.

(** [with HDF5Manager(db, mode) as f: block], lines 24-33, line by line.
    [__enter__] takes the lock and then opens the file; there is no [try]
    around the open, so when it raises, the exception leaves [__enter__] with
    the lock taken, and [__exit__] is not run.  After the block, returned or
    raised, [__exit__] closes the file and then releases the lock; when the
    close raises, line 33 is not reached.  [__exit__] returns [None], so an
    exception of the block goes on to the caller. *)
Definition with_manager_in {A} (env : answers) (m : mode) (block : body A)
    (w : world) : result A * world :=
  match lock_acquire w with
  | None => (Blocked, w)
  | Some w1 =>
      match file_open (open_raises env) m w1 with
      | (Raised e, w2) => (Err e, w2)
      | (Returned s, w2) =>
          let '(o, s') := block s in
          match file_close (close_raises env) s' w2 with
          | (Raised e, w3) => (Err e, w3)
          | (Returned _, w3) => (result_of o, lock_release w3)
          end
      end
  end.

(** The [with] statement on a file that opens and closes, which is how the
    operations below are modelled. *)
Definition with_manager {A} (m : mode) (block : body A) (w : world)
  : result A * world :=
  with_manager_in healthy m block w.

(** ** The operations of [TrackDatabase]

    [HDF5Manager(self.database)] opens with the default mode ['r'],
    [HDF5Manager(self.database, 'a')] for writing. *)

Definition has_clip (clip_id : string) : world → result bool * world :=
  with_manager ModeR (has_clip_body clip_id).

Definition create_clip (clip_id : string) (tracker : option tracker)
    (overwrite : bool) : world → result unit * world :=
  with_manager ModeA (create_clip_body clip_id tracker overwrite).

Definition get_all_track_ids : world → result (list (string * string)) * world :=
  with_manager ModeR get_all_track_ids_body.

Definition get_track_meta (clip_id track_id : string)
  : world → result (gmap string attr_value) * world :=
  with_manager ModeR (get_track_meta_body clip_id track_id).

Definition get_clip_meta (clip_id : string)
  : world → result (gmap string attr_value) * world :=
  with_manager ModeR (get_clip_meta_body clip_id).

Definition get_track (clip_id track_id : string) (start_frame end_frame : option Z)
  : world → result ndarray * world :=
  with_manager ModeR (get_track_body clip_id track_id start_frame end_frame).

(** [add_track]: line 165 unpacks the shape before the block is entered and
    raises when the array does not have four axes. *)
Definition add_track (clip_id track_id : string) (track_data : ndarray)
    (track : option track) (opts : option (list (string * pyval)))
  : world → result unit * world :=
  match nd_shape track_data with
  | [frames; channels; height; width] =>
      with_manager ModeA
        (add_track_body clip_id track_id track_data frames channels height width
           track opts)
  | _ => λ w, (Err (ValueError "wrong number of values to unpack"), w)
  end.

(** A world with a database, nobody in it. *)
Definition idle_world (f : h5file) : world := mk_world f false None [].

(** ** Predicates on blocks: weakest preconditions with two postconditions *)

(** [wp block Q E s]: run from [s], the block returns [a] in a session that
    satisfies [Q a], or raises [e] in a session that satisfies [E e]. *)
Definition wp {A} (block : body A) (Q : A → session → Prop)
    (E : exn → session → Prop) (s : session) : Prop :=
  match block s with
  | (Returned a, s') => Q a s'
  | (Raised e, s') => E e s'
  end.

(** The fault injector is armed. *)
Definition armed (s : session) : Prop := s_fuse s ≠ None.

(** [lands s f Q a]: [Q a] holds of every session open for writing on [f]
    whose fault injector is armed only if that of [s] is;
    [fails f E]: [E e] holds of every session open for writing on [f],
    whatever the exception. *)
Definition lands {A} (s : session) (f : h5file) (Q : A → session → Prop) (a : A)
  : Prop :=
  ∀ s', s_mode s' = ModeA → s_file s' = f → (armed s' → armed s) → Q a s'.

Definition fails (f : h5file) (E : exn → session → Prop) : Prop :=
  ∀ e s', s_mode s' = ModeA → s_file s' = f → E e s'.

Definition storable_attr (v : attr_value) : bool :=
  match v with
  | AScalar v => storable v
  | AArray a => fits_header a
  end.

(** ** [create_clip] *)

(** The attributes [create_clip] writes from a tracker, lines 78-87. *)
Definition tracker_attrs (tr : tracker) : gmap string attr_value :=
  <["min_temp" := AScalar (dict_get (stats tr) "min_temp" (PInt 0))]>
  (<["max_temp" := AScalar (dict_get (stats tr) "max_temp" (PInt 0))]>
  (<["mean_temp" := AScalar (dict_get (stats tr) "mean_temp" (PInt 0))]>
  (<["average_background_delta" :=
       AScalar (dict_get (stats tr) "average_background_delta" (PInt 0))]>
  (<["event" := AScalar (py_or (dict_get (stats tr) "event" (PStr "")) (PStr ""))]>
  (<["trap" := AScalar (py_or (dict_get (stats tr) "trap" (PStr "")) (PStr ""))]>
  (<["confidence" :=
       AScalar (py_or (dict_get (stats tr) "confidence" (PFloat 0)) (PFloat 0))]>
  (<["threshold" := AScalar (threshold tr)]>
  (<["start_time" := AScalar (PStr (isoformat (video_start_time tr)))]>
  (<["filename" := AScalar (source_file tr)]> ∅))))))))).

(** All the attributes of a clip node that [create_clip] has completed. *)
Definition clip_attrs (tr : option tracker) : gmap string attr_value :=
  <["finished" := AScalar (PBool true)]> (from_option tracker_attrs ∅ tr).

(** The values of the tracker that go to the store as they are can all be
    stored. *)
Definition tracker_storable (tr : tracker) : Prop :=
  storable (source_file tr) = true ∧
  storable (threshold tr) = true ∧
  storable (py_or (dict_get (stats tr) "confidence" (PFloat 0)) (PFloat 0)) = true ∧
  storable (py_or (dict_get (stats tr) "trap" (PStr "")) (PStr "")) = true ∧
  storable (py_or (dict_get (stats tr) "event" (PStr "")) (PStr "")) = true ∧
  storable (dict_get (stats tr) "average_background_delta" (PInt 0)) = true ∧
  storable (dict_get (stats tr) "mean_temp" (PInt 0)) = true ∧
  storable (dict_get (stats tr) "max_temp" (PInt 0)) = true ∧
  storable (dict_get (stats tr) "min_temp" (PInt 0)) = true ∧
  storable (PStr (isoformat (video_start_time tr))) = true.

(** How [create_clip]'s block can leave the file when it raises: as it was;
    or, when the name was free or to be overwritten, without the node, or
    with a new node that has no member and is not marked finished. *)
Definition create_clip_broken (f0 : h5file) (c : string) (overwrite : bool)
    (f' : h5file) : Prop :=
  f' = f0 ∨
  ((overwrite = true ∨ clips f0 !! c = None) ∧
   (f' = mk_h5file (delete c (clips f0)) ∨
    ∃ A, f' = put_group f0 c (mk_group A ∅) ∧ A !! "finished" = None)).

(** Why it can raise: an injected fault, a taken name that is not to be
    overwritten, or a tracker value that cannot be stored. *)
Definition create_clip_cause (s : session) (c : string) (tr : option tracker)
    (overwrite : bool) : Prop :=
  armed s ∨
  (overwrite = false ∧ is_Some (clips (s_file s) !! c)) ∨
  (∃ t, tr = Some t ∧ ¬ tracker_storable t).

(** How it leaves the file when it returns. *)
Definition create_clip_done (f0 : h5file) (c : string) (tr : option tracker)
    (overwrite : bool) (f' : h5file) : Prop :=
  (overwrite = true ∨ clips f0 !! c = None) ∧
  (∀ t, tr = Some t → tracker_storable t) ∧
  f' = put_group f0 c (mk_group (clip_attrs tr) ∅).

(** ** [add_track] *)

(** A dataset with one more attribute, and with new contents. *)
Definition set_attr (name : string) (v : attr_value) (d : dataset) : dataset :=
  mk_dataset (ds_array d) (ds_chunks d) (ds_opts d) (<[name := v]> (ds_attrs d)).

Definition set_data (a : ndarray) (d : dataset) : dataset :=
  mk_dataset
    (mk_ndarray (nd_dtype (ds_array d)) (nd_shape (ds_array d))
       (saturate (nd_dtype (ds_array d)) <$> nd_data a))
    (ds_chunks d) (ds_opts d) (ds_attrs d).

(** The creation options of line 179 or line 181. *)
Definition dataset_opts (opts : option (list (string * pyval)))
  : list (string * pyval) :=
  if opts_given opts then default [] opts
  else [("compression", PStr "lzf"); ("shuffle", PBool false)].

(** The attributes lines 190-200 write from a track record. *)
Definition track_attrs (tk : track) : list (string * attr_value) :=
  [("id", AScalar (t_id tk)); ("tag", AScalar (t_tag tk));
   ("start_time", AScalar (PStr (isoformat (start_time tk))));
   ("end_time", AScalar (PStr (isoformat (end_time tk))))] ++
  ((λ nv, (nv.1, AScalar nv.2)) <$> get_stats tk) ++
  [("mass_history", AArray (mass_history tk));
   ("bounds_history", AArray (bounds_rows tk))].

Definition set_attrs (kvs : list (string * attr_value)) (d : dataset) : dataset :=
  foldl (λ d kv, set_attr kv.1 kv.2 d) d kvs.

(** The dataset a completed [add_track] leaves behind. *)
Definition stored_track (track_data : ndarray) (dims : list nat)
    (track : option track) (opts : option (list (string * pyval))) : dataset :=
  set_attrs (from_option track_attrs [] track)
    (set_data track_data
       (mk_dataset (zeros Int16 dims) [9%nat; 1%nat; dims !!! 2%nat; dims !!! 3%nat]
          (dataset_opts opts) ∅)).

Definition track_storable (tk : track) : Prop :=
  storable (t_id tk) = true ∧ storable (t_tag tk) = true ∧
  Forall (λ nv, storable nv.2 = true) (get_stats tk) ∧
  storable (PStr (isoformat (start_time tk))) = true ∧
  storable (PStr (isoformat (end_time tk))) = true ∧
  fits_header (mass_history tk) = true ∧
  fits_header (bounds_rows tk) = true.

(** How [add_track]'s block can leave the file when it raises: as it was, or
    with some dataset under the new name and nothing else changed. *)
Definition add_track_broken (f0 : h5file) (c t : string) (f' : h5file) : Prop :=
  f' = f0 ∨
  ∃ g0 d, clips f0 !! c = Some g0 ∧ g_members g0 !! t = None ∧
          f' = put_group f0 c (mk_group (g_attrs g0) (<[t := d]> (g_members g0))).

(** Why it can raise. *)
Definition add_track_cause (s : session) (c t : string) (dims : list nat)
    (track : option track) : Prop :=
  armed s ∨
  clips (s_file s) !! c = None ∨
  (∃ g0, clips (s_file s) !! c = Some g0 ∧ is_Some (g_members g0 !! t)) ∨
  chunks_fit dims [9%nat; 1%nat; dims !!! 2%nat; dims !!! 3%nat] = false ∨
  (∃ tk, track = Some tk ∧ ¬ track_storable tk).

(** How it leaves the file when it returns. *)
Definition add_track_done (f0 : h5file) (c t : string) (track_data : ndarray)
    (dims : list nat) (track : option track)
    (opts : option (list (string * pyval))) (f' : h5file) : Prop :=
  ∃ g0, clips f0 !! c = Some g0 ∧ g_members g0 !! t = None ∧
        chunks_fit dims [9%nat; 1%nat; dims !!! 2%nat; dims !!! 3%nat] = true ∧
        f' = put_group f0 c
               (mk_group (<["finished" := AScalar (PBool true)]> (g_attrs g0))
                  (<[t := stored_track track_data dims track opts]> (g_members g0))).

(** The file with dataset [d] under the name [t] in the clip [c], whose node
    was [g0]. *)
Definition with_track (f0 : h5file) (c t : string) (g0 : group) (d : dataset)
  : h5file :=
  put_group f0 c (mk_group (g_attrs g0) (<[t := d]> (g_members g0))).

(** ** The gateway around a block *)

(** The gateway events of one [with] block. *)
Definition gateway_events (m : mode) : list event :=
  [EvAcquire; EvOpen m; EvClose; EvRelease].

(** ** What the queries compute *)

(** The clip node exists and carries the [finished] attribute. *)
Definition is_finished (f : h5file) (c : string) : bool :=
  match clips f !! c with
  | Some g => bool_decide (is_Some (g_attrs g !! "finished"))
  | None => false
  end.

(** The pairs below one clip, and all pairs, in the order of iteration. *)
Definition pairs_of_clip (f : h5file) (c : string) : list (string * string) :=
  match clips f !! c with
  | Some g => (λ t, (c, t)) <$> names (g_members g)
  | None => []
  end.

Definition track_pairs (f : h5file) : list (string * string) :=
  names (clips f) ≫= pairs_of_clip f.

(** ** The operations, seen from the caller *)

(** The session a block starts in. *)
Definition entry (m : mode) (w : world) : session :=
  mk_session (w_file w) m (w_fuse w).

(** ** Histories of calls *)

(** A call of one of the operations, with its arguments. *)
Inductive call :=
| HasClip (clip_id : string)
| CreateClip (clip_id : string) (tracker : option tracker) (overwrite : bool)
| GetAllTrackIds
| GetTrackMeta (clip_id track_id : string)
| GetClipMeta (clip_id : string)
| GetTrack (clip_id track_id : string) (start_frame end_frame : option Z)
| AddTrack (clip_id track_id : string) (track_data : ndarray)
    (track : option track) (opts : option (list (string * pyval))).

(** The world after the call. *)
Definition perform (k : call) (w : world) : world :=
  match k with
  | HasClip c => (has_clip c w).2
  | CreateClip c tr ov => (create_clip c tr ov w).2
  | GetAllTrackIds => (get_all_track_ids w).2
  | GetTrackMeta c t => (get_track_meta c t w).2
  | GetClipMeta c => (get_clip_meta c w).2
  | GetTrack c t s e => (get_track c t s e w).2
  | AddTrack c t a tk opts => (add_track c t a tk opts w).2
  end.

(** Whether the call ended by raising. *)
Definition raised (k : call) (w : world) : bool :=
  match k with
  | HasClip c => if (has_clip c w).1 is Err _ then true else false
  | CreateClip c tr ov => if (create_clip c tr ov w).1 is Err _ then true else false
  | GetAllTrackIds => if (get_all_track_ids w).1 is Err _ then true else false
  | GetTrackMeta c t => if (get_track_meta c t w).1 is Err _ then true else false
  | GetClipMeta c => if (get_clip_meta c w).1 is Err _ then true else false
  | GetTrack c t s e => if (get_track c t s e w).1 is Err _ then true else false
  | AddTrack c t a tk opts =>
      if (add_track c t a tk opts w).1 is Err _ then true else false
  end.

(** Whether the call waits for the lock for ever. *)
Definition blocked (k : call) (w : world) : bool :=
  match k with
  | HasClip c => if (has_clip c w).1 is Blocked then true else false
  | CreateClip c tr ov => if (create_clip c tr ov w).1 is Blocked then true else false
  | GetAllTrackIds => if (get_all_track_ids w).1 is Blocked then true else false
  | GetTrackMeta c t => if (get_track_meta c t w).1 is Blocked then true else false
  | GetClipMeta c => if (get_clip_meta c w).1 is Blocked then true else false
  | GetTrack c t s e => if (get_track c t s e w).1 is Blocked then true else false
  | AddTrack c t a tk opts =>
      if (add_track c t a tk opts w).1 is Blocked then true else false
  end.

(** The mode the call opens the file in. *)
Definition call_mode (k : call) : mode :=
  match k with
  | CreateClip _ _ _ | AddTrack _ _ _ _ _ => ModeA
  | _ => ModeR
  end.

(** Whether the call gets as far as its [with] block: [add_track] unpacks the
    shape first. *)
Definition enters (k : call) : bool :=
  match k with
  | AddTrack _ _ a _ _ => bool_decide (length (nd_shape a) = 4%nat)
  | _ => true
  end.

(** Setting the fault injector. *)
Definition arm (fuse : option nat) (w : world) : world :=
  mk_world (w_file w) (w_locked w) fuse (w_log w).

(** A history: calls, each with the setting of the fault injector it is made
    under. *)
Fixpoint run_history (h : list (option nat * call)) (w : world) : world :=
  match h with
  | [] => w
  | (fuse, k) :: h' => run_history h' (perform k (arm fuse w))
  end.

(** What a call that raised can have left of the file: a query nothing but
    the file as it was, and the two writers what their blocks can. *)
Definition left_behind (k : call) (w : world) : Prop :=
  match k with
  | CreateClip c _ ov => create_clip_broken (w_file w) c ov (w_file (perform k w))
  | AddTrack c t _ _ _ => add_track_broken (w_file w) c t (w_file (perform k w))
  | _ => w_file (perform k w) = w_file w
  end.

(** The call is a [create_clip] of the clip [c]. *)
Definition creates (c : string) (k : call) : bool :=
  match k with
  | CreateClip c' _ _ => bool_decide (c' = c)
  | _ => false
  end.

(** The ids the call is given are link names. *)
Definition call_plain (k : call) : bool :=
  match k with
  | HasClip c | GetClipMeta c | CreateClip c _ _ => link_name c
  | GetAllTrackIds => true
  | GetTrackMeta c t | GetTrack c t _ _ | AddTrack c t _ _ _ =>
      link_name c && link_name t
  end.

Definition history_plain (h : list (option nat * call)) : Prop :=
  Forall (λ fk, call_plain fk.2 = true) h.

(** Every call of the history returns. *)
Fixpoint all_return (h : list (option nat * call)) (w : world) : bool :=
  match h with
  | [] => true
  | (fuse, k) :: h' =>
      negb (raised k (arm fuse w)) && all_return h' (perform k (arm fuse w))
  end.

(** ** The order of the listing *)

(** Pairs in name order: by clip name, and by track name within a clip. *)
Definition pair_le (p q : string * string) : Prop :=
  String.le p.1 q.1 ∧ (p.1 = q.1 → String.le p.2 q.2).

(** The order the specification words: the clips in the order they were
    created and the tracks of a clip in the order they were added.  This
    definition follows the specification, not the code: a store that keeps
    insertion order is a list of clips, each with the list of its tracks; a
    clip that is created again is new and empty. *)
Definition insert_clip (c : string) (store : list (string * list string))
  : list (string * list string) :=
  filter (λ ct, ct.1 ≠ c) store ++ [(c, [])].

Definition insert_track (c t : string) (store : list (string * list string))
  : list (string * list string) :=
  (λ ct, if decide (ct.1 = c) then (ct.1, ct.2 ++ [t]) else ct) <$> store.

Definition inserted (store : list (string * list string)) (k : call)
  : list (string * list string) :=
  match k with
  | CreateClip c _ _ => insert_clip c store
  | AddTrack c t _ _ _ => insert_track c t store
  | _ => store
  end.

Definition insertion_order (h : list (option nat * call))
  : list (string * string) :=
  foldl inserted [] h.*2 ≫= λ ct, (λ t, (ct.1, t)) <$> ct.2.

(** ** Threads around the gateway *)

(** Where a thread is in [with HDF5Manager(db, mode) as f: block]; in its
    block and in [__exit__] it has a session on the file. *)
Inductive phase :=
| Outside
| Acquired
| InBlock (s : session)
| Exiting (s : session) (exc : option exn)
| Closed (exc : option exn).

(** What a thread does next: one of the four lines of the manager, with the
    answer of the operating system where the line can be refused, or its
    block to the end. *)
Inductive move :=
| Acquire
| Open (raises : option exn) (m : mode)
| Block (block : body unit)
| Close (raises : option (exn * h5file))
| Release.

(** One step of a thread on the shared world; [None] when the move is not
    possible, in particular when the thread waits for the lock.
    - [Outside] to [Acquired]: [hdf5_lock.acquire()], line 27;
    - [Acquired] to [InBlock]: [h5py.File(...)], line 28, and back to
      [Outside] when it raises, since the exception leaves the [with]
      statement;
    - the block runs and ends, and [__exit__] is entered either way;
    - [Exiting] to [Closed]: [self.f.close()], line 32, and to [Outside] when
      it raises;
    - [Closed] to [Outside]: [hdf5_lock.release()], line 33. *)
Definition thread_step (mv : move) (w : world) (p : phase)
  : option (world * phase) :=
  match p, mv with
  | Outside, Acquire => w1 ← lock_acquire w; Some (w1, Acquired)
  | Acquired, Open raises m =>
      match file_open raises m w with
      | (Returned s, w2) => Some (w2, InBlock s)
      | (Raised _, w2) => Some (w2, Outside)
      end
  | InBlock s, Block block =>
      match block s with
      | (Returned _, s') => Some (w, Exiting s' None)
      | (Raised e, s') => Some (w, Exiting s' (Some e))
      end
  | Exiting s exc, Close raises =>
      match file_close raises s w with
      | (Returned _, w3) => Some (w3, Closed exc)
      | (Raised _, w3) => Some (w3, Outside)
      end
  | Closed exc, Release => Some (lock_release w, Outside)
  | _, _ => None
  end.

Record system := mk_system {
  sys_world : world;
  sys_threads : list phase
}.

Definition sys_step (i : nat) (mv : move) (σ : system) : option system :=
  p ← sys_threads σ !! i;
  wp ← thread_step mv (sys_world σ) p;
  Some (mk_system wp.1 (<[i := wp.2]> (sys_threads σ))).

Fixpoint sys_run (schedule : list (nat * move)) (σ : system) : option system :=
  match schedule with
  | [] => Some σ
  | (i, mv) :: rest => σ' ← sys_step i mv σ; sys_run rest σ'
  end.

(** [n] threads on the world [w], none of them in a [with] statement. *)
Definition sys_init (n : nat) (w : world) : system :=
  mk_system w (replicate n Outside).

(** The thread has the file open. *)
Definition has_open (p : phase) : bool :=
  match p with
  | InBlock _ | Exiting _ _ => true
  | _ => false
  end.

(** The thread is between line 27 and the end of line 33. *)
Definition holds_lock (p : phase) : bool :=
  match p with
  | Outside => false
  | _ => true
  end.

Fixpoint count (test : phase → bool) (ps : list phase) : nat :=
  match ps with
  | [] => 0%nat
  | p :: ps' => ((if test p then 1 else 0) + count test ps')%nat
  end.

(** The number of threads that have the file open. *)
Definition open_sessions (σ : system) : nat := count has_open (sys_threads σ).

(** At most one thread is inside the manager, and then the lock is taken.
    The lock can be taken with no thread inside: by a caller outside the
    system, or left behind by an open or a close that raised. *)
Definition lock_invariant (σ : system) : Prop :=
  (count holds_lock (sys_threads σ)
   ≤ if w_locked (sys_world σ) then 1 else 0)%nat.

(** The block of any result type as a block that returns nothing. *)
Definition forget {A} (block : body A) : body unit :=
  λ s, match block s with
       | (Returned _, s') => (Returned tt, s')
       | (Raised e, s') => (Raised e, s')
       end.

(** The moves of one [with] statement, as far as it gets with the answers
    [env]. *)
Definition with_moves {A} (env : answers) (m : mode) (block : body A)
  : list move :=
  match open_raises env with
  | Some _ => [Acquire; Open (open_raises env) m]
  | None =>
      match close_raises env with
      | Some _ =>
          [Acquire; Open None m; Block (forget block); Close (close_raises env)]
      | None =>
          [Acquire; Open None m; Block (forget block); Close None; Release]
      end
  end.

(** ** Worked stores, records and histories *)

(** Nine frames of one channel and one pixel. *)
Definition nine_frames : ndarray :=
  mk_ndarray Int16 [9%nat; 1%nat; 1%nat; 1%nat] [1; 2; 3; 4; 5; 6; 7; 8; -9].

(** A new database; then clip [c] created; then track [1] added to it. *)
Definition world0 : world := idle_world new_database.

Definition world1 : world := (create_clip "c" None true world0).2.

Definition world2 : world := (add_track "c" "1" nine_frames None None world1).2.

(** A clip whose node is there and finished, about to be overwritten while
    the fault injector lets two mutating calls through: the deletion and the
    creation of the group happen, [f.flush()] raises. *)
Definition world1_fault_at_flush : world := arm (Some 2%nat) world1.

(** A tracker that supplies none of the optional statistics. *)
Definition bare_tracker : tracker :=
  mk_tracker (PStr "20171101-150843-akaroa03.cptv")
    (mk_datetime "2017-11-01T15:08:43") (PInt 50) ∅.

(** A track record whose bounds history has a single entry. *)
Definition one_region_track : track :=
  mk_track (PInt 1) (PStr "possum")
    (mk_datetime "2017-11-01T15:08:43") (mk_datetime "2017-11-01T15:08:44")
    [("frames", PInt 9)] [mk_region 0 0 1 1 1].

(** A track record with one entry for each of the nine frames. *)
Definition nine_region_track : track :=
  mk_track (PInt 1) (PStr "possum")
    (mk_datetime "2017-11-01T15:08:43") (mk_datetime "2017-11-01T15:08:44")
    [("frames", PInt 9)]
    (replicate 9 (mk_region 0 0 1 1 1)).

(** The pair an [add_track] call completed for, if it did. *)
Definition completed_by (k : call) (w : world) : list (string * string) :=
  match k with
  | AddTrack c t a tk opts =>
      if (add_track c t a tk opts w).1 is Ok _ then [(c, t)] else []
  | _ => []
  end.

(** The pairs for which [add_track] has completed in the course of a
    history. *)
Fixpoint completed_tracks (h : list (option nat * call)) (w : world)
  : list (string * string) :=
  match h with
  | [] => []
  | (fuse, k) :: h' =>
      completed_by k (arm fuse w) ++ completed_tracks h' (perform k (arm fuse w))
  end.

(** A clip is created and two tracks are added to it, the track [2] before
    the track [1]. *)
Definition two_tracks_history : list (option nat * call) :=
  [(None, CreateClip "c" None true);
   (None, AddTrack "c" "2" nine_frames None None);
   (None, AddTrack "c" "1" nine_frames None None)].

(** A track record without a tag: [track.tag] is [None]. *)
Definition untagged_track : track :=
  mk_track (PInt 1) PNone
    (mk_datetime "2017-11-01T15:08:43") (mk_datetime "2017-11-01T15:08:44")
    [("frames", PInt 9)] (replicate 9 (mk_region 0 0 1 1 1)).

(** A clip is created, and the untagged track is added to it. *)
Definition untagged_history : list (option nat * call) :=
  [(None, CreateClip "c" None true);
   (None, AddTrack "c" "1" nine_frames (Some untagged_track) None)].

(** The first thread takes the lock and opens the file; the state of two
    threads on [world1] after that. *)
Definition one_in_block : list (nat * move) :=
  [(0%nat, Acquire); (0%nat, Open None ModeA)].

Definition one_in_block_state : system :=
  mk_system
    (mk_world (w_file world1) true (w_fuse world1)
       (w_log world1 ++ [EvAcquire; EvOpen ModeA]))
    [InBlock (mk_session (w_file world1) ModeA (w_fuse world1)); Outside].

(** The first thread takes the lock and its open raises. *)
Definition open_fails : list (nat * move) :=
  [(0%nat, Acquire); (0%nat, Open (Some (OSError "Unable to open file")) ModeR)].

(** ** The clip a call writes to *)

(** [create_clip] and [add_track] open the file for writing and name the
    clip they work on; the other operations are queries. *)
Definition writes_to (k : call) : option string :=
  match k with
  | CreateClip c _ _ => Some c
  | AddTrack c _ _ _ _ => Some c
  | _ => None
  end.

(** ** The shape of the stored tracks *)



(** A block keeps a property of the file, whether it returns or raises. *)
Definition keeps {A} (I : h5file → Prop) (block : body A) : Prop :=
  ∀ s, I (s_file s) → I (s_file (block s).2).

(** The names of the attributes lines 190-200 write whatever the record's
    statistics are. *)
Definition track_attr_names : list string :=
  ["id"; "tag"; "start_time"; "end_time"; "mass_history"; "bounds_history"].

(** The clip [c] as an overwriting [create_clip] leaves it when [f.flush()]
    raises: a node that is not marked finished. *)
Definition world1_unfinished : world :=
  (create_clip "c" None true world1_fault_at_flush).2.

(** Five frames of one channel and one pixel. *)
Definition five_frames : ndarray :=
  mk_ndarray Int16 [5%nat; 1%nat; 1%nat; 1%nat] [1; 2; 3; 4; 5].

(** A track record whose statistics have a field called [tag]. *)
Definition shadowing_track : track :=
  mk_track (PInt 1) (PStr "possum")
    (mk_datetime "2017-11-01T15:08:43") (mk_datetime "2017-11-01T15:08:44")
    [("frames", PInt 9); ("tag", PStr "stoat")] [mk_region 0 0 1 1 1].


(** * The flat-file database and the hints of [track-extractor.py]

    The extractor keeps its own record of the clips it has processed: a
    pickled dict in one file, rewritten as a whole by [save], with a revision
    counter against concurrent changes. *)

Module TrackExtractor.

(** The statistics kept for a clip or a track: a dict. *)
Abbreviation stats_dict := (gmap string pyval).

(** What [save] pickles: the dict with the keys [tracks], [clips] and
    [revision]. *)
Record save_object := mk_save_object {
  so_tracks : gmap string stats_dict;
  so_clips : gmap string stats_dict;
  so_revision : Z
}.

(** The files of the folder the database lives in, by path; the folder
    exists, and a file of the model holds the pickle of a [save_object],
    which is what [save] writes and [load] expects. *)
Abbreviation disk := (gmap string save_object).

(** The fields of a [TrackDatabase] object. *)
Record TrackDatabase := mk_TrackDatabase {
  filename : string;
  clips : gmap string stats_dict;
  tracks : gmap string stats_dict;
  revision : Z
}.

Inductive error :=
| DatabaseModified
| FileNotFoundError (path : string).

(** [load], lines 39-49 *)
Definition load (self : TrackDatabase) (fs : disk) : TrackDatabase :=
  match fs !! filename self with
  | Some save_object =>
      mk_TrackDatabase (filename self) (so_clips save_object)
        (so_tracks save_object) (so_revision save_object)
  | None => mk_TrackDatabase (filename self) ∅ ∅ 0
  end.

(** [__init__], lines 27-37 *)
Definition __init__ (filename : string) (fs : disk) : TrackDatabase :=
  load (mk_TrackDatabase filename ∅ ∅ 0) fs.

(** [os.remove(path)]: [None] stands for [FileNotFoundError]. *)
Definition os_remove (path : string) (fs : disk) : option disk :=
  match fs !! path with
  | Some _ => Some (delete path fs)
  | None => None
  end.

(** [os.rename(src, dst)], where no file is at [dst] when [save] calls it. *)
Definition os_rename (src dst : string) (fs : disk) : option disk :=
  match fs !! src with
  | Some content => Some (<[dst := content]> (delete src fs))
  | None => None
  end.

(** [save], lines 51-75: the outcome ([None] when it returns), the object and
    the files afterwards.  The parameter [safe_write] is not read by the
    body. *)
Definition save (self : TrackDatabase) (safe_write : bool) (fs : disk)
  : option error * TrackDatabase * disk :=
  let modified :=
    match fs !! filename self with
    | Some db => negb (so_revision db =? revision self)
    | None => false
    end in
  if modified then (Some DatabaseModified, self, fs)
  else
    let self' :=
      mk_TrackDatabase (filename self) (clips self) (tracks self)
        (revision self + 1) in
    let save_object :=
      mk_save_object (tracks self') (clips self') (revision self') in
    let fs1 := <[filename self +:+ ".tmp" := save_object]> fs in
    match os_remove (filename self) fs1 with
    | None => (Some (FileNotFoundError (filename self)), self', fs1)
    | Some fs2 =>
        match os_rename (filename self +:+ ".tmp") (filename self) fs2 with
        | None => (Some (FileNotFoundError (filename self +:+ ".tmp")), self', fs2)
        | Some fs3 => (None, self', fs3)
        end
    end.

(** [has_clip], line 80 *)
Definition has_clip (self : TrackDatabase) (filename : string) : bool :=
  bool_decide (is_Some (tracks self !! filename)).

(** [add_clip], line 84 *)
Definition add_clip (self : TrackDatabase) (filename : string) (stats : stats_dict)
  : TrackDatabase :=
  mk_TrackDatabase (TrackExtractor.filename self) (<[filename := stats]> (clips self))
    (tracks self) (revision self).

(** A call on a database object. *)
Inductive call :=
| Load
| Save (safe_write : bool)
| AddClip (filename : string) (stats : stats_dict).

Definition perform (k : call) (st : TrackDatabase * disk) : TrackDatabase * disk :=
  match k with
  | Load => (load st.1 st.2, st.2)
  | Save safe_write => ((save st.1 safe_write st.2).1.2, (save st.1 safe_write st.2).2)
  | AddClip filename stats => (add_clip st.1 filename stats, st.2)
  end.

Fixpoint run_history (h : list call) (st : TrackDatabase * disk)
  : TrackDatabase * disk :=
  match h with
  | [] => st
  | k :: h' => run_history h' (perform k st)
  end.

(** The calls that [save] among those of a history, each with how it ended. *)
Fixpoint save_outcomes (h : list call) (st : TrackDatabase * disk)
  : list (option error) :=
  match h with
  | [] => []
  | Save safe_write :: h' =>
      (save st.1 safe_write st.2).1.1 :: save_outcomes h' (perform (Save safe_write) st)
  | k :: h' => save_outcomes h' (perform k st)
  end.

(** No file holds a track entry. *)
Definition no_tracks (fs : disk) : Prop :=
  ∀ path save_object, fs !! path = Some save_object → so_tracks save_object = ∅.

(** ** The hints file

    A text is a sequence of code points, a file a sequence of lines. *)

Abbreviation text := (list N).

(** [str.isspace] of one character: the characters that [strip] and [split]
    take for white space. *)
Definition isspace (ch : N) : bool :=
  ((9 <=? ch) && (ch <=? 13) || (28 <=? ch) && (ch <=? 32) ||
   (ch =? 133) || (ch =? 160) || (ch =? 5760) ||
   (8192 <=? ch) && (ch <=? 8202) || (ch =? 8232) || (ch =? 8233) ||
   (ch =? 8239) || (ch =? 8287) || (ch =? 12288))%N.

Fixpoint lstrip (s : text) : text :=
  match s with
  | [] => []
  | ch :: s' => if isspace ch then lstrip s' else s
  end.

(** [line.strip()] *)
Definition strip (s : text) : text := reverse (lstrip (reverse (lstrip s))).

(** [line.split()]: the maximal runs of characters that are not white space;
    [word] is the run being read. *)
Fixpoint split_from (word : text) (s : text) : list text :=
  match s with
  | [] => if word is [] then [] else [word]
  | ch :: s' =>
      if isspace ch then
        if word is [] then split_from [] s' else word :: split_from [] s'
      else split_from (word ++ [ch]) s'
  end.

Definition split (s : text) : list text := split_from [] s.

(** [line == '' or line[0] == '#'] *)
Definition is_comment (line : text) : bool :=
  match line with
  | [] => true
  | ch :: _ => (ch =? 35)%N
  end.

Inductive hints_error :=
| ErrorOnLine (line_number : nat) (line : text)
| IntValueError (token : text).

Section load_hints.

(** The builtin [int] on a string, [None] when it raises [ValueError]. *)
Variable int : text → option Z.

(** The loop of lines 131-140 from line [line_number] on; it returns the
    exception, if one was raised, and [self.hints] as the loop left it. *)
Fixpoint read_hints (line_number : nat) (lines : list text) (hints : gmap text Z)
  : option hints_error * gmap text Z :=
  match lines with
  | [] => (None, hints)
  | line :: rest =>
      let line := strip line in
      if is_comment line then read_hints (S line_number) rest hints
      else
        match split line with
        | filename :: file_max_tracks :: _ =>
            match int file_max_tracks with
            | Some max_tracks =>
                read_hints (S line_number) rest (<[filename := max_tracks]> hints)
            | None => (Some (IntValueError file_max_tracks), hints)
            end
        | _ => (Some (ErrorOnLine line_number line), hints)
        end
  end.

(** [load_hints], lines 122-140, of a file that may not exist; what
    [self.hints] held before is dropped by line 125. *)
Definition load_hints (file : option (list text))
  : option hints_error * gmap text Z :=
  match file with
  | None => (None, ∅)
  | Some lines => read_hints 0 lines ∅
  end.

End load_hints.

(** A line is a comment or blank: white space, then nothing or a [#]. *)
Definition ignored (line : text) : Prop :=
  ∃ ws rest, Forall (λ ch, isspace ch = true) ws ∧
             (line = ws ∨ line = ws ++ 35%N :: rest).

(** A new database object on a folder without a database file. *)
Definition fresh : TrackDatabase * disk := (__init__ "tracks.db" ∅, ∅).

(** A folder in which the database file exists, at revision 3. *)
Definition folder : disk :=
  {["tracks.db" := mk_save_object ∅ {["a.cptv" := ∅]} 3]}.

(** Decimal digits, for the examples: a stand-in for [int] on such tokens. *)
Definition decimal (token : text) : option Z :=
  if forallb (λ ch, (48 <=? ch) && (ch <=? 57))%N token && negb (bool_decide (token = []))
  then Some (foldl (λ acc ch, 10 * acc + (Z.of_N ch - 48)) 0 token)
  else None.

(** The lines [# hints], [a.cptv 2], [b.cptv] and [c.cptv 0]. *)
Definition hint_lines : list text :=
  [[35; 32; 104; 105; 110; 116; 115; 10];
   [97; 46; 99; 112; 116; 118; 32; 50; 10];
   [98; 46; 99; 112; 116; 118; 10];
   [99; 46; 99; 112; 116; 118; 32; 48; 10]]%N.

End TrackExtractor.

(** * The extraction settings of [track/extractconfig.py] *)

Module ExtractConfig.

(** The attributes of an [ExtractConfig]. *)
Record ExtractConfig := mk_ExtractConfig {
  enable_compression : pyval;
  include_filtered_channel : pyval;
  preview : pyval;
  hints_file : pyval
}.

(** [extract[key]] *)
Definition getitem (extract : gmap string pyval) (key : string) : outcome pyval :=
  match extract !! key with
  | Some v => Returned v
  | None => Raised (KeyError key)
  end.

(** [load], lines 32-38: the four subscriptions are evaluated in the order
    of the keyword arguments. *)
Definition load (extract : gmap string pyval) : outcome ExtractConfig :=
  match getitem extract "enable_compression" with
  | Raised e => Raised e
  | Returned enable_compression =>
  match getitem extract "include_filtered_channel" with
  | Raised e => Raised e
  | Returned include_filtered_channel =>
  match getitem extract "preview" with
  | Raised e => Raised e
  | Returned preview =>
  match getitem extract "hints_file" with
  | Raised e => Raised e
  | Returned hints_file =>
      Returned (mk_ExtractConfig enable_compression include_filtered_channel
                  preview hints_file)
  end end end end.

(** The keys [load] reads. *)
Definition keys : list string :=
  ["enable_compression"; "include_filtered_channel"; "preview"; "hints_file"].

(** The section of a configuration file. *)
Definition extract_section : gmap string pyval :=
  {["enable_compression" := PBool false;
    "include_filtered_channel" := PBool true;
    "preview" := PStr "tracking";
    "hints_file" := PStr "hints.txt";
    "verbose" := PBool true]}.

End ExtractConfig.

(** * Lemmas *)

(** ** Rules for blocks *)

Section wp_rules.
Context {A B : Type}.
Implicit Types (Q : A → session → Prop) (E : exn → session → Prop).

Lemma wp_ret (a : A) Q E s : Q a s → wp (ret a) Q E s.
Proof. done. Qed.

Lemma wp_raise (e : exn) Q E s : E e s → wp (raise e) Q E s.
Proof. done. Qed.

Lemma wp_bind (m : body A) (k : A → body B) (Q' : B → session → Prop) E s :
  wp m (λ a s', wp (k a) Q' E s') E s → wp (m ≫= k) Q' E s.
Proof.
  unfold wp, mbind, body_bind, bind. by destruct (m s) as [[a|e] s'].
Qed.

Lemma wp_mono (m : body A) Q Q' E E' s :
  wp m Q E s →
  (∀ a s', Q a s' → Q' a s') → (∀ e s', E e s' → E' e s') →
  wp m Q' E' s.
Proof. unfold wp. destruct (m s) as [[a|e] s']; auto. Qed.

Lemma wp_run (m : body A) Q E s :
  wp m Q E s →
  match (m s).1 with
  | Returned a => Q a (m s).2
  | Raised e => E e (m s).2
  end.
Proof. unfold wp. by destruct (m s) as [[a|e] s']. Qed.
End wp_rules.

Lemma lands_weaken {A} s0 s f (Q : A → session → Prop) a :
  (armed s → armed s0) → lands s0 f Q a → lands s f Q a.
Proof. intros H0 H s' ???. apply H; auto. Qed.

(** A mutating call on a file open for writing goes through, or is where the
    injected fault strikes; either way the file is as before. *)
Lemma wp_tick Q E s :
  s_mode s = ModeA →
  (armed s → fails (s_file s) E) →
  lands s (s_file s) Q tt →
  wp tick Q E s.
Proof.
  intros Hm HE HQ. unfold wp, tick, armed in *.
  destruct (s_fuse s) as [[|k]|] eqn:Hk; simpl.
  - by apply HE.
  - apply HQ; simpl; try done. unfold armed. by rewrite Hk.
  - by apply HQ.
Qed.

Lemma wp_mutating Q E s :
  s_mode s = ModeA →
  (armed s → fails (s_file s) E) →
  lands s (s_file s) Q tt →
  wp mutating Q E s.
Proof.
  intros Hm HE HQ. unfold mutating. apply wp_bind.
  unfold wp at 1, need_write. rewrite Hm. by apply wp_tick.
Qed.

(** On a file opened read-only every mutating call raises and changes
    nothing. *)
Lemma mutating_read_only s :
  s_mode s = ModeR →
  mutating s = (Raised (ValueError "no write intent on file"), s).
Proof.
  intros Hm. unfold mutating, mbind, body_bind, bind, need_write. by rewrite Hm.
Qed.

(** *** The calls on the file *)

Ltac wp_unfold :=
  unfold wp, mbind, body_bind, bind, ret, raise, get_file, put_file.

Lemma wp_clips_contains c Q E s :
  Q (bool_decide (is_Some (clips (s_file s) !! c))) s →
  wp (clips_contains c) Q E s.
Proof. done. Qed.

Lemma wp_clips_getitem c Q E s :
  match clips (s_file s) !! c with
  | Some _ => Q c s
  | None => E (KeyError c) s
  end →
  wp (clips_getitem c) Q E s.
Proof.
  unfold clips_getitem. wp_unfold. simpl. by destruct (clips (s_file s) !! c).
Qed.

Lemma wp_group_attrs_contains c name g Q E s :
  clips (s_file s) !! c = Some g →
  Q (bool_decide (is_Some (g_attrs g !! name))) s →
  wp (group_attrs_contains c name) Q E s.
Proof. intros Hc HQ. unfold group_attrs_contains. wp_unfold. simpl. by rewrite Hc. Qed.

(** A call that starts with [mutating] and then updates the file or raises
    without touching it. *)
Lemma wp_mutating_then {A} (rest : body A) Q E s :
  s_mode s = ModeA →
  (armed s → fails (s_file s) E) →
  (∀ s', s_mode s' = ModeA → s_file s' = s_file s → (armed s' → armed s) →
         wp rest Q E s') →
  wp (mutating;; rest) Q E s.
Proof.
  intros Hm HE Hrest. apply wp_bind, wp_mutating; [done|done|].
  intros s' ???. by apply Hrest.
Qed.

Lemma wp_clips_delitem c g Q E s :
  s_mode s = ModeA →
  clips (s_file s) !! c = Some g →
  (armed s → fails (s_file s) E) →
  lands s (mk_h5file (delete c (clips (s_file s)))) Q tt →
  wp (clips_delitem c) Q E s.
Proof.
  intros Hm Hc HE HQ. apply wp_mutating_then; [done..|].
  intros s' Hm' Hf' Ha. wp_unfold. simpl. rewrite Hf', Hc. by apply HQ.
Qed.

Lemma wp_clips_create_group c Q E s :
  s_mode s = ModeA →
  (armed s → fails (s_file s) E) →
  (is_Some (clips (s_file s) !! c) → fails (s_file s) E) →
  (clips (s_file s) !! c = None →
   lands s (put_group (s_file s) c (mk_group ∅ ∅)) Q c) →
  wp (clips_create_group c) Q E s.
Proof.
  intros Hm HE HE' HQ. apply wp_mutating_then; [done..|].
  intros s' Hm' Hf' Ha. wp_unfold. simpl. rewrite Hf'.
  destruct (clips (s_file s) !! c) eqn:Hc; simpl.
  - by apply HE'.
  - by apply HQ.
Qed.

Lemma wp_check_storable v Q E s :
  (storable_attr v = true → Q tt s) →
  (∀ e, storable_attr v = false → E e s) →
  wp (check_storable v) Q E s.
Proof.
  intros HQ HE. unfold check_storable.
  destruct v as [v|a]; simpl in *;
    [destruct (storable v) eqn:Hv|destruct (fits_header a) eqn:Ha];
    wp_unfold; auto.
Qed.

Lemma wp_group_attrs_setitem c name v g Q E s :
  s_mode s = ModeA →
  clips (s_file s) !! c = Some g →
  (armed s → fails (s_file s) E) →
  (storable_attr v = false → fails (s_file s) E) →
  (storable_attr v = true →
   lands s
     (put_group (s_file s) c (mk_group (<[name := v]> (g_attrs g)) (g_members g)))
     Q tt) →
  wp (group_attrs_setitem c name v) Q E s.
Proof.
  intros Hm Hc HE HE' HQ. apply wp_mutating_then; [done..|].
  intros s' Hm' Hf' Ha. apply wp_bind, wp_check_storable.
  - intros Hv. wp_unfold. simpl. rewrite Hf', Hc. by apply HQ.
  - intros e Hv. by apply HE'.
Qed.

Lemma wp_flush Q E s :
  s_mode s = ModeA →
  (armed s → fails (s_file s) E) →
  lands s (s_file s) Q tt →
  wp flush Q E s.
Proof. apply wp_tick. Qed.

Lemma wp_group_getitem c t g Q E s :
  clips (s_file s) !! c = Some g →
  match g_members g !! t with
  | Some _ => Q (c, t) s
  | None => E (KeyError t) s
  end →
  wp (group_getitem c t) Q E s.
Proof.
  intros Hc HQ. unfold group_getitem. wp_unfold. simpl. rewrite Hc.
  by destruct (g_members g !! t).
Qed.

Lemma wp_group_create_dataset c t dims chunks opts g Q E s :
  s_mode s = ModeA →
  clips (s_file s) !! c = Some g →
  (armed s → fails (s_file s) E) →
  (chunks_fit dims chunks = false ∨ is_Some (g_members g !! t) →
   fails (s_file s) E) →
  (chunks_fit dims chunks = true → g_members g !! t = None →
   lands s
     (put_group (s_file s) c
        (mk_group (g_attrs g)
           (<[t := mk_dataset (zeros Int16 dims) chunks opts ∅]> (g_members g))))
     Q (c, t)) →
  wp (group_create_dataset c t dims chunks opts) Q E s.
Proof.
  intros Hm Hc HE HE' HQ. apply wp_mutating_then; [done..|].
  intros s' Hm' Hf' Ha. unfold wp. wp_unfold. simpl. rewrite Hf', Hc.
  destruct (chunks_fit dims chunks) eqn:Hfit; simpl; [|apply HE'; auto].
  case_bool_decide as Ht; simpl; [apply HE'; auto|].
  apply HQ; [done| |done..].
  destruct (g_members g !! t) eqn:Ht'; [|done]. destruct Ht. by eexists.
Qed.

Lemma wp_update_dataset c t upd g d Q E s :
  clips (s_file s) !! c = Some g →
  g_members g !! t = Some d →
  Q tt (mk_session
          (put_group (s_file s) c (mk_group (g_attrs g) (<[t := upd d]> (g_members g))))
          (s_mode s) (s_fuse s)) →
  wp (update_dataset (c, t) upd) Q E s.
Proof.
  intros Hc Ht HQ. unfold update_dataset. wp_unfold. simpl. by rewrite Hc, Ht.
Qed.

Lemma wp_dataset_write_all c t a g d Q E s :
  s_mode s = ModeA →
  clips (s_file s) !! c = Some g →
  g_members g !! t = Some d →
  (armed s → fails (s_file s) E) →
  lands s
    (put_group (s_file s) c
       (mk_group (g_attrs g)
          (<[t := mk_dataset
                    (mk_ndarray (nd_dtype (ds_array d)) (nd_shape (ds_array d))
                       (saturate (nd_dtype (ds_array d)) <$> nd_data a))
                    (ds_chunks d) (ds_opts d) (ds_attrs d)]> (g_members g))))
    Q tt →
  wp (dataset_write_all (c, t) a) Q E s.
Proof.
  intros Hm Hc Ht HE HQ. apply wp_mutating_then; [done..|].
  intros s' Hm' Hf' Ha. rewrite <- Hf' in Hc, HQ.
  eapply wp_update_dataset; [exact Hc|exact Ht|]. by apply HQ.
Qed.

Lemma wp_dataset_attrs_setitem c t name v g d Q E s :
  s_mode s = ModeA →
  clips (s_file s) !! c = Some g →
  g_members g !! t = Some d →
  (armed s → fails (s_file s) E) →
  (storable_attr v = false → fails (s_file s) E) →
  (storable_attr v = true →
   lands s
     (put_group (s_file s) c
        (mk_group (g_attrs g)
           (<[t := mk_dataset (ds_array d) (ds_chunks d) (ds_opts d)
                     (<[name := v]> (ds_attrs d))]> (g_members g))))
     Q tt) →
  wp (dataset_attrs_setitem (c, t) name v) Q E s.
Proof.
  intros Hm Hc Ht HE HE' HQ. apply wp_mutating_then; [done..|].
  intros s' Hm' Hf' Ha. apply wp_bind, wp_check_storable.
  - intros Hv. rewrite <- Hf' in Hc, HQ.
    eapply wp_update_dataset; [exact Hc|exact Ht|]. by apply HQ.
  - intros e Hv. by apply HE'.
Qed.

(** *** Facts about the store *)

Lemma lookup_put_group_eq f c g : clips (put_group f c g) !! c = Some g.
Proof. apply lookup_insert_eq. Qed.

Lemma lookup_put_group_ne f c c' g :
  c ≠ c' → clips (put_group f c g) !! c' = clips f !! c'.
Proof. apply lookup_insert_ne. Qed.

Lemma put_group_twice f c g g' : put_group (put_group f c g) c g' = put_group f c g'.
Proof. unfold put_group. simpl. by rewrite insert_insert_eq. Qed.

Lemma put_group_deleted f c g :
  put_group (mk_h5file (delete c (clips f))) c g = put_group f c g.
Proof. unfold put_group. simpl. by rewrite insert_delete_eq. Qed.

(** ** [create_clip]'s block *)

Lemma wp_clip_attr f0 c A name v Q E s :
  s_mode s = ModeA →
  s_file s = put_group f0 c (mk_group A ∅) →
  (armed s ∨ storable_attr v = false → fails (put_group f0 c (mk_group A ∅)) E) →
  (storable_attr v = true →
   lands s (put_group f0 c (mk_group (<[name := v]> A) ∅)) Q tt) →
  wp (group_attrs_setitem c name v) Q E s.
Proof.
  intros Hm Hf HE HQ.
  eapply wp_group_attrs_setitem;
    [done|by rewrite Hf, lookup_put_group_eq|rewrite Hf; auto..|].
  intros Hv. rewrite Hf, put_group_twice. auto.
Qed.

Ltac chain_armed :=
  match goal with
  | H1 : armed ?s2 → armed ?s1, H2 : armed ?s1 → armed ?s0 |- _ =>
      let H := fresh "Harm" in
      assert (H : armed s2 → armed s0) by (intros ?; apply H2, H1; assumption);
      clear H1 H2
  end.

Ltac clip_attr_step Hbroken Hcause :=
  eapply wp_clip_attr; [done|done|
    intros Hfail e s' _ ->; split;
      [apply Hbroken; by simplify_map_eq|
       eapply Hcause; destruct Hfail as [?|Hv]; [left; auto|right];
       split; [exact Hv|]; try (by intros (?&?&?&?&?&?&?&?&?&?));
       simpl in Hv; discriminate Hv]|];
  let s' := fresh "s" in let Hm := fresh "Hm" in let Hf := fresh "Hf" in
  let Ha := fresh "Harm" in let Hv := fresh "Hstored" in
  intros Hv s' Hm Hf Ha; chain_armed.

Lemma wp_create_clip_body c tr ov s :
  s_mode s = ModeA →
  wp (create_clip_body c tr ov)
    (λ _ s', create_clip_done (s_file s) c tr ov (s_file s'))
    (λ _ s', create_clip_broken (s_file s) c ov (s_file s') ∧
             create_clip_cause s c tr ov) s.
Proof.
  intros Hm. set (f0 := s_file s). unfold create_clip_body.
  apply wp_bind.
  (* the node is deleted, or the file is as before *)
  apply (wp_mono _
    (λ _ s1, s_mode s1 = ModeA ∧ (armed s1 → armed s) ∧
       ((s_file s1 = f0 ∧ (ov = true → clips f0 !! c = None)) ∨
        (ov = true ∧ s_file s1 = mk_h5file (delete c (clips f0)))))
    _ (λ _ s1, s_file s1 = f0 ∧ armed s)).
  { destruct ov; [|apply wp_ret; naive_solver].
    apply wp_bind, wp_clips_contains. fold f0.
    destruct (clips f0 !! c) as [g|] eqn:Hc; simpl.
    - eapply wp_clips_delitem; [done|exact Hc|by intros ?????|].
      intros s1 ? Hf1 ?. fold f0 in Hf1. naive_solver.
    - apply wp_ret. naive_solver. }
  2:{ intros e s1 [-> ?]. split; [by left|by left]. }
  intros _ s1 (Hm1 & Harm & Hs1).
  (* in both cases the new node is the empty group put into the old file *)
  apply wp_bind, wp_clips_create_group; [done|..].
  { intros Ha e s2 _ ->. split; [|left; auto].
    destruct Hs1 as [[-> _]|[Hov ->]]; [by left|].
    right. split; [by left|by left]. }
  { intros Hc e s2 _ ->. destruct Hs1 as [[Hs1 Hov]|[Hov Hs1]]; rewrite Hs1 in *.
    - split; [by left|]. right; left. split; [|done].
      destruct ov; [|done]. rewrite Hov in Hc by done. by destruct Hc.
    - simpl in Hc. rewrite lookup_delete_eq in Hc. by destruct Hc. }
  intros Hfree s2 Hm2 Hf2 Harm2. chain_armed.
  assert (Hok : ov = true ∨ clips f0 !! c = None).
  { destruct Hs1 as [[Hs1 _]|[? _]]; [right|by left]. by rewrite <- Hs1. }
  assert (Hf2' : s_file s2 = put_group f0 c (mk_group ∅ ∅)).
  { rewrite Hf2. destruct Hs1 as [[-> _]|[_ ->]]; [done|apply put_group_deleted]. }
  clear Hf2 Hfree Hs1 Hm1 s1.
  assert (Hbroken : ∀ A, A !! "finished" = None →
    create_clip_broken f0 c ov (put_group f0 c (mk_group A ∅))).
  { intros A HA. right. split; [done|]. right. by eexists. }
  assert (Hlast : ∀ A s3, A !! "finished" = None →
    s_mode s3 = ModeA → s_file s3 = put_group f0 c (mk_group A ∅) →
    (armed s3 → armed s) →
    wp (flush;; group_attrs_setitem c "finished" (AScalar (PBool true)))
      (λ _ s', s_file s' = put_group f0 c
                  (mk_group (<["finished" := AScalar (PBool true)]> A) ∅))
      (λ _ s', create_clip_broken f0 c ov (s_file s') ∧
               create_clip_cause s c tr ov) s3).
  { intros A s3 HA Hm3 Hf3 Harm3. apply wp_bind, wp_flush; [done|..].
    - intros Ha e s4 _ ->. rewrite Hf3. split; [by apply Hbroken|left; auto].
    - intros s4 Hm4 Hf4 Harm4. rewrite Hf3 in Hf4.
      eapply wp_clip_attr; [done|done|..].
      + intros [Ha|?] e s5 _ ->; [|done]. split; [by apply Hbroken|left; auto].
      + by intros _ s5 _ ->. }
  destruct tr as [tr|].
  - assert (Hcause : ∀ v, armed s ∨ (storable v = false ∧
        (tracker_storable tr → storable v = true)) →
      create_clip_cause s c (Some tr) ov).
    { intros v [?|[Hv Hst]]; [by left|]. right; right. eexists. split; [done|].
      intros Htr. rewrite Hst in Hv; done. }
    apply wp_bind.
    do 9 (apply wp_bind; clip_attr_step Hbroken Hcause).
    clip_attr_step Hbroken Hcause.
    eapply wp_mono; [eapply Hlast; [|done|done|done]; by simplify_map_eq|..]; [|done].
    intros _ s' ->. split_and!; [done| |done].
    intros t [= <-]. by split_and!.
  - apply wp_bind, wp_ret.
    eapply wp_mono; [by apply (Hlast ∅)|..]; [|done].
    intros _ s' ->. by split_and!.
Qed.

(** ** [add_track]'s block *)

Section track_steps.
Variables (f0 : h5file) (c t : string) (g0 : group).

Lemma with_track_group d :
  clips (with_track f0 c t g0 d) !! c
    = Some (mk_group (g_attrs g0) (<[t := d]> (g_members g0))).
Proof. apply lookup_put_group_eq. Qed.

Lemma with_track_again d d' :
  put_group (with_track f0 c t g0 d) c
    (mk_group (g_attrs g0) (<[t := d']> (<[t := d]> (g_members g0))))
  = with_track f0 c t g0 d'.
Proof. unfold with_track. by rewrite put_group_twice, insert_insert_eq. Qed.

Lemma wp_track_attr d name v Q E s :
  s_mode s = ModeA →
  s_file s = with_track f0 c t g0 d →
  (armed s ∨ storable_attr v = false → fails (with_track f0 c t g0 d) E) →
  (storable_attr v = true → lands s (with_track f0 c t g0 (set_attr name v d)) Q tt) →
  wp (dataset_attrs_setitem (c, t) name v) Q E s.
Proof.
  intros Hm Hf HE HQ.
  eapply wp_dataset_attrs_setitem;
    [done|by rewrite Hf, with_track_group|apply lookup_insert_eq
    |rewrite Hf; auto..|].
  intros Hv. simpl. rewrite Hf, with_track_again. auto.
Qed.

Lemma wp_track_write d a Q E s :
  s_mode s = ModeA →
  s_file s = with_track f0 c t g0 d →
  (armed s → fails (with_track f0 c t g0 d) E) →
  lands s (with_track f0 c t g0 (set_data a d)) Q tt →
  wp (dataset_write_all (c, t) a) Q E s.
Proof.
  intros Hm Hf HE HQ.
  eapply wp_dataset_write_all;
    [done|by rewrite Hf, with_track_group|apply lookup_insert_eq
    |rewrite Hf; auto|].
  simpl. rewrite Hf, with_track_again. auto.
Qed.

(** A run of attribute writes: all go through, or the file is left with
    some dataset under the new name. *)
Lemma wp_track_attrs kvs : ∀ d Q E s,
  s_mode s = ModeA →
  s_file s = with_track f0 c t g0 d →
  (armed s ∨ ¬ Forall (λ kv, storable_attr kv.2 = true) kvs →
   ∀ d', fails (with_track f0 c t g0 d') E) →
  (Forall (λ kv, storable_attr kv.2 = true) kvs →
   lands s (with_track f0 c t g0 (set_attrs kvs d)) Q tt) →
  wp (for_each (λ kv, dataset_attrs_setitem (c, t) kv.1 kv.2) kvs) Q E s.
Proof.
  induction kvs as [|[name v] kvs IH]; intros d Q E s Hm Hf HE HQ; simpl.
  - apply wp_ret. apply HQ; auto.
  - apply wp_bind. eapply wp_track_attr; [done|done|..].
    + intros [Ha|Hv]; apply HE; [by left|]. right. intros Hall.
      apply Forall_cons in Hall as [Hv' _]. simpl in Hv'. congruence.
    + intros Hv s1 Hm1 Hf1 Harm1. eapply IH; [done|done|..].
      * intros [Ha|Hbad]; apply HE; [left; auto|]. right. intros Hall.
        apply Forall_cons in Hall as [_ Hall]. done.
      * intros Hall. eapply lands_weaken; [exact Harm1|].
        apply HQ. by constructor.
Qed.
End track_steps.

Lemma for_each_fmap {A B} (f : B → body unit) (g : A → B) xs :
  for_each f (g <$> xs) = for_each (λ x, f (g x)) xs.
Proof.
  induction xs as [|x xs IH]; [done|].
  change (for_each f (g <$> x :: xs)) with (f (g x);; for_each f (g <$> xs)).
  by rewrite IH.
Qed.

Lemma wp_add_track_body c t data F Ch H W track opts s :
  s_mode s = ModeA →
  wp (add_track_body c t data F Ch H W track opts)
    (λ _ s', add_track_done (s_file s) c t data [F; Ch; H; W] track opts (s_file s'))
    (λ _ s', add_track_broken (s_file s) c t (s_file s') ∧
             add_track_cause s c t [F; Ch; H; W] track) s.
Proof.
  intros Hm. set (f0 := s_file s). unfold add_track_body.
  apply wp_bind, wp_clips_getitem. fold f0.
  destruct (clips f0 !! c) as [g0|] eqn:Hc; [|split; [by left|right; by left]].
  apply wp_bind.
  replace (if opts_given opts then _ else _)
    with (group_create_dataset c t [F; Ch; H; W] [9%nat; 1%nat; H; W] (dataset_opts opts))
    by (unfold dataset_opts; by destruct (opts_given opts)).
  eapply wp_group_create_dataset; [done|exact Hc|..].
  { intros Ha e s1 _ ->. split; [by left|by left]. }
  { intros Hbad e s1 _ ->. split; [by left|]. destruct Hbad as [Hfit|Ht].
    - do 3 right. by left.
    - right; right; left. eauto. }
  intros Hfit Ht s1 Hm1 Hf1 Harm1. fold f0 in Hf1. fold (with_track f0 c t g0) in Hf1.
  assert (Hbroken : ∀ d, add_track_broken f0 c t (with_track f0 c t g0 d)).
  { intros d. right. by exists g0, d. }
  (* the contents *)
  apply wp_bind. eapply wp_track_write; [done|exact Hf1|..].
  { intros Ha e s2 _ ->. split; [apply Hbroken|left; auto]. }
  intros s2 Hm2 Hf2 Harm2. chain_armed.
  (* the closing steps, from any dataset *)
  assert (Hlast : ∀ d s3, s_mode s3 = ModeA → s_file s3 = with_track f0 c t g0 d →
    (armed s3 → armed s) →
    wp (flush;; group_attrs_setitem c "finished" (AScalar (PBool true)))
      (λ _ s', s_file s' = put_group f0 c
                 (mk_group (<["finished" := AScalar (PBool true)]> (g_attrs g0))
                    (<[t := d]> (g_members g0))))
      (λ _ s', add_track_broken f0 c t (s_file s') ∧
               add_track_cause s c t [F; Ch; H; W] track) s3).
  { intros d s3 Hm3 Hf3 Harm3. apply wp_bind, wp_flush; [done|..].
    - intros Ha e s4 _ ->. rewrite Hf3. split; [apply Hbroken|left; auto].
    - intros s4 Hm4 Hf4 Harm4. rewrite Hf3 in Hf4.
      eapply wp_group_attrs_setitem; [done|by rewrite Hf4, with_track_group|..].
      + intros Ha e s5 _ ->. rewrite Hf4. split; [apply Hbroken|left; auto].
      + done.
      + intros _ s5 _ -> _. rewrite Hf4. unfold with_track. by rewrite put_group_twice. }
  destruct track as [tk|].
  - assert (Hcause : armed s ∨ ¬ track_storable tk →
      add_track_cause s c t [F; Ch; H; W] (Some tk)).
    { intros [?|?]; [by left|]. do 4 right. eauto. }
    apply wp_bind.
    do 4 (apply wp_bind; eapply wp_track_attr; [done|done|
      intros Hfail e s' _ ->; split; [apply Hbroken|];
      apply Hcause; destruct Hfail as [?|Hv]; [left; auto|right];
      intros (?&?&?&?&?&?&?); simpl in *; congruence|];
      let s' := fresh "s" in let Hm := fresh "Hm" in let Hf := fresh "Hf" in
      let Ha := fresh "Harm" in
      intros _ s' Hm Hf Ha; chain_armed).
    apply wp_bind.
    rewrite <- (for_each_fmap
      (λ kv : string * attr_value, dataset_attrs_setitem (c, t) kv.1 kv.2)
      (λ nv : string * pyval, (nv.1, AScalar nv.2))).
    eapply wp_track_attrs; [done|done|..].
    { intros Hfail d' e s' _ ->. split; [apply Hbroken|].
      apply Hcause. destruct Hfail as [?|Hbad]; [left; auto|right].
      intros (_ & _ & Hall & _). apply Hbad. apply Forall_fmap.
      eapply Forall_impl; [exact Hall|]. by intros [??]. }
    intros Hall s7 Hm7 Hf7 Harm7. chain_armed.
    apply wp_bind; eapply wp_track_attr; [done|done|
      intros Hfail e s' _ ->; split; [apply Hbroken|];
      apply Hcause; destruct Hfail as [?|Hv]; [left; auto|right];
      intros (?&?&?&?&?&?&?); simpl in *; congruence|].
    intros _ s8 Hm8 Hf8 Harm8. chain_armed.
    eapply wp_track_attr; [done|done|
      intros Hfail e s' _ ->; split; [apply Hbroken|];
      apply Hcause; destruct Hfail as [?|Hv]; [left; auto|right];
      intros (?&?&?&?&?&?&?); simpl in *; congruence|].
    intros _ s9 Hm9 Hf9 Harm9. chain_armed.
    eapply wp_mono; [by eapply Hlast|..]; [|done].
    intros _ s' ->. exists g0. split_and!; [done..|].
    unfold stored_track, set_attrs, track_attrs. simpl. by rewrite !foldl_app.
  - apply wp_bind, wp_ret.
    eapply wp_mono; [by eapply Hlast|..]; [|done].
    intros _ s' ->. by exists g0.
Qed.

(** ** The gateway and the queries *)

(** With the lock free a [with] block runs its four gateway steps around the
    block, whether the block returns or raises, and leaves the lock free. *)
Lemma with_manager_free {A} (m : mode) (block : body A) w :
  w_locked w = false →
  with_manager m block w =
    (result_of (block (mk_session (w_file w) m (w_fuse w))).1,
     mk_world (s_file (block (mk_session (w_file w) m (w_fuse w))).2) false
       (s_fuse (block (mk_session (w_file w) m (w_fuse w))).2)
       (w_log w ++ gateway_events m)).
Proof.
  intros Hl. unfold with_manager, with_manager_in, lock_acquire. rewrite Hl. simpl.
  destruct (block _) as [o s']. simpl.
  unfold lock_release. simpl. by rewrite <- !app_assoc.
Qed.

(** With the lock taken the caller waits and nothing happens. *)
Lemma with_manager_locked {A} (m : mode) (block : body A) w :
  w_locked w = true → with_manager m block w = (Blocked, w).
Proof. intros Hl. unfold with_manager, with_manager_in, lock_acquire. by rewrite Hl. Qed.

Lemma names_Permutation {A} (m : gmap string A) : names m ≡ₚ (map_to_list m).*1.
Proof. apply merge_sort_Permutation. Qed.

Lemma elem_of_names {A} (m : gmap string A) k : k ∈ names m ↔ is_Some (m !! k).
Proof.
  rewrite names_Permutation, list_elem_of_fmap. split.
  - intros [[k' x] [-> Hx]]. apply elem_of_map_to_list in Hx. by exists x.
  - intros [x Hx]. exists (k, x). split; [done|]. by apply elem_of_map_to_list.
Qed.

Lemma NoDup_names {A} (m : gmap string A) : NoDup (names m).
Proof. rewrite names_Permutation. apply NoDup_fst_map_to_list. Qed.

Lemma has_clip_body_run c s :
  has_clip_body c s = (Returned (is_finished (s_file s) c), s).
Proof.
  unfold has_clip_body, is_finished, clips_contains, clips_getitem,
    group_attrs_contains.
  wp_unfold. simpl. destruct (clips (s_file s) !! c) as [g|] eqn:Hc.
  - rewrite bool_decide_eq_true_2 by eauto. simpl. rewrite Hc. simpl. by rewrite Hc.
  - rewrite bool_decide_eq_false_2; [done|]. by intros [??].
Qed.

Lemma clips_loop_run s : ∀ todo result,
  (∀ c, c ∈ todo → is_Some (clips (s_file s) !! c)) →
  clips_loop todo result s =
    (Returned (result ++ (todo ≫= pairs_of_clip (s_file s))), s).
Proof.
  induction todo as [|c todo IH]; intros result Hall; simpl.
  - by rewrite app_nil_r.
  - destruct (Hall c) as [g Hg]; [by left|].
    unfold clips_getitem, group_keys. wp_unfold. simpl. rewrite Hg. simpl.
    rewrite Hg. rewrite IH by (intros c' ?; apply Hall; by right).
    unfold pairs_of_clip at 2. rewrite Hg. by rewrite <- app_assoc.
Qed.

Lemma get_all_track_ids_body_run s :
  get_all_track_ids_body s = (Returned (track_pairs (s_file s)), s).
Proof.
  unfold get_all_track_ids_body. wp_unfold. simpl.
  rewrite clips_loop_run; [done|]. intros c. by rewrite elem_of_names.
Qed.

Lemma elem_of_track_pairs f c t :
  (c, t) ∈ track_pairs f ↔
  ∃ g, clips f !! c = Some g ∧ is_Some (g_members g !! t).
Proof.
  unfold track_pairs. rewrite list_elem_of_bind. split.
  - intros (c' & Hin & Hc'). unfold pairs_of_clip in Hin.
    destruct (clips f !! c') as [g|] eqn:Hg; [|by apply elem_of_nil in Hin].
    apply list_elem_of_fmap in Hin as (t' & [= -> ->] & Ht').
    exists g. split; [done|]. by apply elem_of_names.
  - intros (g & Hg & Ht). exists c. split.
    + unfold pairs_of_clip. rewrite Hg. apply list_elem_of_fmap.
      exists t. split; [done|]. by apply elem_of_names.
    + apply elem_of_names. by exists g.
Qed.

Lemma NoDup_track_pairs f : NoDup (track_pairs f).
Proof.
  unfold track_pairs. apply NoDup_bind.
  - intros c1 c2 [c t] _ _ H1 H2. unfold pairs_of_clip in *.
    destruct (clips f !! c1); [|by apply elem_of_nil in H1].
    destruct (clips f !! c2); [|by apply elem_of_nil in H2].
    apply list_elem_of_fmap in H1 as (? & [= -> _] & _).
    by apply list_elem_of_fmap in H2 as (? & [= -> _] & _).
  - intros c _. unfold pairs_of_clip. destruct (clips f !! c); [|constructor].
    apply NoDup_fmap; [by intros ?? [= ->]|apply NoDup_names].
  - apply NoDup_names.
Qed.

(** ** The operations, seen from the caller *)

Lemma has_clip_run c w :
  w_locked w = false →
  has_clip c w =
    (Ok (is_finished (w_file w) c),
     mk_world (w_file w) false (w_fuse w) (w_log w ++ gateway_events ModeR)).
Proof.
  intros Hl. unfold has_clip. rewrite with_manager_free by done.
  by rewrite has_clip_body_run.
Qed.

Lemma get_all_track_ids_run w :
  w_locked w = false →
  get_all_track_ids w =
    (Ok (track_pairs (w_file w)),
     mk_world (w_file w) false (w_fuse w) (w_log w ++ gateway_events ModeR)).
Proof.
  intros Hl. unfold get_all_track_ids. rewrite with_manager_free by done.
  by rewrite get_all_track_ids_body_run.
Qed.

Lemma get_clip_meta_run c w :
  w_locked w = false →
  get_clip_meta c w =
    (match clips (w_file w) !! c with
     | Some g => Ok (g_attrs g)
     | None => Err (KeyError c)
     end,
     mk_world (w_file w) false (w_fuse w) (w_log w ++ gateway_events ModeR)).
Proof.
  intros Hl. unfold get_clip_meta. rewrite with_manager_free by done.
  unfold get_clip_meta_body, clips_getitem, group_attrs_items. wp_unfold. simpl.
  destruct (clips (w_file w) !! c) as [g|] eqn:Hc; simpl; [|done]. by rewrite Hc.
Qed.

Lemma get_track_meta_run c t w :
  w_locked w = false →
  get_track_meta c t w =
    (match clips (w_file w) !! c with
     | Some g =>
         match g_members g !! t with
         | Some d => Ok (ds_attrs d)
         | None => Err (KeyError t)
         end
     | None => Err (KeyError c)
     end,
     mk_world (w_file w) false (w_fuse w) (w_log w ++ gateway_events ModeR)).
Proof.
  intros Hl. unfold get_track_meta. rewrite with_manager_free by done.
  unfold get_track_meta_body, clips_getitem, group_getitem, dataset_attrs_items.
  wp_unfold. simpl.
  destruct (clips (w_file w) !! c) as [g|] eqn:Hc; simpl; [|done]. rewrite Hc.
  destruct (g_members g !! t) as [d|] eqn:Ht; simpl; [|done]. by rewrite Hc, Ht.
Qed.

(** [get_track] raises whatever the store holds: for a missing clip or
    track [KeyError], and for a track that is there the [ValueError] of
    selecting a field of an element type without fields. *)
Lemma get_track_run c t start_frame end_frame w :
  w_locked w = false →
  get_track c t start_frame end_frame w =
    (match clips (w_file w) !! c with
     | Some g =>
         match g_members g !! t with
         | Some d => Err (ValueError "Field names only allowed for compound types")
         | None => Err (KeyError t)
         end
     | None => Err (KeyError c)
     end,
     mk_world (w_file w) false (w_fuse w) (w_log w ++ gateway_events ModeR)).
Proof.
  intros Hl. unfold get_track. rewrite with_manager_free by done.
  unfold get_track_body, clips_getitem, group_getitem, dataset_getitem_field.
  wp_unfold. simpl.
  destruct (clips (w_file w) !! c) as [g|] eqn:Hc; simpl; [|done]. rewrite Hc.
  destruct (g_members g !! t) as [d|] eqn:Ht; simpl; [|done]. rewrite Hc, Ht.
  by destruct (nd_dtype (ds_array d)).
Qed.

Lemma create_clip_outcome c tr ov w :
  w_locked w = false →
  w_locked (create_clip c tr ov w).2 = false ∧
  w_log (create_clip c tr ov w).2 = w_log w ++ gateway_events ModeA ∧
  match (create_clip c tr ov w).1 with
  | Ok _ => create_clip_done (w_file w) c tr ov (w_file (create_clip c tr ov w).2)
  | Err _ =>
      create_clip_broken (w_file w) c ov (w_file (create_clip c tr ov w).2) ∧
      create_clip_cause (entry ModeA w) c tr ov
  | Blocked => False
  end.
Proof.
  intros Hl. unfold create_clip. rewrite with_manager_free by done. simpl.
  split_and!; [done..|].
  pose proof (wp_run _ _ _ _ (wp_create_clip_body c tr ov (entry ModeA w) eq_refl)) as H.
  unfold entry in *. by destruct (create_clip_body _ _ _ _) as [[[]|e] s'].
Qed.

Lemma add_track_outcome c t data track opts w :
  w_locked w = false →
  w_locked (add_track c t data track opts w).2 = false ∧
  match (add_track c t data track opts w).1 with
  | Ok _ =>
      length (nd_shape data) = 4%nat ∧
      add_track_done (w_file w) c t data (nd_shape data) track opts
        (w_file (add_track c t data track opts w).2)
  | Err _ =>
      add_track_broken (w_file w) c t (w_file (add_track c t data track opts w).2) ∧
      (length (nd_shape data) ≠ 4%nat ∨
       add_track_cause (entry ModeA w) c t (nd_shape data) track)
  | Blocked => False
  end.
Proof.
  intros Hl. unfold add_track.
  destruct (nd_shape data) as [|F [|Ch [|H [|W [|]]]]] eqn:Hs;
    try (simpl; split; [done|]; split; [by left|by left]).
  rewrite with_manager_free by done. simpl. split; [done|].
  pose proof (wp_run _ _ _ _
    (wp_add_track_body c t data F Ch H W track opts (entry ModeA w) eq_refl)) as H0.
  unfold entry in *. destruct (add_track_body _ _ _ _ _ _ _ _ _ _) as [[[]|e] s'];
    simpl in *; [by split|]. destruct H0. split; [done|by right].
Qed.

(** ** Frame facts *)

Lemma create_clip_frame c c' tr ov w :
  c ≠ c' →
  clips (w_file (create_clip c tr ov w).2) !! c' = clips (w_file w) !! c'.
Proof.
  intros Hne. destruct (w_locked w) eqn:Hl.
  { unfold create_clip. by rewrite with_manager_locked. }
  destruct (create_clip_outcome c tr ov w Hl) as (_ & _ & H).
  destruct (create_clip c tr ov w) as [[[]|e|] w']; simpl in *; [| |done].
  - destruct H as (_ & _ & ->). by apply lookup_put_group_ne.
  - destruct H as [[->|[_ [->| (A & -> & _)]]] _]; [done|..].
    + simpl. by apply lookup_delete_ne.
    + by apply lookup_put_group_ne.
Qed.

Lemma add_track_frame c c' t a tk opts w :
  c ≠ c' →
  clips (w_file (add_track c t a tk opts w).2) !! c' = clips (w_file w) !! c'.
Proof.
  intros Hne. destruct (w_locked w) eqn:Hl.
  { unfold add_track. destruct (nd_shape a) as [|? [|? [|? [|? [|]]]]]; try done.
    by rewrite with_manager_locked. }
  destruct (add_track_outcome c t a tk opts w Hl) as (_ & H).
  destruct (add_track c t a tk opts w) as [[[]|e|] w']; simpl in *; [| |done].
  - destruct H as (_ & g0 & _ & _ & _ & ->). by apply lookup_put_group_ne.
  - destruct H as [[->|(g0 & d & _ & _ & ->)] _]; [done|].
    by apply lookup_put_group_ne.
Qed.

Lemma add_track_absent c t a tk opts w :
  clips (w_file w) !! c = None →
  w_file (add_track c t a tk opts w).2 = w_file w.
Proof.
  intros Hc. destruct (w_locked w) eqn:Hl.
  { unfold add_track. destruct (nd_shape a) as [|? [|? [|? [|? [|]]]]]; try done.
    by rewrite with_manager_locked. }
  destruct (add_track_outcome c t a tk opts w Hl) as (_ & H).
  destruct (add_track c t a tk opts w) as [[[]|e|] w']; simpl in *; [| |done].
  - destruct H as (_ & g0 & Hg0 & _). congruence.
  - destruct H as [[->|(g0 & d & Hg0 & _)] _]; [done|congruence].
Qed.

Lemma perform_unlocked k w : w_locked w = false → w_locked (perform k w) = false.
Proof.
  intros Hl. destruct k; simpl.
  - by rewrite has_clip_run.
  - by apply create_clip_outcome.
  - by rewrite get_all_track_ids_run.
  - by rewrite get_track_meta_run.
  - by rewrite get_clip_meta_run.
  - by rewrite get_track_run.
  - by apply add_track_outcome.
Qed.

Lemma perform_absent c k w :
  w_locked w = false →
  creates c k = false →
  clips (w_file w) !! c = None →
  clips (w_file (perform k w)) !! c = None.
Proof.
  intros Hl Hk Hc. destruct k; simpl in *.
  - by rewrite has_clip_run.
  - rewrite create_clip_frame; [done|]. by apply bool_decide_eq_false in Hk.
  - by rewrite get_all_track_ids_run.
  - by rewrite get_track_meta_run.
  - by rewrite get_clip_meta_run.
  - by rewrite get_track_run.
  - destruct (decide (clip_id = c)) as [->|Hne].
    + by rewrite add_track_absent.
    + by rewrite add_track_frame.
Qed.

Lemma run_history_absent c h : ∀ w,
  w_locked w = false →
  Forall (λ fk, creates c fk.2 = false) h →
  clips (w_file w) !! c = None →
  w_locked (run_history h w) = false ∧
  clips (w_file (run_history h w)) !! c = None.
Proof.
  induction h as [|[fuse k] h IH]; intros w Hl Hall Hc; simpl; [done|].
  apply Forall_cons in Hall as [Hk Hall]. apply IH; [|done|].
  - by apply perform_unlocked.
  - by apply perform_absent.
Qed.

(** ** How the listed pairs change *)

Lemma create_clip_taken c tr w :
  w_locked w = false →
  is_Some (clips (w_file w) !! c) →
  w_file (create_clip c tr false w).2 = w_file w.
Proof.
  intros Hl [g Hg]. destruct (create_clip_outcome c tr false w Hl) as (_ & _ & H).
  destruct (create_clip c tr false w) as [[[]|e|] w']; simpl in *; [| |done].
  - destruct H as ([?|?] & _); congruence.
  - destruct H as [[->|[[?|?] _]] _]; [done|congruence..].
Qed.

(** A pair stays listed through every call but an overwriting [create_clip]
    of its clip. *)
Lemma perform_keeps_pair k w c t :
  w_locked w = false →
  (∀ tr, k ≠ CreateClip c tr true) →
  (c, t) ∈ track_pairs (w_file w) →
  (c, t) ∈ track_pairs (w_file (perform k w)).
Proof.
  intros Hl Hk. rewrite !elem_of_track_pairs. intros (g & Hg & Ht).
  destruct k; simpl.
  - rewrite has_clip_run by done. eauto.
  - destruct (decide (clip_id = c)) as [->|Hne].
    + destruct overwrite; [by destruct (Hk tracker0)|].
      rewrite create_clip_taken by eauto. eauto.
    + rewrite create_clip_frame by done. eauto.
  - rewrite get_all_track_ids_run by done. eauto.
  - rewrite get_track_meta_run by done. eauto.
  - rewrite get_clip_meta_run by done. eauto.
  - rewrite get_track_run by done. eauto.
  - destruct (decide (clip_id = c)) as [->|Hne];
      [|rewrite add_track_frame by done; eauto].
    destruct (add_track_outcome c track_id track_data track0 opts w Hl) as (_ & H).
    destruct (add_track c track_id track_data track0 opts w) as [[[]|e|] w'];
      simpl in *; [| |done].
    + destruct H as (_ & g0 & Hg0 & Ht0 & _ & ->).
      rewrite lookup_put_group_eq. eexists. split; [done|]. simpl.
      rewrite Hg0 in Hg. injection Hg as <-.
      rewrite lookup_insert_ne; [done|]. intros ->. rewrite Ht0 in Ht. by destruct Ht.
    + destruct H as [[->|(g0 & d & Hg0 & Ht0 & ->)] _]; [eauto|].
      rewrite lookup_put_group_eq. eexists. split; [done|]. simpl.
      rewrite Hg0 in Hg. injection Hg as <-.
      rewrite lookup_insert_ne; [done|]. intros ->. rewrite Ht0 in Ht. by destruct Ht.
Qed.

(** A pair gets listed only by an [add_track] for this pair. *)
Lemma perform_new_pair k w c t :
  w_locked w = false →
  (c, t) ∈ track_pairs (w_file (perform k w)) →
  (c, t) ∈ track_pairs (w_file w) ∨ ∃ a tk opts, k = AddTrack c t a tk opts.
Proof.
  intros Hl. rewrite !elem_of_track_pairs. destruct k; simpl.
  - rewrite has_clip_run by done. by left.
  - destruct (decide (clip_id = c)) as [->|Hne];
      [|rewrite create_clip_frame by done; by left].
    destruct (create_clip_outcome c tracker0 overwrite w Hl) as (_ & _ & H).
    destruct (create_clip c tracker0 overwrite w) as [[[]|e|] w'];
      simpl in *; [| |done].
    + destruct H as (_ & _ & ->). rewrite lookup_put_group_eq.
      intros (g & [= <-] & Ht). simpl in Ht. rewrite lookup_empty in Ht.
      by destruct Ht.
    + destruct H as [[->|[_ [->|(A & -> & _)]]] _]; [by left|..].
      * simpl. rewrite lookup_delete_eq. by intros (g & ? & _).
      * rewrite lookup_put_group_eq. intros (g & [= <-] & Ht). simpl in Ht.
        rewrite lookup_empty in Ht. by destruct Ht.
  - rewrite get_all_track_ids_run by done. by left.
  - rewrite get_track_meta_run by done. by left.
  - rewrite get_clip_meta_run by done. by left.
  - rewrite get_track_run by done. by left.
  - destruct (decide (clip_id = c)) as [->|Hne];
      [|rewrite add_track_frame by done; by left].
    destruct (decide (track_id = t)) as [->|Hnet]; [right; eauto|].
    destruct (add_track_outcome c track_id track_data track0 opts w Hl) as (_ & H).
    destruct (add_track c track_id track_data track0 opts w) as [[[]|e|] w'];
      simpl in *; [| |done].
    + destruct H as (_ & g0 & Hg0 & Ht0 & _ & ->). rewrite lookup_put_group_eq.
      intros (g & [= <-] & Ht). simpl in Ht. rewrite lookup_insert_ne in Ht by done.
      left. eauto.
    + destruct H as [[->|(g0 & d & Hg0 & Ht0 & ->)] _]; [by left|].
      rewrite lookup_put_group_eq.
      intros (g & [= <-] & Ht). simpl in Ht. rewrite lookup_insert_ne in Ht by done.
      left. eauto.
Qed.

(** A completed [add_track] lists its pair. *)
Lemma add_track_lists_pair c t a tk opts w :
  w_locked w = false →
  (add_track c t a tk opts w).1 = Ok tt →
((c, t) ∉ track_pairs (w_file w)) ∧
  ((c, t) ∈ track_pairs (w_file (add_track c t a tk opts w).2)).
Proof.
  intros Hl Hok. destruct (add_track_outcome c t a tk opts w Hl) as (_ & H).
  rewrite Hok in H. destruct H as (_ & g0 & Hg0 & Ht & _ & Hf).
  rewrite !elem_of_track_pairs, Hf, lookup_put_group_eq. split.
  - intros (g & Hg & Hin). rewrite Hg0 in Hg. injection Hg as <-.
    rewrite Ht in Hin. by destruct Hin.
  - eexists. split; [done|]. simpl. rewrite lookup_insert_eq. by eexists.
Qed.

(** ** Further facts *)

(** What is stored round-trips: the dataset of a completed [add_track] holds
    the int16 array it was given. *)
Lemma saturate_in_range d z : in_range d z → saturate d z = z.
Proof. unfold in_range, saturate. intros Hz. destruct d; simpl in *; lia. Qed.

Lemma set_attrs_array kvs d : ds_array (set_attrs kvs d) = ds_array d.
Proof.
  unfold set_attrs. revert d. induction kvs as [|kv kvs IH]; intros d; simpl; [done|].
  by rewrite IH.
Qed.

Lemma stored_track_array a tk opts :
  nd_dtype a = Int16 → ndarray_wf a →
  ds_array (stored_track a (nd_shape a) tk opts) = a.
Proof.
  intros Hd [_ Hr]. unfold stored_track. rewrite set_attrs_array. simpl.
  destruct a as [dt sh data]. simpl in *. subst dt. f_equal.
  induction Hr as [|z data Hz _ IH]; csimpl; [done|].
  by rewrite saturate_in_range, IH.
Qed.

Lemma clip_attrs_finished tr : is_Some (clip_attrs tr !! "finished").
Proof. unfold clip_attrs. rewrite lookup_insert_eq. by eexists. Qed.

Lemma create_clip_returns c tr ov w :
  w_locked w = false → w_fuse w = None →
  (ov = true ∨ clips (w_file w) !! c = None) →
  (∀ t, tr = Some t → tracker_storable t) →
  (create_clip c tr ov w).1 = Ok tt.
Proof.
  intros Hl Hfuse Hfree Hst.
  destruct (create_clip_outcome c tr ov w Hl) as (_ & _ & H).
  destruct (create_clip c tr ov w) as [[[]|e|] w']; simpl in *; [done| |done].
  destruct H as [_ [Ha|[[-> [g Hg]]|(t & -> & Ht)]]].
  - unfold armed, entry in Ha. simpl in Ha. congruence.
  - simpl in Hg. destruct Hfree; congruence.
  - destruct Ht. by apply Hst.
Qed.

Lemma run_history_unlocked h : ∀ w,
  w_locked w = false → w_locked (run_history h w) = false.
Proof.
  induction h as [|[fuse k] h IH]; intros w Hl; simpl; [done|].
  apply IH. by apply perform_unlocked.
Qed.

(** What a completed overwriting [create_clip] leaves under the clip. *)
Lemma create_clip_fresh c tr w :
  w_locked w = false →
  (create_clip c tr true w).1 = Ok tt →
  clips (w_file (create_clip c tr true w).2) !! c
    = Some (mk_group (clip_attrs tr) ∅) ∧
  w_locked (create_clip c tr true w).2 = false ∧
  ∀ t, (c, t) ∉ track_pairs (w_file (create_clip c tr true w).2).
Proof.
  intros Hl Hok. destruct (create_clip_outcome c tr true w Hl) as (Hl' & _ & H).
  rewrite Hok in H. destruct H as (_ & _ & Hf).
  assert (Hc : clips (w_file (create_clip c tr true w).2) !! c
               = Some (mk_group (clip_attrs tr) ∅)).
  { rewrite Hf. apply lookup_put_group_eq. }
  split_and!; [done..|].
  intros t (g & Hg & Ht)%elem_of_track_pairs.
  rewrite Hc in Hg. injection Hg as <-. simpl in Ht.
  rewrite lookup_empty in Ht. by destruct Ht.
Qed.

Lemma stored_track_histories a dims tk opts :
  ds_attrs (stored_track a dims (Some tk) opts) !! "mass_history"
    = Some (AArray (mass_history tk)) ∧
  ds_attrs (stored_track a dims (Some tk) opts) !! "bounds_history"
    = Some (AArray (bounds_rows tk)).
Proof.
  unfold stored_track, set_attrs, track_attrs. simpl.
  rewrite !foldl_app. simpl. split.
  - rewrite lookup_insert_ne by done. apply lookup_insert_eq.
  - apply lookup_insert_eq.
Qed.

(** ** The gateway events and the threads *)

Lemma with_manager_log {A} (m : mode) (block : body A) w :
  w_locked w = false →
  w_log (with_manager m block w).2 = w_log w ++ gateway_events m.
Proof. intros Hl. by rewrite with_manager_free. Qed.

Lemma perform_log k w :
  w_locked w = false →
  w_log (perform k w) =
    w_log w ++ (if enters k then gateway_events (call_mode k) else []).
Proof.
  intros Hl. destruct k; simpl; try by apply with_manager_log.
  unfold add_track.
  destruct (nd_shape track_data) as [|? [|? [|? [|? [|]]]]]; simpl;
    rewrite ?app_nil_r; try done.
  by apply with_manager_log.
Qed.

Lemma count_replicate_outside test n :
  test Outside = false → count test (replicate n Outside) = 0%nat.
Proof. intros Ht. induction n as [|n IH]; simpl; [done|]. by rewrite Ht, IH. Qed.

Lemma count_insert test ps : ∀ i p q,
  ps !! i = Some p →
  (count test (<[i := q]> ps) + (if test p then 1 else 0)
   = count test ps + (if test q then 1 else 0))%nat.
Proof.
  induction ps as [|p' ps IH]; intros [|i] p q Hp; simpl in *; try done.
  - injection Hp as ->. lia.
  - specialize (IH i p q Hp). lia.
Qed.

Lemma count_open_le_holding ps : (count has_open ps ≤ count holds_lock ps)%nat.
Proof. induction ps as [|[] ps IH]; simpl; lia. Qed.

Lemma sys_step_invariant i mv σ σ' :
  sys_step i mv σ = Some σ' → lock_invariant σ → lock_invariant σ'.
Proof.
  unfold sys_step, lock_invariant. intros Hstep Hinv.
  destruct (sys_threads σ !! i) as [p|] eqn:Hp; simpl in Hstep; [|done].
  destruct (thread_step mv (sys_world σ) p) as [[w' p']|] eqn:Hts;
    simpl in Hstep; [|done].
  injection Hstep as <-. simpl.
  pose proof (count_insert holds_lock _ i p p' Hp) as Hc.
  destruct p, mv; simpl in Hts; try done.
  - unfold lock_acquire in Hts.
    destruct (w_locked (sys_world σ)) eqn:Hlk; simpl in Hts; [done|].
    injection Hts as <- <-. simpl in *. lia.
  - unfold file_open in Hts. destruct raises as [e|];
      injection Hts as <- <-; simpl in *;
      destruct (w_locked (sys_world σ)); lia.
  - destruct (block s) as [[?|?] ?]; injection Hts as <- <-; simpl in *; lia.
  - unfold file_close in Hts. destruct raises as [[e f]|];
      injection Hts as <- <-; simpl in *;
      destruct (w_locked (sys_world σ)); lia.
  - injection Hts as <- <-. simpl in *.
    destruct (w_locked (sys_world σ)); lia.
Qed.

Lemma sys_run_invariant schedule : ∀ σ σ',
  sys_run schedule σ = Some σ' → lock_invariant σ → lock_invariant σ'.
Proof.
  induction schedule as [|[i mv] rest IH]; intros σ σ' Hrun Hinv; simpl in Hrun.
  - by injection Hrun as <-.
  - destruct (sys_step i mv σ) as [σ1|] eqn:Hstep; simpl in Hrun; [|done].
    eapply IH; [done|]. by eapply sys_step_invariant.
Qed.

(** ** Link names *)

Lemma store_plain_spec f :
  store_plain f = true ↔
  ∀ c g, clips f !! c = Some g →
    link_name c = true ∧ ∀ t d, g_members g !! t = Some d → link_name t = true.
Proof.
  unfold store_plain. rewrite forallb_forall. split.
  - intros H c g Hc.
    specialize (H (c, g)). rewrite <- list_elem_of_In, elem_of_map_to_list in H.
    apply H, andb_prop in Hc as [Hlc Hmem]. split; [done|]. intros t d Ht.
    rewrite forallb_forall in Hmem. apply Hmem.
    rewrite <- list_elem_of_In, list_elem_of_fmap. exists (t, d).
    split; [done|]. by apply elem_of_map_to_list.
  - intros H [c g] Hin. rewrite <- list_elem_of_In, elem_of_map_to_list in Hin.
    destruct (H c g Hin) as [Hlc Hmem]. simpl. rewrite Hlc. simpl.
    apply forallb_forall. intros t Ht.
    rewrite <- list_elem_of_In, list_elem_of_fmap in Ht.
    destruct Ht as ([t' d] & -> & Ht). apply elem_of_map_to_list in Ht.
    by eapply Hmem.
Qed.

Lemma store_plain_new : store_plain new_database = true.
Proof. reflexivity. Qed.

Lemma store_plain_put_group f c g :
  store_plain f = true → link_name c = true →
  (∀ t d, g_members g !! t = Some d → link_name t = true) →
  store_plain (put_group f c g) = true.
Proof.
  rewrite !store_plain_spec.
  intros Hf Hc Hg c' g' Hc'. destruct (decide (c = c')) as [<-|Hne].
  - rewrite lookup_put_group_eq in Hc'. by injection Hc' as <-.
  - rewrite lookup_put_group_ne in Hc' by done. by apply Hf.
Qed.

Lemma store_plain_delete f c :
  store_plain f = true → store_plain (mk_h5file (delete c (clips f))) = true.
Proof.
  rewrite !store_plain_spec. intros Hf c' g' Hc'. simpl in Hc'.
  apply lookup_delete_Some in Hc' as [_ Hc']. by apply Hf.
Qed.

Lemma store_plain_with_track f c t g0 d :
  store_plain f = true → clips f !! c = Some g0 → link_name t = true →
  ∀ A, store_plain (put_group f c (mk_group A (<[t := d]> (g_members g0)))) = true.
Proof.
  intros Hf Hc Ht A.
  destruct (proj1 (store_plain_spec f) Hf c g0 Hc) as [Hlc Hmem].
  apply store_plain_put_group; [done..|].
  intros t' d' Ht'. simpl in Ht'.
  apply lookup_insert_Some in Ht' as [[<- _]|[_ Ht']]; [done|by eapply Hmem].
Qed.

Lemma create_clip_store_plain c tr ov w :
  link_name c = true → store_plain (w_file w) = true →
  store_plain (w_file (create_clip c tr ov w).2) = true.
Proof.
  intros Hc Hf. destruct (w_locked w) eqn:Hl.
  { unfold create_clip. by rewrite with_manager_locked. }
  destruct (create_clip_outcome c tr ov w Hl) as (_ & _ & H).
  destruct (create_clip c tr ov w) as [[[]|e|] w']; simpl in *; [| |done].
  - destruct H as (_ & _ & ->). apply store_plain_put_group; [done..|].
    intros t d Ht. simpl in Ht. by rewrite lookup_empty in Ht.
  - destruct H as [[->|[_ [->| (A & -> & _)]]] _]; [done|..].
    + by apply store_plain_delete.
    + apply store_plain_put_group; [done..|].
      intros t d Ht. simpl in Ht. by rewrite lookup_empty in Ht.
Qed.

Lemma add_track_store_plain c t a tk opts w :
  link_name t = true → store_plain (w_file w) = true →
  store_plain (w_file (add_track c t a tk opts w).2) = true.
Proof.
  intros Ht Hf. destruct (w_locked w) eqn:Hl.
  { unfold add_track. destruct (nd_shape a) as [|? [|? [|? [|? [|]]]]]; try done.
    by rewrite with_manager_locked. }
  destruct (add_track_outcome c t a tk opts w Hl) as (_ & H).
  destruct (add_track c t a tk opts w) as [[[]|e|] w']; simpl in *; [| |done].
  - destruct H as (_ & g0 & Hg0 & _ & _ & ->). by eapply store_plain_with_track.
  - destruct H as [[->|(g0 & d & Hg0 & _ & ->)] _]; [done|].
    by eapply store_plain_with_track.
Qed.

Lemma query_file k w : writes_to k = None → w_file (perform k w) = w_file w.
Proof.
  intros Hk. destruct (w_locked w) eqn:Hl.
  - destruct k; try done; simpl;
      unfold has_clip, get_all_track_ids, get_clip_meta, get_track_meta, get_track;
      by rewrite with_manager_locked.
  - destruct k; try done; simpl.
    + by rewrite has_clip_run.
    + by rewrite get_all_track_ids_run.
    + by rewrite get_track_meta_run.
    + by rewrite get_clip_meta_run.
    + by rewrite get_track_run.
Qed.

Lemma perform_store_plain k w :
  call_plain k = true → store_plain (w_file w) = true →
  store_plain (w_file (perform k w)) = true.
Proof.
  intros Hk Hf. destruct (writes_to k) as [c|] eqn:Hw.
  - destruct k; try done; simpl in *.
    + by apply create_clip_store_plain.
    + apply andb_prop in Hk as [_ Ht]. by apply add_track_store_plain.
  - by rewrite query_file.
Qed.

Lemma run_history_store_plain h : ∀ w,
  history_plain h → store_plain (w_file w) = true →
  store_plain (w_file (run_history h w)) = true.
Proof.
  induction h as [|[fuse k] h IH]; intros w Hall Hf; simpl; [done|].
  apply Forall_cons in Hall as [Hk Hall]. apply IH; [done|].
  by apply perform_store_plain.
Qed.

(** ** The order of the listing *)

Lemma names_sorted {A} (m : gmap string A) : StronglySorted String.le (names m).
Proof. apply (StronglySorted_merge_sort String.le). Qed.

Lemma pairs_of_clip_sorted f c : StronglySorted pair_le (pairs_of_clip f c).
Proof.
  unfold pairs_of_clip. destruct (clips f !! c) as [g|]; [|constructor].
  eapply StronglySorted_fmap; [|apply names_sorted].
  intros t1 t2 Ht. by split.
Qed.

Lemma bind_pairs_sorted f cs :
  StronglySorted String.le cs → NoDup cs →
  StronglySorted pair_le (cs ≫= pairs_of_clip f).
Proof.
  induction 1 as [|c cs Hcs IH Hle]; intros Hnd; [constructor|].
  apply NoDup_cons in Hnd as [Hc Hnd]. simpl.
  apply StronglySorted_app_2; [|apply pairs_of_clip_sorted|by apply IH].
  intros [c1 t1] [c2 t2] H1 H2.
  assert (c1 = c) as ->.
  { unfold pairs_of_clip in H1. destruct (clips f !! c); [|by apply elem_of_nil in H1].
    by apply list_elem_of_fmap in H1 as (? & [= -> _] & _). }
  apply list_elem_of_bind in H2 as (c' & H2 & Hc').
  assert (c2 = c') as ->.
  { unfold pairs_of_clip in H2. destruct (clips f !! c'); [|by apply elem_of_nil in H2].
    by apply list_elem_of_fmap in H2 as (? & [= -> _] & _). }
  split; simpl.
  - rewrite Forall_forall in Hle. by apply Hle.
  - intros ->. done.
Qed.

Lemma track_pairs_sorted f : StronglySorted pair_le (track_pairs f).
Proof. apply bind_pairs_sorted; [apply names_sorted|apply NoDup_names]. Qed.

(** ** One thread and its [with] statement *)

(** The moves of a [with] statement, made by a single thread, lead where
    [with_manager_in] leads. *)
Lemma with_moves_run {A} env m (block : body A) w :
  w_locked w = false →
  sys_run ((λ mv, (0%nat, mv)) <$> with_moves env m block) (sys_init 1 w)
  = Some (mk_system (with_manager_in env m block w).2 [Outside]).
Proof.
  intros Hl. unfold with_moves, with_manager_in.
  destruct env as [[e|] [[e' f]|]]; simpl;
    unfold sys_step; simpl; unfold lock_acquire; rewrite Hl; simpl; try done;
    unfold forget; destruct (block _) as [[a|e''] s']; simpl; done.
Qed.


(** * The claims *)

(** C1.  [get_track] does not give back what [add_track] stored.  On the
    store with clip [c] and its track [1], written by a completed [add_track]
    and holding the nine frames byte for byte, [get_track] raises
    [ValueError]: line 140 already yields the dataset, and line 141 indexes
    that dataset with the track id, which h5py takes for the name of a field
    of a compound element type.  The same happens for every track, every
    bound and every store: [get_track] never returns an array, so the slice
    of line 142 is never taken. *)
Theorem get_track_raises_on_stored_track :
  (add_track "c" "1" nine_frames None None world1).1 = Ok tt ∧
  (∃ g d, clips (w_file world2) !! "c" = Some g ∧ g_members g !! "1" = Some d ∧
          ds_array d = nine_frames) ∧
  (get_track "c" "1" None None world2).1
    = Err (ValueError "Field names only allowed for compound types") ∧
  (∀ c t start_frame end_frame w a,
     (get_track c t start_frame end_frame w).1 ≠ Ok a).
Proof.
  split_and!.
  - vm_compute; reflexivity.
  - eexists _, _. split_and!; [vm_compute; reflexivity..|]. vm_compute; reflexivity.
  - vm_compute; reflexivity.
  - intros c t start_frame end_frame w a. destruct (w_locked w) eqn:Hl.
    + unfold get_track. by rewrite with_manager_locked.
    + rewrite get_track_run by done. simpl.
      destruct (clips (w_file w) !! c) as [g|]; [|done].
      by destruct (g_members g !! t).
Qed.

(** C2.  With the lock free, on a file whose clips and tracks are under link
    names, [has_clip c] for a link name [c] returns a boolean, and it is
    [True] exactly when [/clips] has a node [c] and that node carries the
    [finished] attribute: so it is [False] for a node without the marker,
    and it is [False] after any history of calls with link names on a new
    database in which [c] was never created. *)
Theorem has_clip_iff_finished_node (c : string) (w : world) :
  w_locked w = false →
  link_name c = true →
  store_plain (w_file w) = true →
  ∃ b, (has_clip c w).1 = Ok b ∧
       (b = true ↔
        ∃ g, clips (w_file w) !! c = Some g ∧ is_Some (g_attrs g !! "finished")) ∧
       (∀ g, clips (w_file w) !! c = Some g → g_attrs g !! "finished" = None →
             b = false) ∧
       (∀ h, history_plain h → Forall (λ fk, creates c fk.2 = false) h →
             (has_clip c (run_history h (idle_world new_database))).1 = Ok false).
Proof.
  intros Hl _ _. exists (is_finished (w_file w) c). rewrite has_clip_run by done.
  split_and!; [done| | |].
  - unfold is_finished. destruct (clips (w_file w) !! c) as [g|]; split.
    + intros Hb%bool_decide_eq_true. by exists g.
    + intros (g' & [= <-] & Hg). by apply bool_decide_eq_true.
    + done.
    + by intros (g' & ? & _).
  - intros g Hg Hnone. unfold is_finished. rewrite Hg, Hnone.
    apply bool_decide_eq_false. by intros [??].
  - intros h _ Hall.
    destruct (run_history_absent c h (idle_world new_database)) as [Hl' Hc];
      [done..|].
    rewrite has_clip_run by done. simpl. unfold is_finished. by rewrite Hc.
Qed.

Lemma has_clip_iff_finished_node_witness :
  w_locked world1 = false ∧
  link_name "c" = true ∧
  store_plain (w_file world1) = true ∧
  ∃ b, (has_clip "c" world1).1 = Ok b ∧
       (b = true ↔
        ∃ g, clips (w_file world1) !! "c" = Some g ∧
             is_Some (g_attrs g !! "finished")) ∧
       (∀ g, clips (w_file world1) !! "c" = Some g →
             g_attrs g !! "finished" = None → b = false) ∧
       (∀ h, history_plain h → Forall (λ fk, creates "c" fk.2 = false) h →
             (has_clip "c" (run_history h (idle_world new_database))).1 = Ok false).
Proof.
  split; [vm_compute; reflexivity|]. split; [vm_compute; reflexivity|].
  split; [vm_compute; reflexivity|].
  apply (has_clip_iff_finished_node "c" world1); vm_compute; reflexivity.
Defined.

(** The claim C3 as it is stated fails: the clip was finished, the
    overwriting [create_clip] raises at [f.flush()], and [has_clip] no longer
    answers what it answered before. *)
Lemma failed_create_clip_changes_has_clip :
  ¬ (∀ (k : call) (w : world) (c' : string),
       w_locked w = false → raised k w = true →
       (has_clip c' (perform k w)).1 = (has_clip c' w).1).
Proof.
  intros H.
  specialize (H (CreateClip "c" None true) world1_fault_at_flush "c").
  vm_compute in H. by specialize (H eq_refl eq_refl).
Qed.

(** C3, as amended.  The ids are link names, as are the names in the file.
    When a call raises, the file is left as it was, except that a failing
    [add_track] may leave a dataset under the new track's name and a failing
    [create_clip] may leave the clip's node deleted, or replaced by a new
    node that has no track and no [finished] marker.  [has_clip] afterwards
    answers for every clip what it answered before, with one exception: for
    the clip a failing [create_clip] was creating the answer may have become
    [False], because the old node is deleted before the new one is written.
    In particular a failing [add_track] changes no answer of [has_clip]. *)
Theorem failed_call_and_has_clip (k : call) (w : world) (c' : string) :
  w_locked w = false →
  store_plain (w_file w) = true →
  call_plain k = true →
  link_name c' = true →
  raised k w = true →
  left_behind k w ∧
  ((has_clip c' (perform k w)).1 = (has_clip c' w).1 ∨
   (creates c' k = true ∧ (has_clip c' (perform k w)).1 = Ok false)).
Proof.
  intros Hl _ _ _ Hr. pose proof (perform_unlocked k w Hl) as Hl'.
  rewrite !has_clip_run by done. simpl. unfold is_finished.
  destruct k; simpl in *.
  - rewrite has_clip_run by done. split; [done|by left].
  - destruct (create_clip_outcome clip_id tracker0 overwrite w Hl) as (_ & _ & H).
    destruct (create_clip clip_id tracker0 overwrite w) as [[[]|e|] w'] eqn:Hrun;
      try done.
    simpl in *. destruct H as [Hbroken _]. split; [done|].
    destruct (decide (clip_id = c')) as [->|Hne].
    2:{ left. pose proof (create_clip_frame clip_id c' tracker0 overwrite w Hne) as Hfr.
        rewrite Hrun in Hfr. simpl in Hfr. by rewrite Hfr. }
    destruct Hbroken as [->|[_ [->| (A & -> & HA)]]]; [by left|right..].
    + split; [by apply bool_decide_eq_true|]. simpl. by rewrite lookup_delete_eq.
    + split; [by apply bool_decide_eq_true|]. rewrite lookup_put_group_eq. simpl.
      by rewrite HA.
  - rewrite get_all_track_ids_run by done. split; [done|by left].
  - rewrite get_track_meta_run by done. split; [done|by left].
  - rewrite get_clip_meta_run by done. split; [done|by left].
  - rewrite get_track_run by done. split; [done|by left].
  - destruct (add_track_outcome clip_id track_id track_data track0 opts w Hl)
      as (_ & H).
    destruct (add_track clip_id track_id track_data track0 opts w)
      as [[[]|e|] w'] eqn:Hrun; try done.
    simpl in *. destruct H as [Hbroken _]. split; [done|]. left.
    destruct (decide (clip_id = c')) as [->|Hne].
    2:{ pose proof (add_track_frame clip_id c' track_id track_data track0 opts w Hne)
          as Hfr.
        rewrite Hrun in Hfr. simpl in Hfr. by rewrite Hfr. }
    destruct Hbroken as [->|(g0 & d & Hg0 & _ & ->)]; [done|].
    by rewrite lookup_put_group_eq, Hg0.
Qed.

Lemma failed_call_and_has_clip_witness :
  w_locked world1_fault_at_flush = false ∧
  store_plain (w_file world1_fault_at_flush) = true ∧
  call_plain (CreateClip "c" None true) = true ∧
  link_name "c" = true ∧
  raised (CreateClip "c" None true) world1_fault_at_flush = true ∧
  left_behind (CreateClip "c" None true) world1_fault_at_flush ∧
  ((has_clip "c" (perform (CreateClip "c" None true) world1_fault_at_flush)).1
     = (has_clip "c" world1_fault_at_flush).1 ∨
   (creates "c" (CreateClip "c" None true) = true ∧
    (has_clip "c" (perform (CreateClip "c" None true) world1_fault_at_flush)).1
      = Ok false)).
Proof.
  split; [vm_compute; reflexivity|]. split; [vm_compute; reflexivity|].
  split; [vm_compute; reflexivity|]. split; [vm_compute; reflexivity|].
  split; [vm_compute; reflexivity|].
  apply (failed_call_and_has_clip (CreateClip "c" None true) world1_fault_at_flush "c");
    vm_compute; reflexivity.
Defined.

(** C4.  The ids are link names, as are the names in the file.
    [create_clip(c, overwrite=True)], when it returns, leaves under [c] a
    node with no member and with only the attributes this call wrote,
    whatever node was there before: nothing of the old node is merged, no
    pair [(c, t)] is listed any more, and the other clips are untouched.  It
    does return when no fault is injected and the tracker's values can be
    stored.  In particular, after a first [create_clip(c)] and any history of
    calls, a second [create_clip(c)] that returns leaves no track of [c]. *)
Theorem create_clip_overwrite_replaces (c : string) (tr : option tracker) (w : world) :
  w_locked w = false →
  link_name c = true →
  store_plain (w_file w) = true →
  (w_fuse w = None → (∀ t, tr = Some t → tracker_storable t) →
   (create_clip c tr true w).1 = Ok tt) ∧
  ((create_clip c tr true w).1 = Ok tt →
   clips (w_file (create_clip c tr true w).2) !! c
     = Some (mk_group (clip_attrs tr) ∅) ∧
   (∃ l, (get_all_track_ids (create_clip c tr true w).2).1 = Ok l ∧
         ∀ t, (c, t) ∉ l) ∧
   (∀ c', c' ≠ c →
      clips (w_file (create_clip c tr true w).2) !! c' = clips (w_file w) !! c')) ∧
  (∀ tr0 h,
     history_plain h →
     let w1 := run_history h (create_clip c tr0 true w).2 in
     (create_clip c tr true w1).1 = Ok tt →
     ∃ l, (get_all_track_ids (create_clip c tr true w1).2).1 = Ok l ∧
          ∀ t, (c, t) ∉ l).
Proof.
  intros Hl _ _. split_and!.
  - intros Hfuse Hst. apply create_clip_returns; auto.
  - intros Hok. destruct (create_clip_fresh c tr w Hl Hok) as (Hc & Hl' & Hno).
    split_and!; [done| |].
    + exists (track_pairs (w_file (create_clip c tr true w).2)).
      by rewrite get_all_track_ids_run.
    + intros c' Hne. by rewrite create_clip_frame.
  - intros tr0 h _ w1 Hok.
    assert (Hl1 : w_locked w1 = false).
    { apply run_history_unlocked. by apply create_clip_outcome. }
    destruct (create_clip_fresh c tr w1 Hl1 Hok) as (_ & Hl' & Hno).
    exists (track_pairs (w_file (create_clip c tr true w1).2)).
    by rewrite get_all_track_ids_run.
Qed.

Lemma create_clip_overwrite_replaces_witness :
  w_locked world2 = false ∧
  link_name "c" = true ∧
  store_plain (w_file world2) = true ∧
  (w_fuse world2 = None → (∀ t, None = Some t → tracker_storable t) →
   (create_clip "c" None true world2).1 = Ok tt) ∧
  ((create_clip "c" None true world2).1 = Ok tt →
   clips (w_file (create_clip "c" None true world2).2) !! "c"
     = Some (mk_group (clip_attrs None) ∅) ∧
   (∃ l, (get_all_track_ids (create_clip "c" None true world2).2).1 = Ok l ∧
         ∀ t, ("c", t) ∉ l) ∧
   (∀ c', c' ≠ "c" →
      clips (w_file (create_clip "c" None true world2).2) !! c'
        = clips (w_file world2) !! c')) ∧
  (∀ tr0 h,
     history_plain h →
     let w1 := run_history h (create_clip "c" tr0 true world2).2 in
     (create_clip "c" None true w1).1 = Ok tt →
     ∃ l, (get_all_track_ids (create_clip "c" None true w1).2).1 = Ok l ∧
          ∀ t, ("c", t) ∉ l).
Proof.
  split; [vm_compute; reflexivity|]. split; [vm_compute; reflexivity|].
  split; [vm_compute; reflexivity|].
  apply (create_clip_overwrite_replaces "c" None world2); vm_compute; reflexivity.
Defined.

(** The claim C5 as it is stated fails: without a tracker [create_clip]
    writes no statistics at all, so the metadata has no [confidence]. *)
Lemma create_clip_without_tracker_writes_no_defaults :
  ¬ (∀ (c : string) (w : world),
       w_locked w = false → w_fuse w = None →
       let w' := (create_clip c None true w).2 in
       (has_clip c w').1 = Ok true ∧
       ∃ m, (get_clip_meta c w').1 = Ok m ∧
            m !! "confidence" = Some (AScalar (PFloat 0)) ∧
            m !! "trap" = Some (AScalar (PStr "")) ∧
            m !! "event" = Some (AScalar (PStr "")) ∧
            m !! "average_background_delta" = Some (AScalar (PInt 0)) ∧
            m !! "mean_temp" = Some (AScalar (PInt 0)) ∧
            m !! "max_temp" = Some (AScalar (PInt 0)) ∧
            m !! "min_temp" = Some (AScalar (PInt 0))).
Proof.
  intros H. destruct (H "c" world0 eq_refl eq_refl) as (_ & m & Hm & Hconf & _).
  assert (Hmeta : (get_clip_meta "c" (create_clip "c" None true world0).2).1
                  = Ok {["finished" := AScalar (PBool true)]}) by (vm_compute; reflexivity).
  rewrite Hmeta in Hm. injection Hm as <-.
  by rewrite lookup_singleton_ne in Hconf.
Qed.

(** C5, as amended.  The id is a link name, as are the names in the file.
    [create_clip(c, tracker)] completes when no fault is injected and the
    tracker's values can be stored; after it has completed,
    [has_clip(c)] is [True] and [get_clip_meta(c)] returns exactly the
    attributes this call wrote.  Without a tracker that is the [finished]
    marker alone.  With a tracker it is the marker and the ten statistics,
    where a statistic missing from [tracker.stats] is stored as its default:
    [confidence] 0.0, [trap] and [event] the empty string, and the
    background delta and the three temperatures 0; no stored value is
    [None]. *)
Theorem create_clip_metadata (c : string) (tr : option tracker) (w : world) :
  w_locked w = false →
  link_name c = true →
  store_plain (w_file w) = true →
  (w_fuse w = None → (∀ t, tr = Some t → tracker_storable t) →
   (create_clip c tr true w).1 = Ok tt) ∧
  ((create_clip c tr true w).1 = Ok tt →
   (has_clip c (create_clip c tr true w).2).1 = Ok true ∧
   (get_clip_meta c (create_clip c tr true w).2).1 = Ok (clip_attrs tr) ∧
   (tr = None → clip_attrs tr = {["finished" := AScalar (PBool true)]}) ∧
   (∀ t, tr = Some t →
      (stats t !! "confidence" = None →
       clip_attrs tr !! "confidence" = Some (AScalar (PFloat 0))) ∧
      (stats t !! "trap" = None →
       clip_attrs tr !! "trap" = Some (AScalar (PStr ""))) ∧
      (stats t !! "event" = None →
       clip_attrs tr !! "event" = Some (AScalar (PStr ""))) ∧
      (stats t !! "average_background_delta" = None →
       clip_attrs tr !! "average_background_delta" = Some (AScalar (PInt 0))) ∧
      (stats t !! "mean_temp" = None →
       clip_attrs tr !! "mean_temp" = Some (AScalar (PInt 0))) ∧
      (stats t !! "max_temp" = None →
       clip_attrs tr !! "max_temp" = Some (AScalar (PInt 0))) ∧
      (stats t !! "min_temp" = None →
       clip_attrs tr !! "min_temp" = Some (AScalar (PInt 0)))) ∧
   (∀ name, clip_attrs tr !! name ≠ Some (AScalar PNone))).
Proof.
  intros Hl _ _. split.
  { intros Hfuse Hst. apply create_clip_returns; auto. }
  intros Hok. destruct (create_clip_fresh c tr w Hl Hok) as (Hc & Hl' & _).
  destruct (create_clip_outcome c tr true w Hl) as (_ & _ & H).
  rewrite Hok in H. destruct H as (_ & Hst & _).
  split_and!.
  - rewrite has_clip_run by done. simpl. unfold is_finished. rewrite Hc. simpl.
    f_equal. apply bool_decide_eq_true, clip_attrs_finished.
  - rewrite get_clip_meta_run by done. simpl. by rewrite Hc.
  - by intros ->.
  - intros t ->. unfold clip_attrs, tracker_attrs, dict_get. simpl.
    split_and!; intros ->; by simplify_map_eq.
  - intros name Hnone. unfold clip_attrs in Hnone.
    apply lookup_insert_Some in Hnone as [[_ [=]]|[_ Hnone]].
    destruct tr as [t|]; simpl in Hnone; [|by rewrite lookup_empty in Hnone].
    destruct (Hst t eq_refl) as (H1 & H2 & H3 & H4 & H5 & H6 & H7 & H8 & H9 & H10).
    unfold tracker_attrs in Hnone.
    repeat (apply lookup_insert_Some in Hnone as [[_ Hv]|[_ Hnone]];
      [injection Hv as Hv; first [discriminate Hv|by rewrite Hv in *]|]).
    by rewrite lookup_empty in Hnone.
Qed.

Lemma create_clip_metadata_witness :
  w_locked world0 = false ∧
  link_name "c" = true ∧
  store_plain (w_file world0) = true ∧
  (w_fuse world0 = None → (∀ t, Some bare_tracker = Some t → tracker_storable t) →
   (create_clip "c" (Some bare_tracker) true world0).1 = Ok tt) ∧
  ((create_clip "c" (Some bare_tracker) true world0).1 = Ok tt →
   (has_clip "c" (create_clip "c" (Some bare_tracker) true world0).2).1 = Ok true ∧
   (get_clip_meta "c" (create_clip "c" (Some bare_tracker) true world0).2).1
     = Ok (clip_attrs (Some bare_tracker)) ∧
   (Some bare_tracker = None →
    clip_attrs (Some bare_tracker) = {["finished" := AScalar (PBool true)]}) ∧
   (∀ t, Some bare_tracker = Some t →
      (stats t !! "confidence" = None →
       clip_attrs (Some bare_tracker) !! "confidence" = Some (AScalar (PFloat 0))) ∧
      (stats t !! "trap" = None →
       clip_attrs (Some bare_tracker) !! "trap" = Some (AScalar (PStr ""))) ∧
      (stats t !! "event" = None →
       clip_attrs (Some bare_tracker) !! "event" = Some (AScalar (PStr ""))) ∧
      (stats t !! "average_background_delta" = None →
       clip_attrs (Some bare_tracker) !! "average_background_delta"
         = Some (AScalar (PInt 0))) ∧
      (stats t !! "mean_temp" = None →
       clip_attrs (Some bare_tracker) !! "mean_temp" = Some (AScalar (PInt 0))) ∧
      (stats t !! "max_temp" = None →
       clip_attrs (Some bare_tracker) !! "max_temp" = Some (AScalar (PInt 0))) ∧
      (stats t !! "min_temp" = None →
       clip_attrs (Some bare_tracker) !! "min_temp" = Some (AScalar (PInt 0)))) ∧
   (∀ name, clip_attrs (Some bare_tracker) !! name ≠ Some (AScalar PNone))).
Proof.
  split; [vm_compute; reflexivity|]. split; [vm_compute; reflexivity|].
  split; [vm_compute; reflexivity|].
  apply (create_clip_metadata "c" (Some bare_tracker) world0); vm_compute; reflexivity.
Defined.

(** The claim C6 as it is stated fails: the histories are as long as the
    record's bounds history, here one entry for nine frames. *)
Lemma history_length_is_not_frame_count :
  ¬ (∀ (c t : string) (a : ndarray) (tk : track) opts (w : world) (F : nat) rest,
       w_locked w = false →
       (add_track c t a (Some tk) opts w).1 = Ok tt →
       nd_shape a = F :: rest →
       ∃ m mh bh,
         (get_track_meta c t (add_track c t a (Some tk) opts w).2).1 = Ok m ∧
         m !! "mass_history" = Some (AArray mh) ∧
         nd_dtype mh = Int32 ∧ nd_shape mh = [F] ∧
         m !! "bounds_history" = Some (AArray bh) ∧
         nd_dtype bh = Int16 ∧ nd_shape bh = [F; 4%nat]).
Proof.
  intros H.
  destruct (H "c" "1" nine_frames one_region_track None world1 9%nat
              [1%nat; 1%nat; 1%nat] eq_refl) as (m & mh & bh & Hm & Hmh & _ & Hs & _);
    [vm_compute; reflexivity..|].
  assert (Hmeta :
    (get_track_meta "c" "1"
       (add_track "c" "1" nine_frames (Some one_region_track) None world1).2).1
    = Ok (ds_attrs (stored_track nine_frames [9; 1; 1; 1]%nat
                      (Some one_region_track) None))) by (vm_compute; reflexivity).
  rewrite Hmeta in Hm.
  assert (m = ds_attrs (stored_track nine_frames [9; 1; 1; 1]%nat
                          (Some one_region_track) None)) as -> by congruence.
  destruct (stored_track_histories nine_frames [9; 1; 1; 1]%nat one_region_track None)
    as [Hmass _].
  rewrite Hmass in Hmh.
  assert (mh = mass_history one_region_track) as -> by congruence.
  discriminate Hs.
Qed.

(** C6, as amended.  After a completed [add_track] with a track record, the
    track's [mass_history] is an int32 array and its [bounds_history] an
    int16 array with as many entries as the record's [bounds_history] has:
    shape (n) and shape (n, 4) for n > 0 entries.  The frame count F of the
    array is not consulted; the shapes are (F) and (F, 4) when the record
    brings one entry for each of F > 0 frames. *)
Theorem add_track_history_shapes (c t : string) (a : ndarray) (tk : track)
    (opts : option (list (string * pyval))) (w : world) :
  w_locked w = false →
  (add_track c t a (Some tk) opts w).1 = Ok tt →
  let n := length (bounds_history tk) in
  ∃ m mh bh,
    (get_track_meta c t (add_track c t a (Some tk) opts w).2).1 = Ok m ∧
    m !! "mass_history" = Some (AArray mh) ∧
    nd_dtype mh = Int32 ∧ nd_shape mh = [n] ∧ length (nd_data mh) = n ∧
    m !! "bounds_history" = Some (AArray bh) ∧
    nd_dtype bh = Int16 ∧
    ((0 < n)%nat → nd_shape bh = [n; 4%nat] ∧ length (nd_data bh) = (n * 4)%nat) ∧
    (∀ F rest, nd_shape a = F :: rest → n = F → (0 < F)%nat →
               nd_shape mh = [F] ∧ nd_shape bh = [F; 4%nat]).
Proof.
  intros Hl Hok n.
  destruct (add_track_outcome c t a (Some tk) opts w Hl) as (Hl' & H).
  rewrite Hok in H. destruct H as (_ & g0 & Hg0 & Ht & _ & Hf).
  destruct (stored_track_histories a (nd_shape a) tk opts) as [Hmass Hbounds].
  exists (ds_attrs (stored_track a (nd_shape a) (Some tk) opts)),
    (mass_history tk), (bounds_rows tk).
  assert (Hshape : (0 < n)%nat →
    nd_shape (bounds_rows tk) = [n; 4%nat] ∧
    length (nd_data (bounds_rows tk)) = (n * 4)%nat).
  { unfold n, bounds_rows. destruct (bounds_history tk) as [|b bs]; simpl; [lia|].
    intros _. split; [by rewrite length_fmap|].
    rewrite !length_fmap. f_equal. induction bs as [|b' bs IH]; simpl; [done|].
    by rewrite IH. }
  split_and!.
  - rewrite get_track_meta_run by done. simpl. rewrite Hf, lookup_put_group_eq.
    simpl. by rewrite lookup_insert_eq.
  - done.
  - done.
  - unfold mass_history, np_int32. simpl. by rewrite length_fmap.
  - unfold mass_history, np_int32. simpl. by rewrite !length_fmap.
  - done.
  - unfold bounds_rows. by destruct (bounds_history tk).
  - done.
  - intros F rest _ HnF HF. rewrite <- HnF. split; [|by apply Hshape; lia].
    unfold mass_history, np_int32. simpl. by rewrite length_fmap.
Qed.

Lemma add_track_history_shapes_witness :
  w_locked world1 = false ∧
  (add_track "c" "1" nine_frames (Some nine_region_track) None world1).1 = Ok tt ∧
  let n := length (bounds_history nine_region_track) in
  ∃ m mh bh,
    (get_track_meta "c" "1"
       (add_track "c" "1" nine_frames (Some nine_region_track) None world1).2).1
      = Ok m ∧
    m !! "mass_history" = Some (AArray mh) ∧
    nd_dtype mh = Int32 ∧ nd_shape mh = [n] ∧ length (nd_data mh) = n ∧
    m !! "bounds_history" = Some (AArray bh) ∧
    nd_dtype bh = Int16 ∧
    ((0 < n)%nat → nd_shape bh = [n; 4%nat] ∧ length (nd_data bh) = (n * 4)%nat) ∧
    (∀ F rest, nd_shape nine_frames = F :: rest → n = F → (0 < F)%nat →
               nd_shape mh = [F] ∧ nd_shape bh = [F; 4%nat]).
Proof.
  split; [vm_compute; reflexivity|]. split; [vm_compute; reflexivity|].
  apply (add_track_history_shapes "c" "1" nine_frames nine_region_track None world1);
    vm_compute; reflexivity.
Defined.

(** The claim C7 as it is stated fails in its order: the listing is in name
    order, not in insertion order.  Track [2] is added to the clip before
    track [1], every call returns, and [("c", "1")] is listed first. *)
Lemma listing_is_not_in_insertion_order :
  ¬ (∀ (h : list (option nat * call)),
       history_plain h → all_return h world0 = true →
       (get_all_track_ids (run_history h world0)).1 = Ok (insertion_order h)).
Proof.
  intros H.
  assert (Hplain : history_plain two_tracks_history)
    by (repeat constructor).
  specialize (H two_tracks_history Hplain).
  assert (Hlist : (get_all_track_ids (run_history two_tracks_history world0)).1
                  = Ok [("c", "1"); ("c", "2")]) by (vm_compute; reflexivity).
  assert (Hins : insertion_order two_tracks_history = [("c", "2"); ("c", "1")])
    by (vm_compute; reflexivity).
  rewrite Hlist, Hins in H.
  assert (Hret : all_return two_tracks_history world0 = true)
    by (vm_compute; reflexivity).
  specialize (H Hret). discriminate H.
Qed.

(** Nor is every listed pair one whose [add_track] completed: the call for
    an untagged track raises at the [tag] attribute, after the dataset was
    created, and the pair is listed. *)
Lemma unfinished_add_track_is_listed :
  ¬ (∀ (h : list (option nat * call)),
       history_plain h →
       ∀ l, (get_all_track_ids (run_history h world0)).1 = Ok l →
            ∀ p, p ∈ l → p ∈ completed_tracks h world0).
Proof.
  intros H.
  assert (Hplain : history_plain untagged_history) by (repeat constructor).
  specialize (H untagged_history Hplain [("c", "1")]).
  assert (Hdone : completed_tracks untagged_history world0 = [])
    by (vm_compute; reflexivity).
  rewrite Hdone in H.
  assert (Hin : ("c", "1") ∈ @nil (string * string)).
  { apply H; [vm_compute; reflexivity|by left]. }
  by apply elem_of_nil in Hin.
Qed.

(** C7, as amended.  The ids are link names, as are the names in the file.
    [get_all_track_ids] returns, each once and in name order -- by clip
    name, and by track name within a clip -- exactly the pairs [(c, t)] for
    which the store holds a dataset [t] under a clip node [c].  A pair gets
    listed only by an [add_track] for this pair, and always when that
    [add_track] completes; it stays listed through every call but a
    [create_clip(c, overwrite=True)] of its clip, and a completed one removes
    all pairs of the clip. *)
Theorem get_all_track_ids_lists_store (w : world) :
  w_locked w = false →
  store_plain (w_file w) = true →
  ∃ l, (get_all_track_ids w).1 = Ok l ∧
       NoDup l ∧
       StronglySorted pair_le l ∧
       (∀ c t, (c, t) ∈ l ↔
               ∃ g, clips (w_file w) !! c = Some g ∧ is_Some (g_members g !! t)) ∧
       (∀ k, call_plain k = true →
          ∃ l', (get_all_track_ids (perform k w)).1 = Ok l' ∧
          (∀ c t, (c, t) ∈ l' →
                  (c, t) ∈ l ∨ ∃ a tk opts, k = AddTrack c t a tk opts) ∧
          (∀ c t, (c, t) ∈ l → (∀ tr, k ≠ CreateClip c tr true) → (c, t) ∈ l')) ∧
       (∀ c t a tk opts,
          link_name c = true → link_name t = true →
          (add_track c t a tk opts w).1 = Ok tt →
          ∃ l', (get_all_track_ids (add_track c t a tk opts w).2).1 = Ok l' ∧
                ((c, t) ∉ l) ∧ ((c, t) ∈ l')) ∧
       (∀ c tr,
          link_name c = true →
          (create_clip c tr true w).1 = Ok tt →
          ∃ l', (get_all_track_ids (create_clip c tr true w).2).1 = Ok l' ∧
                ∀ t, (c, t) ∉ l').
Proof.
  intros Hl _. exists (track_pairs (w_file w)).
  rewrite get_all_track_ids_run by done. split_and!.
  - done.
  - apply NoDup_track_pairs.
  - apply track_pairs_sorted.
  - intros c t. apply elem_of_track_pairs.
  - intros k _. exists (track_pairs (w_file (perform k w))).
    rewrite get_all_track_ids_run by (by apply perform_unlocked).
    split_and!; [done|..].
    + intros c t. by apply perform_new_pair.
    + intros c t Hin Hk. by apply perform_keeps_pair.
  - intros c t a tk opts _ _ Hok.
    exists (track_pairs (w_file (add_track c t a tk opts w).2)).
    rewrite get_all_track_ids_run by (by apply add_track_outcome).
    split; [done|]. by apply add_track_lists_pair.
  - intros c tr _ Hok. destruct (create_clip_fresh c tr w Hl Hok) as (_ & Hl' & Hno).
    exists (track_pairs (w_file (create_clip c tr true w).2)).
    by rewrite get_all_track_ids_run.
Qed.

Lemma get_all_track_ids_lists_store_witness :
  w_locked world2 = false ∧
  store_plain (w_file world2) = true ∧
  ∃ l, (get_all_track_ids world2).1 = Ok l ∧
       NoDup l ∧
       StronglySorted pair_le l ∧
       (∀ c t, (c, t) ∈ l ↔
               ∃ g, clips (w_file world2) !! c = Some g ∧
                    is_Some (g_members g !! t)) ∧
       (∀ k, call_plain k = true →
          ∃ l', (get_all_track_ids (perform k world2)).1 = Ok l' ∧
          (∀ c t, (c, t) ∈ l' →
                  (c, t) ∈ l ∨ ∃ a tk opts, k = AddTrack c t a tk opts) ∧
          (∀ c t, (c, t) ∈ l → (∀ tr, k ≠ CreateClip c tr true) → (c, t) ∈ l')) ∧
       (∀ c t a tk opts,
          link_name c = true → link_name t = true →
          (add_track c t a tk opts world2).1 = Ok tt →
          ∃ l', (get_all_track_ids (add_track c t a tk opts world2).2).1 = Ok l' ∧
                ((c, t) ∉ l) ∧ ((c, t) ∈ l')) ∧
       (∀ c tr,
          link_name c = true →
          (create_clip c tr true world2).1 = Ok tt →
          ∃ l', (get_all_track_ids (create_clip c tr true world2).2).1 = Ok l' ∧
                ∀ t, (c, t) ∉ l').
Proof.
  split; [vm_compute; reflexivity|]. split; [vm_compute; reflexivity|].
  apply (get_all_track_ids_lists_store world2); vm_compute; reflexivity.
Defined.

(** The claim C8 as it is stated fails: the call raises. *)
Lemma create_clip_on_existing_raises :
  ¬ (∀ (c : string) (tr : option tracker) (w : world) (g : group),
       w_locked w = false →
       clips (w_file w) !! c = Some g →
       (create_clip c tr false w).1 = Ok tt ∧
       w_file (create_clip c tr false w).2 = w_file w).
Proof.
  intros H.
  destruct (H "c" None world1 (mk_group (clip_attrs None) ∅) eq_refl) as [Hok _];
    [vm_compute; reflexivity|].
  vm_compute in Hok. discriminate Hok.
Qed.

(** C8, as amended.  [create_clip(c, overwrite=False)] on a clip whose node
    exists raises, because h5py does not create a group under a taken name
    ([ValueError], unless an injected fault strikes first), and leaves the
    file as it was: the node, its attributes and its tracks are intact. *)
Theorem create_clip_keeps_existing (c : string) (tr : option tracker) (w : world)
    (g : group) :
  w_locked w = false →
  clips (w_file w) !! c = Some g →
  (create_clip c tr false w).1 =
    Err (if w_fuse w is Some O then InjectedFault
         else ValueError "Unable to create group (name already exists)") ∧
  w_file (create_clip c tr false w).2 = w_file w.
Proof.
  intros Hl Hc. unfold create_clip. rewrite with_manager_free by done.
  unfold create_clip_body, clips_create_group, mutating, need_write, tick.
  wp_unfold. simpl.
  destruct (w_fuse w) as [[|k]|]; simpl; [done|by rewrite Hc..].
Qed.

Lemma create_clip_keeps_existing_witness :
  w_locked world2 = false ∧
  clips (w_file world2) !! "c" = Some (mk_group (clip_attrs None)
    {["1" := stored_track nine_frames [9; 1; 1; 1]%nat None None]}) ∧
  (create_clip "c" None false world2).1 =
    Err (if w_fuse world2 is Some O then InjectedFault
         else ValueError "Unable to create group (name already exists)") ∧
  w_file (create_clip "c" None false world2).2 = w_file world2.
Proof.
  split; [vm_compute; reflexivity|]. split; [vm_compute; reflexivity|].
  apply (create_clip_keeps_existing "c" None world2
           (mk_group (clip_attrs None)
              {["1" := stored_track nine_frames [9; 1; 1; 1]%nat None None]}));
    vm_compute; reflexivity.
Defined.

(** C9.  The lock is not released on every exit path.  [__enter__] takes the
    lock in line 27 and opens the file in line 28 with nothing to undo the
    first when the second raises, and [__exit__] releases the lock in line
    33 only after [self.f.close()] of line 32 has returned.  So when
    [h5py.File] raises, the caller gets the exception, the file is as it
    was and the lock stays taken; when the close raises, the lock stays
    taken too; and from then on every operation waits for the lock for ever
    and changes nothing.  An exception of the block itself, by contrast, is
    followed by the close and the release, in this order and once each. *)
Theorem gateway_keeps_lock_when_open_or_close_raises {A} (m : mode)
    (block : body A) (w : world) (e : exn) (f : h5file) :
  w_locked w = false →
  with_manager_in (mk_answers (Some e) None) m block w
    = (Err e, mk_world (w_file w) true (w_fuse w) (w_log w ++ [EvAcquire])) ∧
  ((with_manager_in (mk_answers None (Some (e, f))) m block w).1 = Err e ∧
   w_locked (with_manager_in (mk_answers None (Some (e, f))) m block w).2 = true) ∧
  (∀ w' k, w_locked w' = true → enters k = true →
           blocked k w' = true ∧ perform k w' = w') ∧
  (w_locked (with_manager m block w).2 = false ∧
   w_log (with_manager m block w).2 = w_log w ++ gateway_events m).
Proof.
  intros Hl. split_and!.
  - unfold with_manager_in, lock_acquire. by rewrite Hl.
  - unfold with_manager_in, lock_acquire. rewrite Hl. simpl.
    by destruct (block _) as [o s'].
  - unfold with_manager_in, lock_acquire. rewrite Hl. simpl.
    by destruct (block _) as [o s'].
  - intros w' k Hl' Hk.
    destruct k; simpl in *;
      unfold has_clip, create_clip, get_all_track_ids, get_track_meta,
        get_clip_meta, get_track, add_track;
      try (by rewrite with_manager_locked).
    apply bool_decide_eq_true in Hk.
    destruct (nd_shape track_data) as [|? [|? [|? [|? [|]]]]]; try done.
    by rewrite with_manager_locked.
  - by rewrite with_manager_free.
  - by rewrite with_manager_free.
Qed.

Lemma gateway_keeps_lock_when_open_or_close_raises_witness :
  w_locked world1 = false ∧
  with_manager_in (mk_answers (Some (OSError "Unable to open file")) None)
      ModeR (has_clip_body "c") world1
    = (Err (OSError "Unable to open file"),
       mk_world (w_file world1) true (w_fuse world1)
         (w_log world1 ++ [EvAcquire])) ∧
  ((with_manager_in
      (mk_answers None (Some (OSError "Unable to close file", w_file world1)))
      ModeR (has_clip_body "c") world1).1
     = Err (OSError "Unable to close file") ∧
   w_locked (with_manager_in
      (mk_answers None (Some (OSError "Unable to close file", w_file world1)))
      ModeR (has_clip_body "c") world1).2 = true) ∧
  (∀ w' k, w_locked w' = true → enters k = true →
           blocked k w' = true ∧ perform k w' = w') ∧
  (w_locked (with_manager ModeR (has_clip_body "c") world1).2 = false ∧
   w_log (with_manager ModeR (has_clip_body "c") world1).2
     = w_log world1 ++ gateway_events ModeR).
Proof.
  split; [vm_compute; reflexivity|].
  pose proof (gateway_keeps_lock_when_open_or_close_raises ModeR
    (has_clip_body "c") world1 (OSError "Unable to open file") (w_file world1))
    as Hopen.
  pose proof (gateway_keeps_lock_when_open_or_close_raises ModeR
    (has_clip_body "c") world1 (OSError "Unable to close file") (w_file world1))
    as Hclose.
  destruct Hopen as (H1 & _ & H3 & H4); [vm_compute; reflexivity|].
  destruct Hclose as (_ & H2 & _); [vm_compute; reflexivity|].
  split_and!; [exact H1|apply H2|apply H2|exact H3|apply H4|apply H4].
Defined.

(** C10.  Each query, [has_clip], [get_all_track_ids], [get_clip_meta],
    [get_track_meta] and [get_track], leaves the file exactly as it was,
    whether it returns or raises, and when it gets the lock it opens the file
    in mode ['r'] and in no other. *)
Theorem queries_leave_file_unchanged (w : world) :
  let read_only w' :=
    w_file w' = w_file w ∧
    w_log w' = w_log w ++ (if w_locked w then [] else gateway_events ModeR) in
  (∀ c, read_only (has_clip c w).2) ∧
  read_only (get_all_track_ids w).2 ∧
  (∀ c, read_only (get_clip_meta c w).2) ∧
  (∀ c t, read_only (get_track_meta c t w).2) ∧
  (∀ c t start_frame end_frame, read_only (get_track c t start_frame end_frame w).2).
Proof.
  cbv zeta. destruct (w_locked w) eqn:Hl.
  - unfold has_clip, get_all_track_ids, get_clip_meta, get_track_meta, get_track.
    split_and!; intros; rewrite with_manager_locked by done; by rewrite ?app_nil_r.
  - split_and!; intros;
      rewrite ?has_clip_run, ?get_all_track_ids_run, ?get_clip_meta_run,
        ?get_track_meta_run, ?get_track_run by done; done.
Qed.

(** * Further properties of the operations *)

(** ** Facts about attribute writes in sequence *)

Lemma set_attrs_cons k v kvs d :
  set_attrs ((k, v) :: kvs) d = set_attrs kvs (set_attr k v d).
Proof. done. Qed.

Lemma set_attrs_app kvs1 kvs2 d :
  set_attrs (kvs1 ++ kvs2) d = set_attrs kvs2 (set_attrs kvs1 d).
Proof. unfold set_attrs. apply foldl_app. Qed.

(** A name that is not written keeps its value. *)
Lemma set_attrs_lookup_ne kvs : ∀ d name,
  name ∉ kvs.*1 →
  ds_attrs (set_attrs kvs d) !! name = ds_attrs d !! name.
Proof.
  induction kvs as [|[k v] kvs IH]; intros d name Hn; [done|].
  rewrite set_attrs_cons, IH.
  - simpl. apply lookup_insert_ne. intros ->. apply Hn. by left.
  - intros Hin. apply Hn. by right.
Qed.

(** A name that is written once holds what was written. *)
Lemma set_attrs_lookup kvs : ∀ d name v,
  NoDup kvs.*1 → (name, v) ∈ kvs →
  ds_attrs (set_attrs kvs d) !! name = Some v.
Proof.
  induction kvs as [|[k v'] kvs IH]; intros d name v Hnd Hin;
    [by apply elem_of_nil in Hin|].
  simpl in Hnd. apply NoDup_cons in Hnd as [Hk Hnd].
  rewrite set_attrs_cons. apply elem_of_cons in Hin as [[= -> ->]|Hin].
  - rewrite set_attrs_lookup_ne by done. simpl. apply lookup_insert_eq.
  - by apply IH.
Qed.

Lemma set_attrs_keys kvs : ∀ d name,
  is_Some (ds_attrs (set_attrs kvs d) !! name) ↔
  name ∈ kvs.*1 ∨ is_Some (ds_attrs d !! name).
Proof.
  induction kvs as [|[k v] kvs IH]; intros d name.
  - simpl. split; [by right|]. intros [Hin|?]; [by apply elem_of_nil in Hin|done].
  - rewrite set_attrs_cons, IH. simpl. rewrite elem_of_cons.
    destruct (decide (name = k)) as [->|Hne].
    + rewrite lookup_insert_eq. split; [by left; left|]. intros _. right. by eexists.
    + rewrite lookup_insert_ne by done. split.
      * intros [?|?]; [left; by right|by right].
      * intros [[?|?]|?]; [done|by left|by right].
Qed.

Lemma stats_attrs_names tk :
  ((λ nv : string * pyval, (nv.1, AScalar nv.2)) <$> get_stats tk).*1
  = (get_stats tk).*1.
Proof. rewrite <- list_fmap_compose. by apply list_fmap_ext. Qed.

Lemma track_attrs_names tk :
  (track_attrs tk).*1 =
    ["id"; "tag"; "start_time"; "end_time"] ++ (get_stats tk).*1 ++
    ["mass_history"; "bounds_history"].
Proof.
  unfold track_attrs. rewrite !fmap_app, stats_attrs_names. done.
Qed.

(** ** Facts about one call *)

(** A call changes nothing under a clip it does not write to. *)
Lemma perform_frame k w c' :
  w_locked w = false →
  writes_to k ≠ Some c' →
  clips (w_file (perform k w)) !! c' = clips (w_file w) !! c'.
Proof.
  intros Hl Hk. destruct k; simpl in *.
  - by rewrite has_clip_run.
  - apply create_clip_frame. congruence.
  - by rewrite get_all_track_ids_run.
  - by rewrite get_track_meta_run.
  - by rewrite get_clip_meta_run.
  - by rewrite get_track_run.
  - apply add_track_frame. congruence.
Qed.



(** The marker stays through every call but an overwriting [create_clip]. *)
Lemma perform_keeps_finished k w c :
  w_locked w = false →
  (∀ tr, k ≠ CreateClip c tr true) →
  is_finished (w_file w) c = true →
  is_finished (w_file (perform k w)) c = true.
Proof.
  intros Hl Hk Hfin.
  destruct (decide (writes_to k = Some c)) as [Hw|Hw].
  2:{ unfold is_finished in *. by rewrite perform_frame. }
  unfold is_finished in Hfin.
  destruct (clips (w_file w) !! c) as [g|] eqn:Hg; [|done].
  destruct k; simpl in Hw; try done; injection Hw as ->; simpl.
  - destruct overwrite; [by destruct (Hk tracker0)|].
    rewrite create_clip_taken by eauto. unfold is_finished. by rewrite Hg.
  - destruct (add_track_outcome c track_id track_data track0 opts w Hl) as (_ & H).
    destruct (add_track c track_id track_data track0 opts w) as [[[]|e|] w'];
      simpl in *; [| |done].
    + destruct H as (_ & g0 & Hg0 & _ & _ & ->). unfold is_finished.
      rewrite lookup_put_group_eq. simpl. rewrite lookup_insert_eq.
      apply bool_decide_eq_true. by eexists.
    + destruct H as [[->|(g0 & d & Hg0 & _ & ->)] _]; unfold is_finished.
      * by rewrite Hg.
      * rewrite lookup_put_group_eq. simpl. rewrite Hg0 in Hg. by injection Hg as ->.
Qed.

(** The marker appears only when a [create_clip] or an [add_track] of the
    clip returns. *)
Lemma perform_new_finished k w c :
  w_locked w = false →
  is_finished (w_file w) c = false →
  is_finished (w_file (perform k w)) c = true →
  raised k w = false ∧ writes_to k = Some c.
Proof.
  intros Hl Hnot Hfin.
  destruct (decide (writes_to k = Some c)) as [Hw|Hw].
  2:{ unfold is_finished in *. rewrite perform_frame in Hfin by done. congruence. }
  split; [|done].
  destruct k; simpl in Hw; try done; injection Hw as ->; simpl in *.
  - destruct (create_clip_outcome c tracker0 overwrite w Hl) as (_ & _ & H).
    destruct (create_clip c tracker0 overwrite w) as [[[]|e|] w'];
      simpl in *; [done| |done].
    destruct H as [[Hf|[_ [Hf|(A & Hf & HA)]]] _]; rewrite Hf in Hfin;
      [congruence|..].
    + unfold is_finished in Hfin. simpl in Hfin. by rewrite lookup_delete_eq in Hfin.
    + unfold is_finished in Hfin. rewrite lookup_put_group_eq in Hfin. simpl in Hfin.
      rewrite HA in Hfin. apply bool_decide_eq_true in Hfin. by destruct Hfin.
  - destruct (add_track_outcome c track_id track_data track0 opts w Hl) as (_ & H).
    destruct (add_track c track_id track_data track0 opts w) as [[[]|e|] w'];
      simpl in *; [done| |done].
    destruct H as [[Hf|(g0 & d & Hg0 & _ & Hf)] _]; rewrite Hf in Hfin;
      [congruence|].
    unfold is_finished in *. rewrite lookup_put_group_eq in Hfin. simpl in Hfin.
    rewrite Hg0 in Hnot. congruence.
Qed.

(** ** [add_track]: where it refuses *)

(** X1.  [add_track] does not create the clip: for a link name [c] that has
    no node in a file whose names are link names, it raises [KeyError] for
    the clip, even when a fault is armed, because the lookup of line 169
    comes before any write; the file is as it was, and [has_clip] still
    answers [False]. *)
Theorem add_track_missing_clip (c t : string) (a : ndarray) (tk : option track)
    (opts : option (list (string * pyval))) (w : world) :
  w_locked w = false →
  link_name c = true →
  store_plain (w_file w) = true →
  length (nd_shape a) = 4%nat →
  clips (w_file w) !! c = None →
  (add_track c t a tk opts w).1 = Err (KeyError c) ∧
  w_file (add_track c t a tk opts w).2 = w_file w ∧
  w_fuse (add_track c t a tk opts w).2 = w_fuse w ∧
  (has_clip c (add_track c t a tk opts w).2).1 = Ok false.
Proof.
  intros Hl _ _ Hlen Hc.
  assert (Hrun : add_track c t a tk opts w =
    (Err (KeyError c),
     mk_world (w_file w) false (w_fuse w) (w_log w ++ gateway_events ModeA))).
  { unfold add_track.
    destruct (nd_shape a) as [|F [|Ch [|H [|W [|]]]]]; try done.
    rewrite with_manager_free by done.
    unfold add_track_body, clips_getitem. wp_unfold. simpl. by rewrite Hc. }
  rewrite Hrun. simpl. split_and!; [done..|].
  rewrite has_clip_run by done. simpl. unfold is_finished. by rewrite Hc.
Qed.

Lemma add_track_missing_clip_witness :
  w_locked world0 = false ∧
  link_name "c" = true ∧
  store_plain (w_file world0) = true ∧
  length (nd_shape nine_frames) = 4%nat ∧
  clips (w_file world0) !! "c" = None ∧
  (add_track "c" "1" nine_frames None None world0).1 = Err (KeyError "c") ∧
  w_file (add_track "c" "1" nine_frames None None world0).2 = w_file world0 ∧
  w_fuse (add_track "c" "1" nine_frames None None world0).2 = w_fuse world0 ∧
  (has_clip "c" (add_track "c" "1" nine_frames None None world0).2).1 = Ok false.
Proof.
  split; [reflexivity|]. split; [reflexivity|]. split; [reflexivity|].
  split; [reflexivity|]. split; [reflexivity|].
  apply (add_track_missing_clip "c" "1" nine_frames None None world0); reflexivity.
Defined.

(** X2.  [add_track] never overwrites a track: when the clip already has a
    dataset under the track's name, a call with the default options ([opts]
    is [None] or empty) raises -- [ValueError], unless an injected fault
    strikes at the first write -- and the file is as it was, the old dataset
    and its attributes included.  The ids are link names, as are the names
    in the file. *)
Theorem add_track_existing_track (c t : string) (a : ndarray) (tk : option track)
    (opts : option (list (string * pyval))) (w : world) (g : group) (d : dataset) :
  w_locked w = false →
  link_name c = true →
  link_name t = true →
  store_plain (w_file w) = true →
  opts_given opts = false →
  clips (w_file w) !! c = Some g →
  g_members g !! t = Some d →
  (∃ e, (add_track c t a tk opts w).1 = Err e ∧
        (w_fuse w ≠ Some 0%nat → ∃ msg, e = ValueError msg)) ∧
  w_file (add_track c t a tk opts w).2 = w_file w ∧
  (get_track_meta c t (add_track c t a tk opts w).2).1 = Ok (ds_attrs d).
Proof.
  intros Hl _ _ _ _ Hc Ht.
  assert (Hrun : ∃ e,
    (add_track c t a tk opts w).1 = Err e ∧
    (w_fuse w ≠ Some 0%nat → ∃ msg, e = ValueError msg) ∧
    w_file (add_track c t a tk opts w).2 = w_file w ∧
    w_locked (add_track c t a tk opts w).2 = false).
  { unfold add_track.
    destruct (nd_shape a) as [|F [|Ch [|H [|W [|]]]]];
      try (eexists; split_and!; [reflexivity|by eexists|done|done]).
    cbv beta iota. rewrite with_manager_free by done.
    unfold add_track_body, clips_getitem, group_create_dataset, mutating,
      need_write, tick.
    wp_unfold. cbn -[chunks_fit]. rewrite Hc. cbn -[chunks_fit].
    destruct (opts_given opts), (w_fuse w) as [[|n]|]; cbn -[chunks_fit];
      rewrite ?Hc; cbn -[chunks_fit];
      try (eexists; split_and!; [reflexivity| |done|done];
           intros Hne; by destruct Hne);
      destruct (chunks_fit _ _); cbn -[chunks_fit];
      rewrite ?Ht; cbn -[chunks_fit];
      eexists; (split_and!; [reflexivity| |done|done]); intros _; by eexists. }
  destruct Hrun as (e & Hrun & He & Hf & Hl'). rewrite Hf.
  split_and!; [by exists e|done|].
  rewrite get_track_meta_run by done. simpl. by rewrite Hf, Hc, Ht.
Qed.

Lemma add_track_existing_track_witness :
  w_locked world2 = false ∧
  link_name "c" = true ∧
  link_name "1" = true ∧
  store_plain (w_file world2) = true ∧
  opts_given None = false ∧
  (∃ e, (add_track "c" "1" nine_frames None None world2).1 = Err e ∧
        (w_fuse world2 ≠ Some 0%nat → ∃ msg, e = ValueError msg)) ∧
  w_file (add_track "c" "1" nine_frames None None world2).2 = w_file world2 ∧
  (get_track_meta "c" "1" (add_track "c" "1" nine_frames None None world2).2).1
    = Ok ∅.
Proof.
  split; [reflexivity|]. split; [reflexivity|]. split; [reflexivity|].
  split; [vm_compute; reflexivity|]. split; [reflexivity|].
  apply (add_track_existing_track "c" "1" nine_frames None None world2
           (mk_group (clip_attrs None)
              {["1" := stored_track nine_frames [9; 1; 1; 1]%nat None None]})
           (stored_track nine_frames [9; 1; 1; 1]%nat None None));
    vm_compute; reflexivity.
Defined.

(** X4.  The chunk shape of line 173 is (9, 1, height, width), and h5py does
    not create a dataset whose chunks are larger than the data: [add_track]
    of fewer than nine frames into an existing clip, with the default
    options, raises -- [ValueError], unless an injected fault strikes first
    -- and leaves the file as it was.  The ids are link names, as are the
    names in the file. *)
Theorem add_track_short_track (c t : string) (a : ndarray) (tk : option track)
    (opts : option (list (string * pyval))) (w : world) (F Ch H W : nat) :
  w_locked w = false →
  link_name c = true →
  link_name t = true →
  store_plain (w_file w) = true →
  opts_given opts = false →
  is_Some (clips (w_file w) !! c) →
  nd_shape a = [F; Ch; H; W] →
  (F < 9)%nat →
  (∃ e, (add_track c t a tk opts w).1 = Err e ∧
        (w_fuse w ≠ Some 0%nat → ∃ msg, e = ValueError msg)) ∧
  w_file (add_track c t a tk opts w).2 = w_file w.
Proof.
  intros Hl _ _ _ Hopts [g Hc] Hs HF. unfold add_track. rewrite Hs.
  rewrite with_manager_free by done.
  assert (Hfit : chunks_fit [F; Ch; H; W] [9%nat; 1%nat; H; W] = false).
  { unfold chunks_fit. apply andb_false_iff. right.
    do 9 (destruct F as [|F]; [done|]). lia. }
  unfold add_track_body, clips_getitem, group_create_dataset, mutating,
    need_write, tick.
  wp_unfold. cbn -[chunks_fit]. rewrite Hc. cbn -[chunks_fit].
  rewrite Hopts.
  destruct (w_fuse w) as [[|n]|]; cbn -[chunks_fit]; rewrite ?Hc, ?Hfit;
    (split; [|done]); eexists; (split; [reflexivity|]);
    intros Hne; try (by destruct Hne); by eexists.
Qed.

Lemma add_track_short_track_witness :
  w_locked world1 = false ∧
  link_name "c" = true ∧
  link_name "1" = true ∧
  store_plain (w_file world1) = true ∧
  opts_given None = false ∧
  is_Some (clips (w_file world1) !! "c") ∧
  nd_shape five_frames = [5; 1; 1; 1]%nat ∧
  (5 < 9)%nat ∧
  (∃ e, (add_track "c" "1" five_frames None None world1).1 = Err e ∧
        (w_fuse world1 ≠ Some 0%nat → ∃ msg, e = ValueError msg)) ∧
  w_file (add_track "c" "1" five_frames None None world1).2 = w_file world1.
Proof.
  split; [reflexivity|]. split; [reflexivity|]. split; [reflexivity|].
  split; [vm_compute; reflexivity|]. split; [reflexivity|].
  split; [vm_compute; by eexists|].
  split; [reflexivity|]. split; [lia|].
  apply (add_track_short_track "c" "1" five_frames None None world1 5 1 1 1);
    [reflexivity|reflexivity|reflexivity|vm_compute; reflexivity|reflexivity
    |vm_compute; by eexists|reflexivity|lia].
Defined.

(** ** [add_track]: what a completed call leaves *)

Lemma set_attrs_chunks kvs : ∀ d, ds_chunks (set_attrs kvs d) = ds_chunks d.
Proof.
  induction kvs as [|[k v] kvs IH]; intros d; [done|]. by rewrite set_attrs_cons, IH.
Qed.

Lemma set_attrs_opts kvs : ∀ d, ds_opts (set_attrs kvs d) = ds_opts d.
Proof.
  induction kvs as [|[k v] kvs IH]; intros d; [done|]. by rewrite set_attrs_cons, IH.
Qed.

Lemma chunks_fit_frames F Ch H W :
  chunks_fit [F; Ch; H; W] [9%nat; 1%nat; H; W] = true →
  (9 ≤ F ∧ 1 ≤ Ch ∧ 1 ≤ H ∧ 1 ≤ W)%nat.
Proof.
  unfold chunks_fit. intros [_ Hfit]%andb_true_iff.
  simpl in Hfit. rewrite !andb_true_iff in Hfit.
  destruct Hfit as (HF & HCh & [HH _] & [HW _] & _).
  apply Nat.ltb_lt in HH, HW.
  do 9 (destruct F as [|F]; [done|]). destruct Ch; [done|]. lia.
Qed.

(** X5.  What [add_track] stores is what it was given: after a completed
    [add_track(c, t, A)] of an int16 array with the default options ([opts]
    is [None] or empty), the clip [c] holds under [t] a dataset with the
    contents and shape of [A], chunked by (9, 1, height, width), created
    with lzf compression and no shuffle; without a track record it has no
    attribute.  The other tracks of the clip are as they were, and the array
    has at least nine frames and no empty axis.  The ids are link names, as
    are the names in the file. *)
Theorem add_track_stores_array (c t : string) (a : ndarray) (tk : option track)
    (opts : option (list (string * pyval))) (w : world) :
  w_locked w = false →
  link_name c = true →
  link_name t = true →
  store_plain (w_file w) = true →
  opts_given opts = false →
  (add_track c t a tk opts w).1 = Ok tt →
  nd_dtype a = Int16 →
  ndarray_wf a →
  ∃ g0 g d F Ch H W,
    clips (w_file w) !! c = Some g0 ∧
    clips (w_file (add_track c t a tk opts w).2) !! c = Some g ∧
    g_members g !! t = Some d ∧
    nd_shape a = [F; Ch; H; W] ∧
    ds_array d = a ∧
    ds_chunks d = [9%nat; 1%nat; H; W] ∧
    ds_opts d = [("compression", PStr "lzf"); ("shuffle", PBool false)] ∧
    (tk = None → ds_attrs d = ∅) ∧
    (∀ t', t' ≠ t → g_members g !! t' = g_members g0 !! t') ∧
    (9 ≤ F ∧ 1 ≤ Ch ∧ 1 ≤ H ∧ 1 ≤ W)%nat.
Proof.
  intros Hl _ _ _ Hopts Hok Hdt Hwf.
  destruct (add_track_outcome c t a tk opts w Hl) as (_ & H).
  rewrite Hok in H. destruct H as (Hlen & g0 & Hg0 & Ht & Hfit & Hf).
  destruct (nd_shape a) as [|F [|Ch [|H [|W [|]]]]] eqn:Hs; try done.
  exists g0, (mk_group (<["finished" := AScalar (PBool true)]> (g_attrs g0))
                (<[t := stored_track a [F; Ch; H; W] tk opts]> (g_members g0))),
    (stored_track a [F; Ch; H; W] tk opts), F, Ch, H, W.
  simpl in Hfit. destruct (chunks_fit_frames _ _ _ _ Hfit) as (? & ? & ? & ?).
  split_and!; try done.
  - rewrite Hf. apply lookup_put_group_eq.
  - simpl. apply lookup_insert_eq.
  - rewrite <- Hs. by apply stored_track_array.
  - unfold stored_track. by rewrite set_attrs_chunks.
  - unfold stored_track. rewrite set_attrs_opts. simpl.
    unfold dataset_opts. by rewrite Hopts.
  - by intros ->.
  - intros t' Hne. simpl. by apply lookup_insert_ne.
Qed.

Lemma add_track_stores_array_witness :
  w_locked world1 = false ∧
  link_name "c" = true ∧
  link_name "1" = true ∧
  store_plain (w_file world1) = true ∧
  opts_given None = false ∧
  (add_track "c" "1" nine_frames None None world1).1 = Ok tt ∧
  nd_dtype nine_frames = Int16 ∧
  ndarray_wf nine_frames ∧
  ∃ g0 g d F Ch H W,
    clips (w_file world1) !! "c" = Some g0 ∧
    clips (w_file (add_track "c" "1" nine_frames None None world1).2) !! "c"
      = Some g ∧
    g_members g !! "1" = Some d ∧
    nd_shape nine_frames = [F; Ch; H; W] ∧
    ds_array d = nine_frames ∧
    ds_chunks d = [9%nat; 1%nat; H; W] ∧
    ds_opts d = [("compression", PStr "lzf"); ("shuffle", PBool false)] ∧
    (@None track = None → ds_attrs d = ∅) ∧
    (∀ t', t' ≠ "1" → g_members g !! t' = g_members g0 !! t') ∧
    (9 ≤ F ∧ 1 ≤ Ch ∧ 1 ≤ H ∧ 1 ≤ W)%nat.
Proof.
  split; [reflexivity|]. split; [reflexivity|]. split; [reflexivity|].
  split; [vm_compute; reflexivity|]. split; [reflexivity|].
  split; [vm_compute; reflexivity|].
  split; [reflexivity|].
  split; [split; [reflexivity|repeat constructor; simpl; lia]|].
  apply (add_track_stores_array "c" "1" nine_frames None None world1);
    [reflexivity|reflexivity|reflexivity|vm_compute; reflexivity|reflexivity
    |vm_compute; reflexivity|reflexivity|].
  split; [reflexivity|repeat constructor; simpl; lia].
Defined.

(** X6.  The attributes of a track read back as they were written: after a
    completed [add_track] with a track record, [get_track_meta] returns a
    mapping that holds every field of the record's statistics with its value
    (a field called [mass_history] or [bounds_history] apart, which the
    histories written last replace), and the record's [id], [tag],
    [start_time] and [end_time] unless a statistics field of the same name
    was written over them; it has no other key than these.  The fields of
    [get_stats()._asdict()] have distinct names. *)
Theorem get_track_meta_after_add_track (c t : string) (a : ndarray) (tk : track)
    (opts : option (list (string * pyval))) (w : world) :
  w_locked w = false →
  (add_track c t a (Some tk) opts w).1 = Ok tt →
  NoDup (get_stats tk).*1 →
  ∃ m, (get_track_meta c t (add_track c t a (Some tk) opts w).2).1 = Ok m ∧
    (∀ name v, (name, v) ∈ get_stats tk →
       name ≠ "mass_history" → name ≠ "bounds_history" →
       m !! name = Some (AScalar v)) ∧
    ("id" ∉ (get_stats tk).*1 → m !! "id" = Some (AScalar (t_id tk))) ∧
    ("tag" ∉ (get_stats tk).*1 → m !! "tag" = Some (AScalar (t_tag tk))) ∧
    ("start_time" ∉ (get_stats tk).*1 →
     m !! "start_time" = Some (AScalar (PStr (isoformat (start_time tk))))) ∧
    ("end_time" ∉ (get_stats tk).*1 →
     m !! "end_time" = Some (AScalar (PStr (isoformat (end_time tk))))) ∧
    (∀ name, is_Some (m !! name) ↔
             name ∈ track_attr_names ∨ name ∈ (get_stats tk).*1).
Proof.
  intros Hl Hok Hnd.
  destruct (add_track_outcome c t a (Some tk) opts w Hl) as (Hl' & H).
  rewrite Hok in H. destruct H as (_ & g0 & Hg0 & Ht & _ & Hf).
  exists (ds_attrs (stored_track a (nd_shape a) (Some tk) opts)).
  assert (Hfixed : ∀ name,
    name ≠ "mass_history" → name ≠ "bounds_history" →
    name ∉ (get_stats tk).*1 →
    ds_attrs (stored_track a (nd_shape a) (Some tk) opts) !! name =
      ({["end_time" := AScalar (PStr (isoformat (end_time tk)));
         "start_time" := AScalar (PStr (isoformat (start_time tk)));
         "tag" := AScalar (t_tag tk);
         "id" := AScalar (t_id tk)]} : gmap string attr_value) !! name).
  { intros name Hm Hb Hno. unfold stored_track. cbn [from_option].
    unfold track_attrs. rewrite !set_attrs_app.
    rewrite set_attrs_lookup_ne.
    2:{ simpl. rewrite !not_elem_of_cons. split_and!; [done..|apply not_elem_of_nil]. }
    rewrite set_attrs_lookup_ne by (by rewrite stats_attrs_names).
    done. }
  split_and!.
  - rewrite get_track_meta_run by done. simpl. rewrite Hf, lookup_put_group_eq.
    simpl. by rewrite lookup_insert_eq.
  - intros name v Hin Hm Hb. unfold stored_track. cbn [from_option].
    unfold track_attrs. rewrite !set_attrs_app.
    rewrite set_attrs_lookup_ne.
    2:{ simpl. rewrite !not_elem_of_cons. split_and!; [done..|apply not_elem_of_nil]. }
    apply set_attrs_lookup.
    + by rewrite stats_attrs_names.
    + apply list_elem_of_fmap. by exists (name, v).
  - intros Hno. by rewrite Hfixed.
  - intros Hno. by rewrite Hfixed.
  - intros Hno. by rewrite Hfixed.
  - intros Hno. by rewrite Hfixed.
  - intros name. unfold stored_track. cbn [from_option].
    rewrite set_attrs_keys, track_attrs_names. simpl ds_attrs.
    rewrite lookup_empty. unfold track_attr_names.
    rewrite !elem_of_app, !elem_of_cons, !elem_of_nil.
    split.
    + intros [[Hfix|[?|Hh]]|[? Hx]]; [|by right| |done].
      * left. destruct Hfix as [?|[?|[?|[?|[]]]]]; auto 10.
      * left. destruct Hh as [?|[?|[]]]; auto 10.
    + intros [Hn|?]; [|left; right; by left].
      left. destruct Hn as [?|[?|[?|[?|[?|[?|[]]]]]]]; auto 10.
Qed.

Lemma get_track_meta_after_add_track_witness :
  w_locked world1 = false ∧
  (add_track "c" "1" nine_frames (Some shadowing_track) None world1).1 = Ok tt ∧
  NoDup (get_stats shadowing_track).*1 ∧
  ∃ m, (get_track_meta "c" "1"
          (add_track "c" "1" nine_frames (Some shadowing_track) None world1).2).1
       = Ok m ∧
    (∀ name v, (name, v) ∈ get_stats shadowing_track →
       name ≠ "mass_history" → name ≠ "bounds_history" →
       m !! name = Some (AScalar v)) ∧
    ("id" ∉ (get_stats shadowing_track).*1 →
     m !! "id" = Some (AScalar (t_id shadowing_track))) ∧
    ("tag" ∉ (get_stats shadowing_track).*1 →
     m !! "tag" = Some (AScalar (t_tag shadowing_track))) ∧
    ("start_time" ∉ (get_stats shadowing_track).*1 →
     m !! "start_time"
       = Some (AScalar (PStr (isoformat (start_time shadowing_track))))) ∧
    ("end_time" ∉ (get_stats shadowing_track).*1 →
     m !! "end_time"
       = Some (AScalar (PStr (isoformat (end_time shadowing_track))))) ∧
    (∀ name, is_Some (m !! name) ↔
             name ∈ track_attr_names ∨ name ∈ (get_stats shadowing_track).*1).
Proof.
  split; [reflexivity|]. split; [vm_compute; reflexivity|].
  assert (Hnd : NoDup (get_stats shadowing_track).*1).
  { compute_done. }
  split; [exact Hnd|].
  apply (get_track_meta_after_add_track "c" "1" nine_frames shadowing_track None
           world1); [reflexivity|vm_compute; reflexivity|exact Hnd].
Defined.

(** ** The [finished] marker *)



(** X8.  The life of the [finished] marker, with link names for the ids and
    in the file.  Once [has_clip(c)] is [True] it stays [True] through every
    call except a [create_clip(c, overwrite=True)]; and when it is [False]
    before a call and [True] after it, that call was a [create_clip] or an
    [add_track] of the clip [c] and it returned: a call that raises never
    makes a clip finished. *)
Theorem finished_marker_lifecycle (k : call) (w : world) (c : string) :
  w_locked w = false →
  store_plain (w_file w) = true →
  call_plain k = true →
  link_name c = true →
  ((has_clip c w).1 = Ok true →
   (∀ tr, k ≠ CreateClip c tr true) →
   (has_clip c (perform k w)).1 = Ok true) ∧
  ((has_clip c w).1 = Ok false →
   (has_clip c (perform k w)).1 = Ok true →
   raised k w = false ∧ writes_to k = Some c).
Proof.
  intros Hl _ _ _. pose proof (perform_unlocked k w Hl) as Hl'.
  rewrite !has_clip_run by done. simpl. split.
  - intros [= Hfin] Hk. f_equal. by apply perform_keeps_finished.
  - intros [= Hnot] [= Hfin]. by apply perform_new_finished.
Qed.

Lemma finished_marker_lifecycle_witness :
  w_locked world1_unfinished = false ∧
  store_plain (w_file world1_unfinished) = true ∧
  call_plain (AddTrack "c" "1" nine_frames None None) = true ∧
  link_name "c" = true ∧
  ((has_clip "c" world1_unfinished).1 = Ok true →
   (∀ tr, AddTrack "c" "1" nine_frames None None ≠ CreateClip "c" tr true) →
   (has_clip "c" (perform (AddTrack "c" "1" nine_frames None None)
                    world1_unfinished)).1 = Ok true) ∧
  ((has_clip "c" world1_unfinished).1 = Ok false →
   (has_clip "c" (perform (AddTrack "c" "1" nine_frames None None)
                    world1_unfinished)).1 = Ok true →
   raised (AddTrack "c" "1" nine_frames None None) world1_unfinished = false ∧
   writes_to (AddTrack "c" "1" nine_frames None None) = Some "c").
Proof.
  split; [reflexivity|]. split; [vm_compute; reflexivity|].
  split; [reflexivity|]. split; [reflexivity|].
  apply (finished_marker_lifecycle (AddTrack "c" "1" nine_frames None None)
           world1_unfinished "c");
    [reflexivity|vm_compute; reflexivity|reflexivity|reflexivity].
Defined.

(** ** Calls and the clips they do not name *)

(** X9.  A call changes nothing outside the clip it writes to, with link
    names for the ids and in the file: after any call, returned or raised,
    the answers of [has_clip], [get_clip_meta] and [get_track_meta] for
    every other clip are what they were, and the pairs of every other clip
    are listed as before. *)
Theorem calls_keep_other_clips (k : call) (w : world) (c' : string) :
  w_locked w = false →
  store_plain (w_file w) = true →
  call_plain k = true →
  link_name c' = true →
  writes_to k ≠ Some c' →
  (has_clip c' (perform k w)).1 = (has_clip c' w).1 ∧
  (get_clip_meta c' (perform k w)).1 = (get_clip_meta c' w).1 ∧
  (∀ t', link_name t' = true →
         (get_track_meta c' t' (perform k w)).1 = (get_track_meta c' t' w).1) ∧
  (∃ l l', (get_all_track_ids w).1 = Ok l ∧
           (get_all_track_ids (perform k w)).1 = Ok l' ∧
           ∀ t', (c', t') ∈ l' ↔ (c', t') ∈ l).
Proof.
  intros Hl _ _ _ Hk. pose proof (perform_unlocked k w Hl) as Hl'.
  pose proof (perform_frame k w c' Hl Hk) as Hfr.
  split_and!.
  - rewrite !has_clip_run by done. simpl. unfold is_finished. by rewrite Hfr.
  - rewrite !get_clip_meta_run by done. simpl. by rewrite Hfr.
  - intros t' _. rewrite !get_track_meta_run by done. simpl. by rewrite Hfr.
  - exists (track_pairs (w_file w)), (track_pairs (w_file (perform k w))).
    rewrite !get_all_track_ids_run by done. split_and!; [done..|].
    intros t'. rewrite !elem_of_track_pairs. by rewrite Hfr.
Qed.

Lemma calls_keep_other_clips_witness :
  w_locked world2 = false ∧
  store_plain (w_file world2) = true ∧
  call_plain (CreateClip "d" None true) = true ∧
  link_name "c" = true ∧
  writes_to (CreateClip "d" None true) ≠ Some "c" ∧
  (has_clip "c" (perform (CreateClip "d" None true) world2)).1
    = (has_clip "c" world2).1 ∧
  (get_clip_meta "c" (perform (CreateClip "d" None true) world2)).1
    = (get_clip_meta "c" world2).1 ∧
  (∀ t', link_name t' = true →
         (get_track_meta "c" t' (perform (CreateClip "d" None true) world2)).1
         = (get_track_meta "c" t' world2).1) ∧
  (∃ l l', (get_all_track_ids world2).1 = Ok l ∧
           (get_all_track_ids (perform (CreateClip "d" None true) world2)).1
             = Ok l' ∧
           ∀ t', ("c", t') ∈ l' ↔ ("c", t') ∈ l).
Proof.
  split; [reflexivity|]. split; [vm_compute; reflexivity|].
  split; [reflexivity|]. split; [reflexivity|].
  assert (Hne : writes_to (CreateClip "d" None true) ≠ Some "c")
    by (simpl; discriminate).
  split; [exact Hne|].
  apply (calls_keep_other_clips (CreateClip "d" None true) world2 "c");
    [reflexivity|vm_compute; reflexivity|reflexivity|reflexivity|exact Hne].
Defined.



(** ** The queries agree with each other *)

(** X11.  With link names for the ids and in the file,
    [get_track_meta(c, t)] returns exactly for the pairs that
    [get_all_track_ids] lists; for any other pair it raises [KeyError], for
    the clip when the clip is missing and for the track otherwise.
    [get_clip_meta(c)] returns exactly when the clip's node exists, finished
    or not, and [has_clip(c)] is [True] exactly when the mapping it returns
    has the key [finished]. *)
Theorem queries_agree (c t : string) (w : world) :
  w_locked w = false →
  link_name c = true →
  link_name t = true →
  store_plain (w_file w) = true →
  ∃ l, (get_all_track_ids w).1 = Ok l ∧
    ((c, t) ∈ l ↔ ∃ m, (get_track_meta c t w).1 = Ok m) ∧
    ((c, t) ∉ l →
     (get_track_meta c t w).1 =
       Err (KeyError (if (get_clip_meta c w).1 is Ok _ then t else c))) ∧
    ((∃ m, (get_clip_meta c w).1 = Ok m) ↔ is_Some (clips (w_file w) !! c)) ∧
    (clips (w_file w) !! c = None → (get_clip_meta c w).1 = Err (KeyError c)) ∧
    ((has_clip c w).1 = Ok true ↔
     ∃ m, (get_clip_meta c w).1 = Ok m ∧ is_Some (m !! "finished")).
Proof.
  intros Hl _ _ _. exists (track_pairs (w_file w)).
  rewrite get_all_track_ids_run, get_track_meta_run, get_clip_meta_run,
    has_clip_run by done.
  simpl. rewrite elem_of_track_pairs. unfold is_finished.
  destruct (clips (w_file w) !! c) as [g|] eqn:Hc.
  - destruct (g_members g !! t) as [d|] eqn:Ht; split_and!; try done.
    + split; [by eexists|]. intros _. exists g. split; [done|]. by eexists.
    + intros Hno. destruct Hno. exists g. split; [done|]. by eexists.
    + split; [by eexists|by eexists].
    + split.
      * intros [= Hfin%bool_decide_eq_true]. by eexists.
      * intros (m & [= <-] & Hfin). f_equal. by apply bool_decide_eq_true_2.
    + split; [|by intros [m ?]]. intros (g' & [= <-] & Hin).
      rewrite Ht in Hin. by destruct Hin.
    + split; [by eexists|by eexists].
    + split.
      * intros [= Hfin%bool_decide_eq_true]. by eexists.
      * intros (m & [= <-] & Hfin). f_equal. by apply bool_decide_eq_true_2.
  - split_and!; try done.
    + split; [by intros (g & ? & _)|by intros [m ?]].
    + split; [by intros [m ?]|by intros [g ?]].
    + split; [done|by intros (m & ? & _)].
Qed.

Lemma queries_agree_witness :
  w_locked world2 = false ∧
  link_name "c" = true ∧
  link_name "1" = true ∧
  store_plain (w_file world2) = true ∧
  ∃ l, (get_all_track_ids world2).1 = Ok l ∧
    (("c", "1") ∈ l ↔ ∃ m, (get_track_meta "c" "1" world2).1 = Ok m) ∧
    (("c", "1") ∉ l →
     (get_track_meta "c" "1" world2).1 =
       Err (KeyError (if (get_clip_meta "c" world2).1 is Ok _ then "1" else "c"))) ∧
    ((∃ m, (get_clip_meta "c" world2).1 = Ok m)
     ↔ is_Some (clips (w_file world2) !! "c")) ∧
    (clips (w_file world2) !! "c" = None →
     (get_clip_meta "c" world2).1 = Err (KeyError "c")) ∧
    ((has_clip "c" world2).1 = Ok true ↔
     ∃ m, (get_clip_meta "c" world2).1 = Ok m ∧ is_Some (m !! "finished")).
Proof.
  split; [reflexivity|]. split; [reflexivity|]. split; [reflexivity|].
  split; [vm_compute; reflexivity|].
  apply (queries_agree "c" "1" world2);
    [reflexivity|reflexivity|reflexivity|vm_compute; reflexivity].
Defined.

(** ** [create_clip] on a free name, [add_track] after a failure *)

Lemma create_clip_body_free c tr s :
  clips (s_file s) !! c = None →
  create_clip_body c tr false s = create_clip_body c tr true s.
Proof.
  intros Hc. unfold create_clip_body, clips_contains. wp_unfold. simpl.
  rewrite bool_decide_eq_false_2; [done|]. rewrite Hc. by intros [??].
Qed.

(** X12.  The [overwrite] flag matters only for a clip that is there: on a
    link name without a node, in a file whose names are link names,
    [create_clip] with [overwrite=False] does exactly what it does with
    [overwrite=True] -- the same result, the same file, the same gateway
    events. *)
Theorem create_clip_overwrite_irrelevant (c : string) (tr : option tracker)
    (w : world) :
  link_name c = true →
  store_plain (w_file w) = true →
  clips (w_file w) !! c = None →
  create_clip c tr false w = create_clip c tr true w.
Proof.
  intros _ _ Hc. unfold create_clip, with_manager, with_manager_in.
  destruct (lock_acquire w) as [w1|] eqn:Hacq; [|done].
  unfold lock_acquire in Hacq. destruct (w_locked w); [done|].
  injection Hacq as <-. simpl. by rewrite create_clip_body_free.
Qed.

Lemma create_clip_overwrite_irrelevant_witness :
  link_name "d" = true ∧
  store_plain (w_file world2) = true ∧
  clips (w_file world2) !! "d" = None ∧
  create_clip "d" (Some bare_tracker) false world2
    = create_clip "d" (Some bare_tracker) true world2.
Proof.
  split; [reflexivity|]. split; [vm_compute; reflexivity|].
  split; [reflexivity|].
  apply (create_clip_overwrite_irrelevant "d" (Some bare_tracker) world2);
    [reflexivity|vm_compute; reflexivity|reflexivity].
Defined.

(** On a taken name [add_track] raises and writes nothing. *)
Lemma add_track_taken c t a tk opts w g :
  w_locked w = false →
  clips (w_file w) !! c = Some g →
  is_Some (g_members g !! t) →
  (∃ e, (add_track c t a tk opts w).1 = Err e) ∧
  w_file (add_track c t a tk opts w).2 = w_file w.
Proof.
  intros Hl Hc [d Ht]. destruct (add_track_outcome c t a tk opts w Hl) as (_ & H).
  destruct (add_track c t a tk opts w) as [[[]|e|] w']; simpl in *; [| |done].
  - destruct H as (_ & g0 & Hg0 & Ht0 & _). congruence.
  - split; [by eexists|].
    destruct H as [[Hf|(g0 & d0 & Hg0 & Ht0 & _)] _]; [done|congruence].
Qed.

(** X13.  With link names for the ids and in the file, an [add_track] that
    raised after it had begun to write has left a dataset under the track's
    name: the pair is listed by
    [get_all_track_ids] although the call failed, nothing else is listed or
    unlisted, [has_clip] answers for the clip what it answered before, and
    the call cannot be repeated -- every further [add_track] of the pair
    raises and leaves the partial dataset where it is. *)
Theorem failed_add_track_leaves_track (c t : string) (a : ndarray)
    (tk : option track) (opts : option (list (string * pyval))) (w : world) :
  w_locked w = false →
  link_name c = true →
  link_name t = true →
  store_plain (w_file w) = true →
  raised (AddTrack c t a tk opts) w = true →
  w_file (add_track c t a tk opts w).2 ≠ w_file w →
  (∃ l l', (get_all_track_ids w).1 = Ok l ∧
           (get_all_track_ids (add_track c t a tk opts w).2).1 = Ok l' ∧
           ((c, t) ∉ l) ∧ ((c, t) ∈ l') ∧
           ∀ p, p ≠ (c, t) → (p ∈ l' ↔ p ∈ l)) ∧
  (has_clip c (add_track c t a tk opts w).2).1 = (has_clip c w).1 ∧
  (∀ a' tk' opts',
     (∃ e, (add_track c t a' tk' opts' (add_track c t a tk opts w).2).1 = Err e) ∧
     w_file (add_track c t a' tk' opts' (add_track c t a tk opts w).2).2
       = w_file (add_track c t a tk opts w).2).
Proof.
  intros Hl _ _ _ Hr Hchg. simpl in Hr.
  destruct (add_track_outcome c t a tk opts w Hl) as (Hl' & H).
  destruct (add_track c t a tk opts w) as [[[]|e|] w']; simpl in *; try done.
  destruct H as [[Hf|(g0 & d & Hg0 & Ht0 & Hf)] _]; [done|].
  assert (Hc' : clips (w_file w') !! c
                = Some (mk_group (g_attrs g0) (<[t := d]> (g_members g0)))).
  { rewrite Hf. apply lookup_put_group_eq. }
  split_and!.
  - exists (track_pairs (w_file w)), (track_pairs (w_file w')).
    rewrite !get_all_track_ids_run by done. split_and!; [done..| | |].
    + rewrite elem_of_track_pairs. intros (g & Hg & Hin).
      rewrite Hg0 in Hg. injection Hg as <-. rewrite Ht0 in Hin. by destruct Hin.
    + rewrite elem_of_track_pairs. eexists. split; [done|]. simpl.
      rewrite lookup_insert_eq. by eexists.
    + intros [c1 t1] Hne. rewrite !elem_of_track_pairs.
      destruct (decide (c1 = c)) as [->|Hnc].
      * rewrite Hc', Hg0. split.
        -- intros (g & [= <-] & Hin). simpl in Hin.
           rewrite lookup_insert_ne in Hin by congruence. eauto.
        -- intros (g & [= <-] & Hin). eexists. split; [done|]. simpl.
           rewrite lookup_insert_ne by congruence. done.
      * rewrite Hf, lookup_put_group_ne by done. done.
  - rewrite !has_clip_run by done. simpl. unfold is_finished.
    by rewrite Hc', Hg0.
  - intros a' tk' opts'. eapply add_track_taken; [done|done|].
    simpl. rewrite lookup_insert_eq. by eexists.
Qed.

Lemma failed_add_track_leaves_track_witness :
  w_locked (arm (Some 2%nat) world1) = false ∧
  link_name "c" = true ∧
  link_name "1" = true ∧
  store_plain (w_file (arm (Some 2%nat) world1)) = true ∧
  raised (AddTrack "c" "1" nine_frames None None) (arm (Some 2%nat) world1) = true ∧
  w_file (add_track "c" "1" nine_frames None None (arm (Some 2%nat) world1)).2
    ≠ w_file (arm (Some 2%nat) world1) ∧
  (∃ l l', (get_all_track_ids (arm (Some 2%nat) world1)).1 = Ok l ∧
           (get_all_track_ids
              (add_track "c" "1" nine_frames None None (arm (Some 2%nat) world1)).2).1
             = Ok l' ∧
           (("c", "1") ∉ l) ∧ (("c", "1") ∈ l') ∧
           ∀ p, p ≠ ("c", "1") → (p ∈ l' ↔ p ∈ l)) ∧
  (has_clip "c"
     (add_track "c" "1" nine_frames None None (arm (Some 2%nat) world1)).2).1
    = (has_clip "c" (arm (Some 2%nat) world1)).1 ∧
  (∀ a' tk' opts',
     (∃ e, (add_track "c" "1" a' tk' opts'
              (add_track "c" "1" nine_frames None None
                 (arm (Some 2%nat) world1)).2).1 = Err e) ∧
     w_file (add_track "c" "1" a' tk' opts'
               (add_track "c" "1" nine_frames None None
                  (arm (Some 2%nat) world1)).2).2
       = w_file (add_track "c" "1" nine_frames None None
                   (arm (Some 2%nat) world1)).2).
Proof.
  assert (Hchg :
    w_file (add_track "c" "1" nine_frames None None (arm (Some 2%nat) world1)).2
    ≠ w_file (arm (Some 2%nat) world1)).
  { intros Heq.
    assert (Hm : g_members <$> clips (w_file (add_track "c" "1" nine_frames None None
                                 (arm (Some 2%nat) world1)).2) !! "c"
                 = g_members <$> clips (w_file (arm (Some 2%nat) world1)) !! "c")
      by (by rewrite Heq).
    vm_compute in Hm. discriminate Hm. }
  split; [reflexivity|]. split; [reflexivity|]. split; [reflexivity|].
  split; [vm_compute; reflexivity|].
  split; [vm_compute; reflexivity|]. split; [exact Hchg|].
  apply (failed_add_track_leaves_track "c" "1" nine_frames None None
           (arm (Some 2%nat) world1));
    [reflexivity|reflexivity|reflexivity|vm_compute; reflexivity
    |vm_compute; reflexivity|exact Hchg].
Defined.

(** ** An invariant of the store *)


Lemma keeps_raise {A} I e : keeps I (@raise A e).
Proof. by intros s. Qed.





















(** ** [add_track]: when it returns, and the histories it stores *)




Lemma cast_in_range d z : in_range d z → cast d z = z.
Proof.
  unfold in_range, cast, wrap_signed. intros Hz.
  destruct d; simpl in *; rewrite Z.mod_small; lia.
Qed.

Lemma concat_rows_lookup {A} (rows : list (list A)) : ∀ i row j,
  Forall (λ r, length r = 4%nat) rows →
  rows !! i = Some row → (j < 4)%nat →
  concat rows !! (4 * i + j)%nat = row !! j.
Proof.
  induction rows as [|r rows IH]; intros i row j Hall Hi Hj; [done|].
  apply Forall_cons in Hall as [Hr Hall]. destruct i as [|i]; simpl in *.
  - injection Hi as ->. apply lookup_app_l. lia.
  - rewrite lookup_app_r by lia. rewrite <- (IH i row j Hall Hi Hj). f_equal. lia.
Qed.

Lemma cast_rows (bs : list region) :
  Forall (λ b, in_range Int32 (r_mass b) ∧ in_range Int16 (r_left b) ∧
               in_range Int16 (r_top b) ∧ in_range Int16 (r_right b) ∧
               in_range Int16 (r_bottom b)) bs →
  cast Int16 <$> concat ((λ b, [r_left b; r_top b; r_right b; r_bottom b]) <$> bs)
  = concat ((λ b, [r_left b; r_top b; r_right b; r_bottom b]) <$> bs).
Proof.
  induction 1 as [|b bs (_ & H1 & H2 & H3 & H4) _ IH]; csimpl; [done|].
  by rewrite !cast_in_range, IH.
Qed.

(** X16.  The histories are those of the record: when the masses of the
    record's [bounds_history] fit 32 bits and its coordinates 16 bits, a
    completed [add_track] stores as [mass_history] the masses in order, and
    as [bounds_history] the rows (left, top, right, bottom) in order -- entry
    [i] of the record is element [i] of the one and row [i] of the other. *)
Theorem add_track_history_contents (c t : string) (a : ndarray) (tk : track)
    (opts : option (list (string * pyval))) (w : world) :
  w_locked w = false →
  (add_track c t a (Some tk) opts w).1 = Ok tt →
  Forall (λ b, in_range Int32 (r_mass b) ∧ in_range Int16 (r_left b) ∧
               in_range Int16 (r_top b) ∧ in_range Int16 (r_right b) ∧
               in_range Int16 (r_bottom b)) (bounds_history tk) →
  ∃ m mh bh,
    (get_track_meta c t (add_track c t a (Some tk) opts w).2).1 = Ok m ∧
    m !! "mass_history" = Some (AArray mh) ∧
    m !! "bounds_history" = Some (AArray bh) ∧
    nd_data mh = r_mass <$> bounds_history tk ∧
    nd_data bh =
      concat ((λ b, [r_left b; r_top b; r_right b; r_bottom b])
              <$> bounds_history tk) ∧
    (∀ i b, bounds_history tk !! i = Some b →
       nd_data mh !! i = Some (r_mass b) ∧
       nd_data bh !! (4 * i)%nat = Some (r_left b) ∧
       nd_data bh !! (4 * i + 1)%nat = Some (r_top b) ∧
       nd_data bh !! (4 * i + 2)%nat = Some (r_right b) ∧
       nd_data bh !! (4 * i + 3)%nat = Some (r_bottom b)).
Proof.
  intros Hl Hok Hrange.
  destruct (add_track_outcome c t a (Some tk) opts w Hl) as (Hl' & H).
  rewrite Hok in H. destruct H as (_ & g0 & Hg0 & Ht & _ & Hf).
  destruct (stored_track_histories a (nd_shape a) tk opts) as [Hmass Hbounds].
  exists (ds_attrs (stored_track a (nd_shape a) (Some tk) opts)),
    (mass_history tk), (bounds_rows tk).
  assert (Hmh : nd_data (mass_history tk) = r_mass <$> bounds_history tk).
  { unfold mass_history, np_int32. simpl.
    induction Hrange as [|b bs (Hb & _) _ IH]; csimpl; [done|].
    by rewrite cast_in_range, IH. }
  assert (Hbh : nd_data (bounds_rows tk) =
    concat ((λ b, [r_left b; r_top b; r_right b; r_bottom b]) <$> bounds_history tk)).
  { unfold bounds_rows, np_int16_rows.
    pose proof (cast_rows _ Hrange) as Hcast.
    by destruct (bounds_history tk) as [|b0 bs]. }
  split_and!; [|done..|].
  - rewrite get_track_meta_run by done. simpl. rewrite Hf, lookup_put_group_eq.
    simpl. by rewrite lookup_insert_eq.
  - intros i b Hi. rewrite Hmh, Hbh. split.
    { by rewrite list_lookup_fmap, Hi. }
    assert (Hrow : ((λ b, [r_left b; r_top b; r_right b; r_bottom b])
                    <$> bounds_history tk) !! i
                   = Some [r_left b; r_top b; r_right b; r_bottom b])
      by (by rewrite list_lookup_fmap, Hi).
    assert (Hall : Forall (λ r : list Z, length r = 4%nat)
              ((λ b, [r_left b; r_top b; r_right b; r_bottom b])
               <$> bounds_history tk)).
    { apply Forall_fmap. by apply Forall_true. }
    split_and!.
    + replace (4 * i)%nat with (4 * i + 0)%nat by lia.
      by rewrite (concat_rows_lookup _ i _ 0 Hall Hrow) by lia.
    + by rewrite (concat_rows_lookup _ i _ 1 Hall Hrow) by lia.
    + by rewrite (concat_rows_lookup _ i _ 2 Hall Hrow) by lia.
    + by rewrite (concat_rows_lookup _ i _ 3 Hall Hrow) by lia.
Qed.

Lemma add_track_history_contents_witness :
  w_locked world1 = false ∧
  (add_track "c" "1" nine_frames (Some one_region_track) None world1).1 = Ok tt ∧
  Forall (λ b, in_range Int32 (r_mass b) ∧ in_range Int16 (r_left b) ∧
               in_range Int16 (r_top b) ∧ in_range Int16 (r_right b) ∧
               in_range Int16 (r_bottom b)) (bounds_history one_region_track) ∧
  ∃ m mh bh,
    (get_track_meta "c" "1"
       (add_track "c" "1" nine_frames (Some one_region_track) None world1).2).1
      = Ok m ∧
    m !! "mass_history" = Some (AArray mh) ∧
    m !! "bounds_history" = Some (AArray bh) ∧
    nd_data mh = r_mass <$> bounds_history one_region_track ∧
    nd_data bh =
      concat ((λ b, [r_left b; r_top b; r_right b; r_bottom b])
              <$> bounds_history one_region_track) ∧
    (∀ i b, bounds_history one_region_track !! i = Some b →
       nd_data mh !! i = Some (r_mass b) ∧
       nd_data bh !! (4 * i)%nat = Some (r_left b) ∧
       nd_data bh !! (4 * i + 1)%nat = Some (r_top b) ∧
       nd_data bh !! (4 * i + 2)%nat = Some (r_right b) ∧
       nd_data bh !! (4 * i + 3)%nat = Some (r_bottom b)).
Proof.
  assert (Hr : Forall (λ b, in_range Int32 (r_mass b) ∧ in_range Int16 (r_left b) ∧
               in_range Int16 (r_top b) ∧ in_range Int16 (r_right b) ∧
               in_range Int16 (r_bottom b)) (bounds_history one_region_track)).
  { repeat constructor; simpl; lia. }
  split; [reflexivity|]. split; [vm_compute; reflexivity|]. split; [exact Hr|].
  apply (add_track_history_contents "c" "1" nine_frames one_region_track None world1);
    [reflexivity|vm_compute; reflexivity|exact Hr].
Defined.

(** X17.  Tracks can be added in either order: when two [add_track] calls
    complete one after the other, and complete in the other order as well,
    the two orders leave the same file -- whether the tracks go to one clip or
    to two -- and so the same answers of every query. *)
Theorem add_track_order_irrelevant (c1 t1 : string) (a1 : ndarray)
    (tk1 : option track) (opts1 : option (list (string * pyval)))
    (c2 t2 : string) (a2 : ndarray) (tk2 : option track)
    (opts2 : option (list (string * pyval))) (w : world) :
  w_locked w = false →
  (add_track c1 t1 a1 tk1 opts1 w).1 = Ok tt →
  (add_track c2 t2 a2 tk2 opts2 (add_track c1 t1 a1 tk1 opts1 w).2).1 = Ok tt →
  (add_track c2 t2 a2 tk2 opts2 w).1 = Ok tt →
  (add_track c1 t1 a1 tk1 opts1 (add_track c2 t2 a2 tk2 opts2 w).2).1 = Ok tt →
  w_file (add_track c2 t2 a2 tk2 opts2 (add_track c1 t1 a1 tk1 opts1 w).2).2
  = w_file (add_track c1 t1 a1 tk1 opts1 (add_track c2 t2 a2 tk2 opts2 w).2).2 ∧
  (get_all_track_ids
     (add_track c2 t2 a2 tk2 opts2 (add_track c1 t1 a1 tk1 opts1 w).2).2).1
  = (get_all_track_ids
       (add_track c1 t1 a1 tk1 opts1 (add_track c2 t2 a2 tk2 opts2 w).2).2).1.
Proof.
  intros Hl H1 H12 H2 H21.
  destruct (add_track_outcome c1 t1 a1 tk1 opts1 w Hl) as (Hl1 & Ho1).
  destruct (add_track_outcome c2 t2 a2 tk2 opts2 w Hl) as (Hl2 & Ho2).
  destruct (add_track_outcome c2 t2 a2 tk2 opts2 _ Hl1) as (Hl12 & Ho12).
  destruct (add_track_outcome c1 t1 a1 tk1 opts1 _ Hl2) as (Hl21 & Ho21).
  rewrite H1 in Ho1. rewrite H2 in Ho2. rewrite H12 in Ho12. rewrite H21 in Ho21.
  destruct Ho1 as (_ & g1 & Hg1 & Ht1 & _ & Hf1).
  destruct Ho2 as (_ & g2 & Hg2 & Ht2 & _ & Hf2).
  destruct Ho12 as (_ & g2' & Hg2' & Ht2' & _ & Hf12).
  destruct Ho21 as (_ & g1' & Hg1' & Ht1' & _ & Hf21).
  assert (Hfile :
    w_file (add_track c2 t2 a2 tk2 opts2 (add_track c1 t1 a1 tk1 opts1 w).2).2
    = w_file (add_track c1 t1 a1 tk1 opts1 (add_track c2 t2 a2 tk2 opts2 w).2).2).
  { rewrite Hf12, Hf21. rewrite Hf1 in Hg2' |- *. rewrite Hf2 in Hg1' |- *.
    destruct (decide (c1 = c2)) as [->|Hne].
    - rewrite lookup_put_group_eq in Hg2', Hg1'.
      injection Hg2' as <-. injection Hg1' as <-. simpl in *.
      rewrite Hg1 in Hg2. injection Hg2 as <-.
      assert (t1 ≠ t2) by (intros ->; by rewrite lookup_insert_eq in Ht2').
      rewrite !put_group_twice, !insert_insert_eq. do 2 f_equal.
      by apply insert_insert_ne.
    - rewrite lookup_put_group_ne in Hg2', Hg1' by done.
      rewrite Hg2 in Hg2'. injection Hg2' as <-.
      rewrite Hg1 in Hg1'. injection Hg1' as <-.
      unfold put_group. simpl. f_equal. by apply insert_insert_ne. }
  split; [done|]. rewrite !get_all_track_ids_run by done. simpl. by rewrite Hfile.
Qed.

Lemma add_track_order_irrelevant_witness :
  w_locked world1 = false ∧
  (add_track "c" "1" nine_frames None None world1).1 = Ok tt ∧
  (add_track "c" "2" nine_frames (Some one_region_track) None
     (add_track "c" "1" nine_frames None None world1).2).1 = Ok tt ∧
  (add_track "c" "2" nine_frames (Some one_region_track) None world1).1 = Ok tt ∧
  (add_track "c" "1" nine_frames None None
     (add_track "c" "2" nine_frames (Some one_region_track) None world1).2).1
    = Ok tt ∧
  w_file (add_track "c" "2" nine_frames (Some one_region_track) None
            (add_track "c" "1" nine_frames None None world1).2).2
  = w_file (add_track "c" "1" nine_frames None None
              (add_track "c" "2" nine_frames (Some one_region_track) None
                 world1).2).2 ∧
  (get_all_track_ids
     (add_track "c" "2" nine_frames (Some one_region_track) None
        (add_track "c" "1" nine_frames None None world1).2).2).1
  = (get_all_track_ids
       (add_track "c" "1" nine_frames None None
          (add_track "c" "2" nine_frames (Some one_region_track) None
             world1).2).2).1.
Proof.
  split; [reflexivity|]. split; [vm_compute; reflexivity|].
  split; [vm_compute; reflexivity|]. split; [vm_compute; reflexivity|].
  split; [vm_compute; reflexivity|].
  apply (add_track_order_irrelevant "c" "1" nine_frames None None
           "c" "2" nine_frames (Some one_region_track) None world1);
    [reflexivity|vm_compute; reflexivity..].
Defined.

(** * Threads around the gateway *)

(** X26.  Two sessions never have the file open at once.  Threads that run
    lines 27, 28, 32 and 33 around their blocks, in any interleaving and
    whatever the opens and closes answer, reach only states in which at most
    one thread has the file open, and then the lock is taken.  The steps
    are those of the gateway: a single thread that makes the moves of one
    [with] statement leaves the world as [with_manager_in] leaves it. *)
Theorem open_sessions_never_exceed_one (n : nat) (w : world)
    (schedule : list (nat * move)) (σ : system) :
  sys_run schedule (sys_init n w) = Some σ →
  (open_sessions σ ≤ 1)%nat ∧
  (open_sessions σ = 1%nat → w_locked (sys_world σ) = true) ∧
  (∀ (A : Type) (env : answers) (m : mode) (block : body A),
     w_locked w = false →
     sys_run ((λ mv, (0%nat, mv)) <$> with_moves env m block) (sys_init 1 w)
     = Some (mk_system (with_manager_in env m block w).2 [Outside])).
Proof.
  intros Hrun.
  assert (Hinv : lock_invariant σ).
  { eapply sys_run_invariant; [done|]. unfold lock_invariant, sys_init. simpl.
    rewrite count_replicate_outside by done. lia. }
  pose proof (count_open_le_holding (sys_threads σ)) as Hle.
  unfold lock_invariant in Hinv. unfold open_sessions.
  split_and!.
  - destruct (w_locked (sys_world σ)); lia.
  - intros Hone. destruct (w_locked (sys_world σ)); [done|lia].
  - intros A env m block Hl. by apply with_moves_run.
Qed.

Lemma open_sessions_never_exceed_one_witness :
  sys_run one_in_block (sys_init 2 world1) = Some one_in_block_state ∧
  (open_sessions one_in_block_state ≤ 1)%nat ∧
  (open_sessions one_in_block_state = 1%nat →
   w_locked (sys_world one_in_block_state) = true) ∧
  (∀ (A : Type) (env : answers) (m : mode) (block : body A),
     w_locked world1 = false →
     sys_run ((λ mv, (0%nat, mv)) <$> with_moves env m block) (sys_init 1 world1)
     = Some (mk_system (with_manager_in env m block world1).2 [Outside])).
Proof.
  split; [vm_compute; reflexivity|].
  apply (open_sessions_never_exceed_one 2 world1 one_in_block one_in_block_state).
  vm_compute; reflexivity.
Defined.

(** X27.  An open that raises stops every thread.  When a thread has taken
    the lock and [h5py.File] raises in line 28, the thread is outside the
    [with] statement again, no thread has the file open, the lock is taken,
    and no thread can make any step: each one waits in line 27. *)
Theorem failed_open_stops_all_threads (n i : nat) (w : world) (e : exn) (m : mode) :
  w_locked w = false →
  (i < n)%nat →
  ∃ σ, sys_run [(i, Acquire); (i, Open (Some e) m)] (sys_init n w) = Some σ ∧
       sys_threads σ = replicate n Outside ∧
       w_file (sys_world σ) = w_file w ∧
       w_locked (sys_world σ) = true ∧
       open_sessions σ = 0%nat ∧
       ∀ j mv, sys_step j mv σ = None.
Proof.
  intros Hl Hi.
  assert (Hlook : replicate n Outside !! i = Some Outside)
    by (by apply lookup_replicate_2).
  eexists. split.
  { simpl. unfold sys_step, sys_init. simpl. rewrite Hlook. simpl.
    unfold lock_acquire. rewrite Hl. simpl.
    rewrite list_lookup_insert_eq by (by rewrite length_replicate). simpl.
    reflexivity. }
  simpl. rewrite list_insert_insert_eq.
  assert (Hsame : <[i := Outside]> (replicate n Outside) = replicate n Outside)
    by (by apply list_insert_id).
  rewrite Hsame. split_and!; [done..| |].
  - unfold open_sessions. simpl. by apply count_replicate_outside.
  - intros j mv. unfold sys_step. simpl.
    destruct (replicate n Outside !! j) as [p|] eqn:Hj; [|done].
    apply lookup_replicate in Hj as [-> _]. simpl. by destruct mv.
Qed.

Lemma failed_open_stops_all_threads_witness :
  w_locked world1 = false ∧
  (0 < 2)%nat ∧
  ∃ σ, sys_run open_fails (sys_init 2 world1) = Some σ ∧
       sys_threads σ = replicate 2 Outside ∧
       w_file (sys_world σ) = w_file world1 ∧
       w_locked (sys_world σ) = true ∧
       open_sessions σ = 0%nat ∧
       ∀ j mv, sys_step j mv σ = None.
Proof.
  split; [vm_compute; reflexivity|]. split; [lia|].
  apply (failed_open_stops_all_threads 2 0 world1 (OSError "Unable to open file") ModeR);
    [vm_compute; reflexivity|lia].
Defined.

(** * The flat-file database of [track-extractor.py] *)

Section flat_file.
Import TrackExtractor.

Lemma append_tmp_ne (path : string) : path +:+ ".tmp" ≠ path.
Proof. induction path as [|a path IH]; simpl; [done|]. intros [= H]. by apply IH. Qed.

Lemma perform_filename k st : filename (perform k st).1 = filename st.1.
Proof.
  destruct k as [|safe_write|f stats]; simpl.
  - unfold load. by destruct (st.2 !! filename st.1).
  - unfold save. destruct (st.2 !! filename st.1) as [db|]; simpl.
    + destruct (so_revision db =? revision st.1); simpl; [|done].
      destruct (os_remove _ _); [|done]. by destruct (os_rename _ _ _).
    + destruct (os_remove _ _); [|done]. by destruct (os_rename _ _ _).
  - done.
Qed.

(** Without the database file [save] raises at [os.remove], with the
    temporary file written and the revision counted up. *)
Lemma save_absent self safe_write fs :
  fs !! filename self = None →
  save self safe_write fs =
    (Some (FileNotFoundError (filename self)),
     mk_TrackDatabase (filename self) (clips self) (tracks self) (revision self + 1),
     <[filename self +:+ ".tmp" :=
         mk_save_object (tracks self) (clips self) (revision self + 1)]> fs).
Proof.
  intros Hf. unfold save. rewrite Hf. simpl. unfold os_remove.
  rewrite lookup_insert_ne by apply append_tmp_ne. by rewrite Hf.
Qed.

(** With the file at the object's revision [save] returns. *)
Lemma save_current self safe_write fs db :
  fs !! filename self = Some db →
  so_revision db = revision self →
  save self safe_write fs =
    (None,
     mk_TrackDatabase (filename self) (clips self) (tracks self) (revision self + 1),
     <[filename self :=
         mk_save_object (tracks self) (clips self) (revision self + 1)]>
       (delete (filename self +:+ ".tmp") fs)).
Proof.
  intros Hf Hrev. unfold save. rewrite Hf, Hrev, Z.eqb_refl. simpl.
  unfold os_remove. rewrite lookup_insert_ne by apply append_tmp_ne. rewrite Hf.
  unfold os_rename. rewrite lookup_delete_ne by (apply not_eq_sym, append_tmp_ne).
  rewrite lookup_insert_eq. f_equal. apply map_eq. intros p.
  destruct (decide (p = filename self)) as [->|Hp].
  { by rewrite !lookup_insert_eq. }
  rewrite !lookup_insert_ne by done.
  destruct (decide (p = filename self +:+ ".tmp")) as [->|Hp'].
  { by rewrite !lookup_delete_eq. }
  rewrite !lookup_delete_ne by done. by rewrite lookup_insert_ne.
Qed.

(** With the file at another revision [save] raises and changes nothing. *)
Lemma save_modified self safe_write fs db :
  fs !! filename self = Some db →
  so_revision db ≠ revision self →
  save self safe_write fs = (Some DatabaseModified, self, fs).
Proof.
  intros Hf Hrev. unfold save. rewrite Hf.
  by apply Z.eqb_neq in Hrev as ->.
Qed.

Lemma run_history_absent_file h : ∀ self fs,
  fs !! filename self = None →
  (run_history h (self, fs)).2 !! filename self = None ∧
  Forall (λ outcome, outcome = Some (FileNotFoundError (filename self)))
    (save_outcomes h (self, fs)).
Proof.
  induction h as [|k h IH]; intros self fs Hf; simpl; [by split|].
  destruct k as [|safe_write|f stats]; simpl.
  - assert (Hload : load self fs = mk_TrackDatabase (filename self) ∅ ∅ 0)
      by (unfold load; by rewrite Hf).
    rewrite Hload. by apply (IH (mk_TrackDatabase (filename self) ∅ ∅ 0) fs).
  - rewrite save_absent by done. simpl.
    destruct (IH (mk_TrackDatabase (filename self) (clips self) (tracks self)
                    (revision self + 1))
                (<[filename self +:+ ".tmp" :=
                     mk_save_object (tracks self) (clips self) (revision self + 1)]>
                   fs)) as [Hfile Hall].
    { simpl. by rewrite lookup_insert_ne by apply append_tmp_ne. }
    split; [done|]. by constructor.
  - by apply (IH (add_clip self f stats) fs).
Qed.

(** X18.  The database file is never created: on a folder without it,
    [save] raises [FileNotFoundError] at [os.remove] (line 74), after it has
    written the temporary file, and so does every [save] in every sequence of
    [load], [add_clip] and [save] calls; the database file does not come to
    exist. *)
Theorem database_file_is_never_created (h : list call) (self : TrackDatabase)
    (fs : disk) :
  fs !! filename self = None →
  (run_history h (self, fs)).2 !! filename self = None ∧
  Forall (λ outcome, outcome = Some (FileNotFoundError (filename self)))
    (save_outcomes h (self, fs)) ∧
  (∀ safe_write,
     is_Some ((save self safe_write fs).2 !! (filename self +:+ ".tmp"))).
Proof.
  intros Hf. split_and!.
  - by apply run_history_absent_file.
  - by apply run_history_absent_file.
  - intros safe_write. rewrite save_absent by done. simpl.
    rewrite lookup_insert_eq. by eexists.
Qed.

Lemma database_file_is_never_created_witness :
  fresh.2 !! filename fresh.1 = None ∧
  (run_history [AddClip "a.cptv" ∅; Save true; Load; Save false] fresh).2
    !! filename fresh.1 = None ∧
  Forall (λ outcome, outcome = Some (FileNotFoundError (filename fresh.1)))
    (save_outcomes [AddClip "a.cptv" ∅; Save true; Load; Save false]
       (fresh.1, fresh.2)) ∧
  (∀ safe_write,
     is_Some ((save fresh.1 safe_write fresh.2).2 !! (filename fresh.1 +:+ ".tmp"))).
Proof.
  split; [reflexivity|].
  apply (database_file_is_never_created
           [AddClip "a.cptv" ∅; Save true; Load; Save false] fresh.1 fresh.2).
  reflexivity.
Defined.

(** X19.  What [save] writes, [load] reads back: when the file is at the
    object's revision, [save] returns, the file then holds the object's
    clips and tracks under a revision one higher, and a [load] by this or by
    any other object on the same path gives exactly the state of the saved
    object.  The temporary file is gone and no other file is touched. *)
Theorem save_then_load (self : TrackDatabase) (safe_write : bool) (fs : disk)
    (db : save_object) :
  fs !! filename self = Some db →
  so_revision db = revision self →
  (save self safe_write fs).1.1 = None ∧
  clips (save self safe_write fs).1.2 = clips self ∧
  tracks (save self safe_write fs).1.2 = tracks self ∧
  revision (save self safe_write fs).1.2 = revision self + 1 ∧
  (∀ other, filename other = filename self →
     load other (save self safe_write fs).2 = (save self safe_write fs).1.2) ∧
  (save self safe_write fs).2 !! (filename self +:+ ".tmp") = None ∧
  (∀ path, path ≠ filename self → path ≠ filename self +:+ ".tmp" →
     (save self safe_write fs).2 !! path = fs !! path).
Proof.
  intros Hf Hrev. rewrite (save_current self safe_write fs db) by done. simpl.
  split_and!; [done..| | |].
  - intros other Hname. unfold load. rewrite Hname, lookup_insert_eq. done.
  - rewrite lookup_insert_ne by (apply not_eq_sym, append_tmp_ne).
    apply lookup_delete_eq.
  - intros path Hp Hp'. rewrite lookup_insert_ne by done.
    by rewrite lookup_delete_ne.
Qed.

Lemma save_then_load_witness :
  folder !! filename (add_clip (__init__ "tracks.db" folder) "b.cptv" ∅)
    = Some (mk_save_object ∅ {["a.cptv" := ∅]} 3) ∧
  so_revision (mk_save_object ∅ {["a.cptv" := ∅]} 3)
    = revision (add_clip (__init__ "tracks.db" folder) "b.cptv" ∅) ∧
  (save (add_clip (__init__ "tracks.db" folder) "b.cptv" ∅) true folder).1.1 = None ∧
  clips (save (add_clip (__init__ "tracks.db" folder) "b.cptv" ∅) true folder).1.2
    = clips (add_clip (__init__ "tracks.db" folder) "b.cptv" ∅) ∧
  tracks (save (add_clip (__init__ "tracks.db" folder) "b.cptv" ∅) true folder).1.2
    = tracks (add_clip (__init__ "tracks.db" folder) "b.cptv" ∅) ∧
  revision (save (add_clip (__init__ "tracks.db" folder) "b.cptv" ∅) true folder).1.2
    = revision (add_clip (__init__ "tracks.db" folder) "b.cptv" ∅) + 1 ∧
  (∀ other,
     filename other = filename (add_clip (__init__ "tracks.db" folder) "b.cptv" ∅) →
     load other (save (add_clip (__init__ "tracks.db" folder) "b.cptv" ∅) true folder).2
     = (save (add_clip (__init__ "tracks.db" folder) "b.cptv" ∅) true folder).1.2) ∧
  (save (add_clip (__init__ "tracks.db" folder) "b.cptv" ∅) true folder).2
    !! (filename (add_clip (__init__ "tracks.db" folder) "b.cptv" ∅) +:+ ".tmp")
    = None ∧
  (∀ path,
     path ≠ filename (add_clip (__init__ "tracks.db" folder) "b.cptv" ∅) →
     path ≠ filename (add_clip (__init__ "tracks.db" folder) "b.cptv" ∅) +:+ ".tmp" →
     (save (add_clip (__init__ "tracks.db" folder) "b.cptv" ∅) true folder).2 !! path
     = folder !! path).
Proof.
  split; [reflexivity|]. split; [reflexivity|].
  apply (save_then_load (add_clip (__init__ "tracks.db" folder) "b.cptv" ∅) true
           folder (mk_save_object ∅ {["a.cptv" := ∅]} 3)); reflexivity.
Defined.

(** X20.  The revision counter lets one writer win: of two objects that
    loaded the same revision of the file, the one that saves first returns;
    the [save] of the other then raises the "modified by another program"
    exception, whatever [safe_write] is, and changes neither the files nor
    the object.  To get on, the second must [load], which replaces its clips
    by the saved ones: the clips it had added are dropped. *)
Theorem stale_save_is_refused (a b : TrackDatabase) (safe_a safe_b : bool)
    (fs : disk) (db : save_object) :
  filename b = filename a →
  fs !! filename a = Some db →
  so_revision db = revision a →
  revision b = revision a →
  (save a safe_a fs).1.1 = None ∧
  save b safe_b (save a safe_a fs).2
    = (Some DatabaseModified, b, (save a safe_a fs).2) ∧
  load b (save a safe_a fs).2 = (save a safe_a fs).1.2 ∧
  clips (load b (save a safe_a fs).2) = clips a.
Proof.
  intros Hname Hf Hrev Hb. rewrite (save_current a safe_a fs db) by done. simpl.
  split_and!; [done| | |].
  - eapply save_modified.
    + rewrite Hname. apply lookup_insert_eq.
    + simpl. lia.
  - unfold load. by rewrite Hname, lookup_insert_eq.
  - unfold load. by rewrite Hname, lookup_insert_eq.
Qed.

Lemma stale_save_is_refused_witness :
  filename (add_clip (__init__ "tracks.db" folder) "c.cptv" ∅)
    = filename (add_clip (__init__ "tracks.db" folder) "b.cptv" ∅) ∧
  folder !! filename (add_clip (__init__ "tracks.db" folder) "b.cptv" ∅)
    = Some (mk_save_object ∅ {["a.cptv" := ∅]} 3) ∧
  (save (add_clip (__init__ "tracks.db" folder) "b.cptv" ∅) true folder).1.1 = None ∧
  save (add_clip (__init__ "tracks.db" folder) "c.cptv" ∅) false
    (save (add_clip (__init__ "tracks.db" folder) "b.cptv" ∅) true folder).2
    = (Some DatabaseModified, add_clip (__init__ "tracks.db" folder) "c.cptv" ∅,
       (save (add_clip (__init__ "tracks.db" folder) "b.cptv" ∅) true folder).2) ∧
  load (add_clip (__init__ "tracks.db" folder) "c.cptv" ∅)
    (save (add_clip (__init__ "tracks.db" folder) "b.cptv" ∅) true folder).2
    = (save (add_clip (__init__ "tracks.db" folder) "b.cptv" ∅) true folder).1.2 ∧
  clips (load (add_clip (__init__ "tracks.db" folder) "c.cptv" ∅)
           (save (add_clip (__init__ "tracks.db" folder) "b.cptv" ∅) true folder).2)
    = clips (add_clip (__init__ "tracks.db" folder) "b.cptv" ∅).
Proof.
  split; [reflexivity|]. split; [reflexivity|].
  apply (stale_save_is_refused
           (add_clip (__init__ "tracks.db" folder) "b.cptv" ∅)
           (add_clip (__init__ "tracks.db" folder) "c.cptv" ∅) true false folder
           (mk_save_object ∅ {["a.cptv" := ∅]} 3)); reflexivity.
Defined.

Lemma perform_no_tracks k self fs :
  tracks self = ∅ → no_tracks fs →
  tracks (perform k (self, fs)).1 = ∅ ∧ no_tracks (perform k (self, fs)).2.
Proof.
  intros Ht Hfs. destruct k as [|safe_write|f stats]; simpl; [|  |done].
  - split; [|done]. unfold load.
    destruct (fs !! filename self) as [db|] eqn:Hf; simpl; [|done]. by eapply Hfs.
  - destruct (fs !! filename self) as [db|] eqn:Hf.
    + destruct (decide (so_revision db = revision self)) as [Hrev|Hrev].
      * rewrite (save_current self safe_write fs db) by done. simpl.
        split; [done|]. intros p so Hp.
        apply lookup_insert_Some in Hp as [[_ <-]|[_ Hp]]; [done|].
        apply lookup_delete_Some in Hp as [_ Hp]. by eapply Hfs.
      * by rewrite (save_modified self safe_write fs db).
    + rewrite save_absent by done. simpl. split; [done|]. intros p so Hp.
      apply lookup_insert_Some in Hp as [[_ <-]|[_ Hp]]; [done|]. by eapply Hfs.
Qed.

(** X21.  [add_clip] is not seen by [has_clip]: [add_clip] files the clip
    under [self.clips], where line 205 of [process_file] looks for it, and
    [has_clip] looks in [self.tracks], which no method writes.  So [has_clip]
    answers after an [add_clip] what it answered before, and on a database
    whose files hold no track entry it answers [False] for every name after
    every sequence of [load], [add_clip] and [save] calls. *)
Theorem add_clip_is_not_seen_by_has_clip (self : TrackDatabase) (fs : disk)
    (h : list call) (name : string) :
  (∀ new stats,
     has_clip (add_clip self new stats) name = has_clip self name ∧
     clips (add_clip self new stats) !! new = Some stats) ∧
  (tracks self = ∅ → no_tracks fs →
   has_clip (run_history h (self, fs)).1 name = false) ∧
  has_clip (run_history h (__init__ (filename self) ∅, ∅)).1 name = false.
Proof.
  assert (Hrun : ∀ h self fs, tracks self = ∅ → no_tracks fs →
                   tracks (run_history h (self, fs)).1 = ∅).
  { clear. induction h as [|k h IH]; intros self fs Ht Hfs; simpl; [done|].
    destruct (perform_no_tracks k self fs Ht Hfs) as [Ht' Hfs'].
    destruct (perform k (self, fs)) as [self' fs']. by apply IH. }
  split_and!.
  - intros new stats. split; [done|]. simpl. apply lookup_insert_eq.
  - intros Ht Hfs. unfold has_clip. rewrite Hrun by done.
    rewrite lookup_empty. apply bool_decide_eq_false. by intros [??].
  - unfold has_clip. rewrite Hrun; [| done |by intros p so Hp].
    rewrite lookup_empty. apply bool_decide_eq_false. by intros [??].
Qed.

End flat_file.

(** * The hints file of [track-extractor.py] *)

Section hints.
Import TrackExtractor.

Variable int : text → option Z.

Lemma read_hints_app l1 : ∀ n l2 hints,
  read_hints int n (l1 ++ l2) hints =
    match read_hints int n l1 hints with
    | (None, hints1) => read_hints int (n + length l1) l2 hints1
    | (Some e, hints1) => (Some e, hints1)
    end.
Proof.
  induction l1 as [|line l1 IH]; intros n l2 hints; simpl.
  - by rewrite Nat.add_0_r.
  - replace (n + S (length l1))%nat with (S n + length l1)%nat by lia.
    destruct (is_comment (strip line)); [apply IH|].
    destruct (split (strip line)) as [|f [|m more]]; [done..|].
    destruct (int m); [apply IH|done].
Qed.

(** What the loop started with stays below what it adds. *)
Lemma read_hints_acc lines : ∀ n hints,
  read_hints int n lines hints =
    ((read_hints int n lines ∅).1, (read_hints int n lines ∅).2 ∪ hints).
Proof.
  induction lines as [|line lines IH]; intros n hints; simpl.
  - by rewrite (left_id_L ∅ (∪)).
  - destruct (is_comment (strip line)); [apply IH|].
    destruct (split (strip line)) as [|f [|m more]]; simpl;
      try by rewrite (left_id_L ∅ (∪)).
    destruct (int m) as [z|]; simpl; [|by rewrite (left_id_L ∅ (∪))].
    rewrite (IH _ (<[f := z]> hints)), (IH _ (<[f := z]> ∅)). simpl. f_equal.
    rewrite insert_empty, <- (assoc_L (∪)). by rewrite <- insert_union_singleton_l.
Qed.

(** The number of the first line matters to the message of the error
    only. *)
Lemma read_hints_shift lines : ∀ n m hints,
  (read_hints int n lines hints).2 = (read_hints int m lines hints).2 ∧
  ((read_hints int n lines hints).1 = None ↔ (read_hints int m lines hints).1 = None).
Proof.
  induction lines as [|line lines IH]; intros n m hints; simpl; [done|].
  destruct (is_comment (strip line)); [apply IH|].
  destruct (split (strip line)) as [|f [|k more]]; simpl; [done..|].
  destruct (int k); [apply IH|done].
Qed.

Lemma lstrip_spaces ws : Forall (λ ch, isspace ch = true) ws → lstrip ws = [].
Proof. induction 1 as [|ch ws Hch _ IH]; simpl; [done|]. by rewrite Hch. Qed.

Lemma lstrip_spaces_app ws s :
  Forall (λ ch, isspace ch = true) ws → lstrip (ws ++ s) = lstrip s.
Proof. induction 1 as [|ch ws Hch _ IH]; simpl; [done|]. by rewrite Hch. Qed.

Lemma lstrip_snoc s ch :
  isspace ch = false → lstrip (s ++ [ch]) = lstrip s ++ [ch].
Proof.
  intros Hch. induction s as [|c s IH]; simpl; [by rewrite Hch|].
  by destruct (isspace c).
Qed.

Lemma ignored_is_comment line : ignored line → is_comment (strip line) = true.
Proof.
  intros (ws & rest & Hws & [->| ->]); unfold strip.
  - rewrite (lstrip_spaces ws) by done. reflexivity.
  - rewrite lstrip_spaces_app by done. simpl lstrip.
    rewrite reverse_cons, lstrip_snoc by done. by rewrite reverse_snoc.
Qed.

(** X22.  A line of the hints file that is neither blank nor a comment and
    has fewer than two fields makes [load_hints] raise the exception "Error
    on line n", with the number of the line counted from 0 and the text of
    the line stripped; a second field that [int] does not accept makes it
    raise [int]'s [ValueError].  Either way the lines after it are not read,
    and [self.hints] is left holding the hints of the lines before it. *)
Theorem load_hints_bad_line (good : list text) (bad : text) (rest : list text)
    (hints : gmap text Z) :
  load_hints int (Some good) = (None, hints) →
  is_comment (strip bad) = false →
  ((length (split (strip bad)) < 2)%nat →
   load_hints int (Some (good ++ bad :: rest))
     = (Some (ErrorOnLine (length good) (strip bad)), hints)) ∧
  (∀ name token more,
     split (strip bad) = name :: token :: more → int token = None →
     load_hints int (Some (good ++ bad :: rest))
       = (Some (IntValueError token), hints)).
Proof.
  unfold load_hints. intros Hgood Hbad. split.
  - intros Hlen. rewrite read_hints_app, Hgood. simpl. rewrite Hbad.
    destruct (split (strip bad)) as [|f [|m more]]; [done..|]. simpl in Hlen. lia.
  - intros name token more Hsplit Hint. rewrite read_hints_app, Hgood. simpl.
    by rewrite Hbad, Hsplit, Hint.
Qed.

(** X23.  The hints of a file are those of its lines in order, a later line
    for a file name replacing an earlier one: when two sequences of lines
    load without error, their concatenation loads without error and gives
    the hints of the second over those of the first. *)
Theorem load_hints_later_lines_win (l1 l2 : list text) (h1 h2 : gmap text Z) :
  load_hints int (Some l1) = (None, h1) →
  load_hints int (Some l2) = (None, h2) →
  load_hints int (Some (l1 ++ l2)) = (None, h2 ∪ h1) ∧
  (∀ name max_tracks, h2 !! name = Some max_tracks →
                      (h2 ∪ h1) !! name = Some max_tracks) ∧
  (∀ name, h2 !! name = None → (h2 ∪ h1) !! name = h1 !! name).
Proof.
  unfold load_hints. intros H1 H2. split_and!.
  - rewrite read_hints_app, H1, read_hints_acc.
    destruct (read_hints_shift l2 (0 + length l1) 0 ∅) as [Hh Herr].
    rewrite H2 in Hh, Herr. simpl in *. rewrite Hh. f_equal.
    by apply Herr.
  - intros name z Hz. by apply lookup_union_Some_l.
  - intros name Hn. by apply lookup_union_r.
Qed.

(** X24.  Blank lines and comments do not count: a line that is white space
    only, or white space followed by [#] and anything, can be put into a
    hints file or taken out of it without changing the hints that
    [load_hints] reads or whether it raises. *)
Theorem load_hints_ignores_comments (l1 : list text) (comment : text)
    (l2 : list text) :
  ignored comment →
  (load_hints int (Some (l1 ++ comment :: l2))).2
    = (load_hints int (Some (l1 ++ l2))).2 ∧
  ((load_hints int (Some (l1 ++ comment :: l2))).1 = None ↔
   (load_hints int (Some (l1 ++ l2))).1 = None).
Proof.
  intros Hc%ignored_is_comment. unfold load_hints. rewrite !read_hints_app.
  destruct (read_hints int 0 l1 ∅) as [[e|] hints1]; [done|].
  simpl. rewrite Hc. apply read_hints_shift.
Qed.

End hints.

Lemma load_hints_bad_line_witness :
  TrackExtractor.load_hints TrackExtractor.decimal
    (Some (take 2 TrackExtractor.hint_lines))
    = (None, {[ [97; 46; 99; 112; 116; 118]%N := 2 ]}) ∧
  TrackExtractor.is_comment
    (TrackExtractor.strip [98; 46; 99; 112; 116; 118; 10]%N) = false ∧
  ((length (TrackExtractor.split
              (TrackExtractor.strip [98; 46; 99; 112; 116; 118; 10]%N)) < 2)%nat →
   TrackExtractor.load_hints TrackExtractor.decimal
     (Some (take 2 TrackExtractor.hint_lines ++
            [98; 46; 99; 112; 116; 118; 10]%N :: drop 3 TrackExtractor.hint_lines))
     = (Some (TrackExtractor.ErrorOnLine (length (take 2 TrackExtractor.hint_lines))
                (TrackExtractor.strip [98; 46; 99; 112; 116; 118; 10]%N)),
        {[ [97; 46; 99; 112; 116; 118]%N := 2 ]})) ∧
  (∀ name token more,
     TrackExtractor.split (TrackExtractor.strip [98; 46; 99; 112; 116; 118; 10]%N)
       = name :: token :: more →
     TrackExtractor.decimal token = None →
     TrackExtractor.load_hints TrackExtractor.decimal
       (Some (take 2 TrackExtractor.hint_lines ++
              [98; 46; 99; 112; 116; 118; 10]%N :: drop 3 TrackExtractor.hint_lines))
       = (Some (TrackExtractor.IntValueError token),
          {[ [97; 46; 99; 112; 116; 118]%N := 2 ]})).
Proof.
  split; [vm_compute; reflexivity|]. split; [reflexivity|].
  apply (load_hints_bad_line TrackExtractor.decimal
           (take 2 TrackExtractor.hint_lines) [98; 46; 99; 112; 116; 118; 10]%N
           (drop 3 TrackExtractor.hint_lines)
           {[ [97; 46; 99; 112; 116; 118]%N := 2 ]});
    [vm_compute; reflexivity|reflexivity].
Defined.

Lemma load_hints_later_lines_win_witness :
  TrackExtractor.load_hints TrackExtractor.decimal
    (Some (take 2 TrackExtractor.hint_lines))
    = (None, {[ [97; 46; 99; 112; 116; 118]%N := 2 ]}) ∧
  TrackExtractor.load_hints TrackExtractor.decimal
    (Some [[97; 46; 99; 112; 116; 118; 32; 48; 32; 120]%N])
    = (None, {[ [97; 46; 99; 112; 116; 118]%N := 0 ]}) ∧
  TrackExtractor.load_hints TrackExtractor.decimal
    (Some (take 2 TrackExtractor.hint_lines ++
           [[97; 46; 99; 112; 116; 118; 32; 48; 32; 120]%N]))
    = (None, {[ [97; 46; 99; 112; 116; 118]%N := 0 ]}
             ∪ {[ [97; 46; 99; 112; 116; 118]%N := 2 ]}) ∧
  (∀ name max_tracks,
     ({[ [97; 46; 99; 112; 116; 118]%N := 0 ]} : gmap (list N) Z) !! name
       = Some max_tracks →
     (({[ [97; 46; 99; 112; 116; 118]%N := 0 ]} : gmap (list N) Z)
      ∪ {[ [97; 46; 99; 112; 116; 118]%N := 2 ]}) !! name = Some max_tracks) ∧
  (∀ name,
     ({[ [97; 46; 99; 112; 116; 118]%N := 0 ]} : gmap (list N) Z) !! name = None →
     (({[ [97; 46; 99; 112; 116; 118]%N := 0 ]} : gmap (list N) Z)
      ∪ {[ [97; 46; 99; 112; 116; 118]%N := 2 ]}) !! name
     = ({[ [97; 46; 99; 112; 116; 118]%N := 2 ]} : gmap (list N) Z) !! name).
Proof.
  split; [vm_compute; reflexivity|]. split; [vm_compute; reflexivity|].
  apply (load_hints_later_lines_win TrackExtractor.decimal
           (take 2 TrackExtractor.hint_lines)
           [[97; 46; 99; 112; 116; 118; 32; 48; 32; 120]%N]
           {[ [97; 46; 99; 112; 116; 118]%N := 2 ]}
           {[ [97; 46; 99; 112; 116; 118]%N := 0 ]});
    vm_compute; reflexivity.
Defined.

Lemma load_hints_ignores_comments_witness :
  TrackExtractor.ignored [32; 9; 35; 32; 120; 10]%N ∧
  (TrackExtractor.load_hints TrackExtractor.decimal
     (Some (take 2 TrackExtractor.hint_lines ++
            [32; 9; 35; 32; 120; 10]%N :: drop 3 TrackExtractor.hint_lines))).2
    = (TrackExtractor.load_hints TrackExtractor.decimal
         (Some (take 2 TrackExtractor.hint_lines
                ++ drop 3 TrackExtractor.hint_lines))).2 ∧
  ((TrackExtractor.load_hints TrackExtractor.decimal
      (Some (take 2 TrackExtractor.hint_lines ++
             [32; 9; 35; 32; 120; 10]%N :: drop 3 TrackExtractor.hint_lines))).1
     = None ↔
   (TrackExtractor.load_hints TrackExtractor.decimal
      (Some (take 2 TrackExtractor.hint_lines
             ++ drop 3 TrackExtractor.hint_lines))).1 = None).
Proof.
  assert (Hc : TrackExtractor.ignored [32; 9; 35; 32; 120; 10]%N).
  { exists [32; 9]%N, [32; 120; 10]%N. split; [|by right].
    repeat constructor. }
  split; [exact Hc|].
  apply (load_hints_ignores_comments TrackExtractor.decimal
           (take 2 TrackExtractor.hint_lines) [32; 9; 35; 32; 120; 10]%N
           (drop 3 TrackExtractor.hint_lines) Hc).
Defined.

(** * The extraction settings *)

(** X25.  [ExtractConfig.load] needs the four keys and nothing else: it
    returns a configuration exactly when the mapping has a value for each of
    [enable_compression], [include_filtered_channel], [preview] and
    [hints_file], and the configuration then holds these values; otherwise it
    raises [KeyError] for the first of the four, in this order, that is
    missing.  Any other key of the mapping is ignored. *)
Theorem extract_config_load (extract : gmap string pyval) :
  (∀ cfg, ExtractConfig.load extract = Returned cfg ↔
     extract !! "enable_compression" = Some (ExtractConfig.enable_compression cfg) ∧
     extract !! "include_filtered_channel"
       = Some (ExtractConfig.include_filtered_channel cfg) ∧
     extract !! "preview" = Some (ExtractConfig.preview cfg) ∧
     extract !! "hints_file" = Some (ExtractConfig.hints_file cfg)) ∧
  (∀ e, ExtractConfig.load extract = Raised e ↔
     ∃ before key after,
       ExtractConfig.keys = before ++ key :: after ∧
       Forall (λ k, is_Some (extract !! k)) before ∧
       extract !! key = None ∧ e = KeyError key) ∧
  (∀ other v, other ∉ ExtractConfig.keys →
     ExtractConfig.load (<[other := v]> extract) = ExtractConfig.load extract).
Proof.
  unfold ExtractConfig.load, ExtractConfig.getitem, ExtractConfig.keys.
  split_and!.
  - intros [c i p f]. simpl.
    destruct (extract !! "enable_compression") as [c'|]; [|by split; [|intros [? _]]].
    destruct (extract !! "include_filtered_channel") as [i'|];
      [|by split; [|intros (_ & ? & _)]].
    destruct (extract !! "preview") as [p'|]; [|by split; [|intros (_ & _ & ? & _)]].
    destruct (extract !! "hints_file") as [f'|];
      [|by split; [|intros (_ & _ & _ & ?)]].
    split; [by intros [= -> -> -> ->]|]. by intros ([= ->] & [= ->] & [= ->] & [= ->]).
  - intros e.
    destruct (extract !! "enable_compression") as [c'|] eqn:Hc.
    2:{ split.
        - intros [= <-]. by eexists [], "enable_compression", _.
        - intros (before & key & after & Hk & Hall & Hmiss & ->).
          destruct before as [|k1 before]; simplify_eq/=; [done|].
          apply Forall_cons in Hall as [[? ?] _]. congruence. }
    destruct (extract !! "include_filtered_channel") as [i'|] eqn:Hi.
    2:{ split.
        - intros [= <-]. eexists ["enable_compression"], "include_filtered_channel", _.
          split_and!; [done| |done..]. repeat constructor. by eexists.
        - intros (before & key & after & Hk & Hall & Hmiss & ->).
          destruct before as [|k1 [|k2 before]]; simplify_eq/=; [done|].
          apply Forall_cons in Hall as [_ Hall].
          apply Forall_cons in Hall as [[? ?] _]. congruence. }
    destruct (extract !! "preview") as [p'|] eqn:Hp.
    2:{ split.
        - intros [= <-].
          eexists ["enable_compression"; "include_filtered_channel"], "preview", _.
          split_and!; [done| |done..]. repeat constructor; by eexists.
        - intros (before & key & after & Hk & Hall & Hmiss & ->).
          destruct before as [|k1 [|k2 [|k3 before]]]; simplify_eq/=; [done|].
          do 2 apply Forall_cons in Hall as [_ Hall].
          apply Forall_cons in Hall as [[? ?] _]. congruence. }
    destruct (extract !! "hints_file") as [f'|] eqn:Hf.
    2:{ split.
        - intros [= <-].
          eexists ["enable_compression"; "include_filtered_channel"; "preview"],
            "hints_file", _.
          split_and!; [done| |done..]. repeat constructor; by eexists.
        - intros (before & key & after & Hk & Hall & Hmiss & ->).
          destruct before as [|k1 [|k2 [|k3 [|k4 before]]]]; simplify_eq/=; [done|].
          destruct before; simplify_eq/=. }
    split; [done|].
    intros (before & key & after & Hk & Hall & Hmiss & ->).
    destruct before as [|k1 [|k2 [|k3 [|k4 before]]]]; simplify_eq/=.
    destruct before; simplify_eq/=.
  - intros other v Hother. rewrite !not_elem_of_cons in Hother.
    destruct Hother as (? & ? & ? & ? & _).
    by rewrite !lookup_insert_ne by done.
Qed.
